(** * Teacher Monitor: persistence, report modules and PDF export

    A shallow embedding of the TypeScript sources
    ([utils/db.ts], [utils/pdfUtils.ts], [hooks/useLocalStorage.ts],
    [components/SettingsModule.tsx], [components/SupervisionModule.tsx],
    the book-checking and work-coverage modules, the teacher directory,
    the dashboard, the teacher profile and the navigation of the
    application) together with the properties the specification states
    about them.

    The first part holds the definitions: the JavaScript built-ins the
    program calls, the store, the export routine, the live-query hook, the
    report modules and the settings module, followed by the notions the
    properties are stated with and by sample data.  The second part holds
    the lemmas, the theorems C1 to C10 and further properties of the same
    code, X1 to X26.

    Conventions.
    - A JavaScript string is the Rocq string of its UTF-8 bytes, which is
      how a string literal of the sources reads in this file.  [trim]
      removes every white-space and line-terminator code point of the
      language; [toLowerCase] is the case conversion of the engine.
    - JavaScript numbers that the program stores are integers (ratings,
      time stamps, pixel counts) and are modelled by [Z]; [NaN] is [None].
      The page geometry of the PDF routine is computed in exact rational
      arithmetic ([Q]): rounding of the floating-point operations is not
      modelled.
    - The services of the engine that depend on its environment or on
      tables that are not part of the sources (the time zone of [Date], the
      collation of [localeCompare], the Unicode case conversion of
      [toLowerCase]) are fields of the class [Runtime]; what the properties
      need to know about them is stated by the classes [Collation] and
      [CaseMapping].  [Reference.runtime] is one such environment.
    - [Array.prototype.sort] is a stable sort.  The language fixes the
      resulting order only for a comparator that orders the elements; the
      properties state an order under that condition only, and otherwise
      only that the result is a rearrangement of the array.
    - The primary keys of the store are strings, as the data model declares
      them ([id: string], [key: string]); records keyed otherwise are
      outside the model.
    - The embedded database is modelled by its contract: tables keyed by
      the primary key, insert-or-replace, insert, bulk insert, delete,
      clear, and transactions that commit or roll back as a whole.  A row
      always sits under its own primary key ([Db.wellKeyed]); the second
      part shows that every operation keeps this invariant. *)

From Stdlib Require Import ZArith QArith Qfield Lia Lqa String Ascii List.
From Stdlib Require Import DecimalString.
From Stdlib Require Import Sorting.Sorted Sorting.Permutation.
From stdpp Require Import gmap strings list fin_maps.

Local Open Scope string_scope.
Local Open Scope list_scope.
Local Open Scope Z_scope.

(* ===================================================================== *)
(** * JavaScript values and the string built-ins the program calls       *)
(* ===================================================================== *)

Module Js.

(** A JSON-representable JavaScript value.  An object is the list of its own
    properties in insertion order. *)
#[warnings="-register-all"]
Inductive value : Type :=
| VNull
| VBool (b : bool)
| VNum (n : Z)
| VStr (s : string)
| VArr (items : list value)
| VObj (fields : list (string * value)).

(** [assoc k fields] is the property [k] of an object literal. *)
Fixpoint assoc (k : string) (fields : list (string * value)) : option value :=
  match fields with
  | [] => None
  | (k', v) :: rest => if String.eqb k k' then Some v else assoc k rest
  end.

(** The result of a property read [v.k]: a [TypeError] on [null], the value
    [undefined] when the property is absent, the property otherwise. *)
Inductive propRead : Type :=
| ReadThrows
| ReadUndefined
| ReadValue (v : value).

Definition getProp (v : value) (k : string) : propRead :=
  match v with
  | VNull => ReadThrows
  | VObj fields =>
      match assoc k fields with
      | Some x => ReadValue x
      | None => ReadUndefined
      end
  | _ => ReadUndefined
  end.

(** JavaScript truthiness, as used by [if (x)] and [x || y]. *)
Definition truthy (v : value) : bool :=
  match v with
  | VNull => false
  | VBool b => b
  | VNum n => negb (n =? 0)
  | VStr s => negb (String.eqb s "")
  | VArr _ => true
  | VObj _ => true
  end.

(** [s || d] on strings: the empty string is falsy. *)
Definition strOr (s d : string) : string :=
  if String.eqb s "" then d else s.

(** [!s] on a string. *)
Definition strFalsy (s : string) : bool := String.eqb s "".

(** ** Text

    [chars] and [text] pass between a string and the list of its bytes. *)

Definition chars (s : string) : list ascii := list_ascii_of_string s.
Definition text (l : list ascii) : string := string_of_list_ascii l.

(** The lower case of a letter A to Z; every other byte is left alone. *)
Definition lowerAscii (c : ascii) : ascii :=
  let n := nat_of_ascii c in
  if ((65 <=? n) && (n <=? 90))%nat then ascii_of_nat (n + 32) else c.

Fixpoint lowerAsciiText (s : string) : string :=
  match s with
  | EmptyString => EmptyString
  | String c rest => String (lowerAscii c) (lowerAsciiText rest)
  end.

(** The text consists of ASCII characters only. *)
Fixpoint asciiOnly (s : string) : bool :=
  match s with
  | EmptyString => true
  | String c rest => (nat_of_ascii c <? 128)%nat && asciiOnly rest
  end.

(** ** [String.prototype.includes]

    On UTF-8 text an occurrence of the bytes of [q] is an occurrence of the
    characters of [q]. *)

Fixpoint includes (s q : string) : bool :=
  if String.prefix q s then true
  else match s with
       | EmptyString => false
       | String _ rest => includes rest q
       end.

(** ** [String.prototype.trim]

    [trim] removes the code points of WhiteSpace and LineTerminator from
    both ends of a string: U+0009 to U+000D, U+0020, U+00A0, U+1680,
    U+2000 to U+200A, U+2028, U+2029, U+202F, U+205F, U+3000 and U+FEFF.
    [whiteSpace] lists their UTF-8 encodings; no encoding begins or ends
    with another one. *)

Definition whiteSpace : list (list ascii) :=
  map (map ascii_of_nat)
    [[9]; [10]; [11]; [12]; [13]; [32]; [194; 160]; [225; 154; 128];
     [226; 128; 128]; [226; 128; 129]; [226; 128; 130]; [226; 128; 131];
     [226; 128; 132]; [226; 128; 133]; [226; 128; 134]; [226; 128; 135];
     [226; 128; 136]; [226; 128; 137]; [226; 128; 138]; [226; 128; 168];
     [226; 128; 169]; [226; 128; 175]; [226; 129; 159]; [227; 128; 128];
     [239; 187; 191]]%nat.

(** The rest of [s] after its prefix [t], if [s] begins with [t]. *)
Fixpoint dropPrefix (t s : list ascii) : option (list ascii) :=
  match t, s with
  | [], _ => Some s
  | c :: t', d :: s' => if Ascii.eqb c d then dropPrefix t' s' else None
  | _ :: _, [] => None
  end.

(** The rest of [s] after one leading token, if [s] begins with one. *)
Fixpoint stripOne (tokens : list (list ascii)) (s : list ascii) : option (list ascii) :=
  match tokens with
  | [] => None
  | t :: rest =>
      match dropPrefix t s with
      | Some r => Some r
      | None => stripOne rest s
      end
  end.

(** Leading tokens are removed as long as there is one; [fuel] bounds the
    number of rounds, and the length of the text is enough. *)
Fixpoint stripAll (fuel : nat) (tokens : list (list ascii)) (s : list ascii) : list ascii :=
  match fuel with
  | O => s
  | S fuel' =>
      match stripOne tokens s with
      | Some r => stripAll fuel' tokens r
      | None => s
      end
  end.

Definition trimStart (s : string) : string :=
  let l := chars s in text (stripAll (length l) whiteSpace l).

Definition trimEnd (s : string) : string :=
  let l := rev (chars s) in
  text (rev (stripAll (length l) (map (@rev ascii) whiteSpace) l)).

Definition trim (s : string) : string := trimEnd (trimStart s).

(** ** [parseInt(s)] without a radix; [None] is [NaN] *)

Definition digitVal (radix : Z) (c : ascii) : option Z :=
  let n := Z.of_nat (nat_of_ascii c) in
  let d := if (48 <=? n) && (n <=? 57) then Some (n - 48)
           else if (97 <=? n) && (n <=? 122) then Some (n - 87)
           else if (65 <=? n) && (n <=? 90) then Some (n - 55)
           else None in
  match d with
  | Some v => if v <? radix then Some v else None
  | None => None
  end.

Fixpoint parseDigits (radix : Z) (acc : option Z) (s : string) : option Z :=
  match s with
  | EmptyString => acc
  | String c rest =>
      match digitVal radix c with
      | Some d =>
          parseDigits radix
            (Some (match acc with Some a => a * radix + d | None => d end)) rest
      | None => acc
      end
  end.

Definition parseInt (s : string) : option Z :=
  let s1 := trimStart s in
  let '(neg, s2) :=
    match s1 with
    | String "-"%char r => (true, r)
    | String "+"%char r => (false, r)
    | _ => (false, s1)
    end in
  let '(radix, s3) :=
    match s2 with
    | String "0"%char (String "x"%char r) => (16, r)
    | String "0"%char (String "X"%char r) => (16, r)
    | _ => (10, s2)
    end in
  match parseDigits radix None s3 with
  | Some n => Some (if neg then - n else n)
  | None => None
  end.

(** [a <= b] on numbers: false as soon as one side is [NaN]. *)
Definition numLe (a b : option Z) : bool :=
  match a, b with
  | Some x, Some y => x <=? y
  | _, _ => false
  end.

(** [a >= b] on numbers. *)
Definition numGe (a b : option Z) : bool := numLe b a.

(** [a - b] on numbers. *)
Definition numSub (a b : option Z) : option Z :=
  match a, b with
  | Some x, Some y => Some (x - y)
  | _, _ => None
  end.

(** ** [Number.prototype.toString] on an integer *)

Definition numberToString (n : Z) : string :=
  DecimalString.NilZero.string_of_int (Z.to_int n).

(** ** [Array.prototype.sort(comparefn)]

    The sort is stable; a comparator result that is [NaN] counts as [+0].
    Every stable sort returns the same array for a consistent comparator,
    so the insertion sort below stands for the engine's own algorithm.
    For a comparator that does not order the elements the language leaves
    the order to the engine: there the result is known to be a
    rearrangement of the array and no more, and no property below states
    more than that. *)

Definition sortCompare {A} (comparefn : A -> A -> option Z) (a b : A) : Z :=
  match comparefn a b with
  | Some v => v
  | None => 0
  end.

Fixpoint sortInsert {A} (comparefn : A -> A -> option Z) (a : A) (l : list A) : list A :=
  match l with
  | [] => [a]
  | b :: rest =>
      if sortCompare comparefn a b <=? 0 then a :: l
      else b :: sortInsert comparefn a rest
  end.

Fixpoint arraySort {A} (comparefn : A -> A -> option Z) (l : list A) : list A :=
  match l with
  | [] => []
  | a :: rest => sortInsert comparefn a (arraySort comparefn rest)
  end.

(** [if (missing) errors[field] = msg], for an [errors] object whose keys
    are assigned at most once: the object is the list of its entries. *)
Definition setIf (missing : bool) (field msg : string) : list (string * string) :=
  if missing then [(field, msg)] else [].

(** ** Services of the browser that depend on its environment *)

Class Runtime : Type := {
  (** [new Date(s).getTime()]; [None] is the time value of an invalid date. *)
  Date_parse : string -> option Z;
  (** [a.localeCompare(b)] *)
  localeCompare : string -> string -> Z;
  (** [s.toLowerCase()]: the case conversion of the Unicode tables the
      engine carries. *)
  toLowerCase : string -> string
}.

(** [localeCompare] is a collation: a total preorder on strings. *)
Class Collation (rt : Runtime) : Prop := {
  localeCompare_total : forall a b, localeCompare a b <= 0 \/ localeCompare b a <= 0;
  localeCompare_trans : forall a b c,
    localeCompare a b <= 0 -> localeCompare b c <= 0 -> localeCompare a c <= 0
}.

(** On a text of ASCII characters [toLowerCase] turns the letters A to Z
    into a to z and leaves every other character alone. *)
Class CaseMapping (rt : Runtime) : Prop := {
  toLowerCase_ascii : forall s, asciiOnly s = true -> toLowerCase s = lowerAsciiText s
}.

End Js.

(* ===================================================================== *)
(** * The persistent store ([utils/db.ts] over the embedded database)     *)
(* ===================================================================== *)

Module Db.
Import Js.

(** The five tables of schema version 2. *)
Inductive TableName : Type :=
| Teachers
| SupervisionReports
| BookCheckingReports
| WorkCoverageReports
| Settings.

#[export] Instance TableName_eq_dec : EqDecision TableName.
Proof. solve_decision. Defined.

Definition allTables : list TableName :=
  [Teachers; SupervisionReports; BookCheckingReports; WorkCoverageReports; Settings].

(** The primary key path of each table: the first entry of its schema
    string in [db.version(2).stores]. *)
Definition keyPath (t : TableName) : string :=
  match t with
  | Settings => "key"
  | _ => "id"
  end.

(** A table maps the primary key of a record to the record. *)
Record Store : Type := mkStore {
  teachers : gmap string value;
  supervisionReports : gmap string value;
  bookCheckingReports : gmap string value;
  workCoverageReports : gmap string value;
  settings : gmap string value
}.

Definition emptyStore : Store := mkStore ∅ ∅ ∅ ∅ ∅.

Definition table (t : TableName) (s : Store) : gmap string value :=
  match t with
  | Teachers => teachers s
  | SupervisionReports => supervisionReports s
  | BookCheckingReports => bookCheckingReports s
  | WorkCoverageReports => workCoverageReports s
  | Settings => settings s
  end.

Definition setTable (t : TableName) (m : gmap string value) (s : Store) : Store :=
  match t with
  | Teachers => mkStore m (supervisionReports s) (bookCheckingReports s) (workCoverageReports s) (settings s)
  | SupervisionReports => mkStore (teachers s) m (bookCheckingReports s) (workCoverageReports s) (settings s)
  | BookCheckingReports => mkStore (teachers s) (supervisionReports s) m (workCoverageReports s) (settings s)
  | WorkCoverageReports => mkStore (teachers s) (supervisionReports s) (bookCheckingReports s) m (settings s)
  | Settings => mkStore (teachers s) (supervisionReports s) (bookCheckingReports s) (workCoverageReports s) m
  end.

(** Failures of a store operation. *)
Inductive DbError : Type :=
| DataError        (* the record has no usable primary key *)
| ConstraintError  (* the primary key is already present (DuplicateKey) *)
| TypeError.       (* the argument is not of the expected shape *)

(** The in-line primary key of a record.  Keys are strings, as in the data
    model ([id: string], [key: string]); a record whose key is a number or
    an array is outside the model, which has no key for it. *)
Definition extractKey (kp : string) (v : value) : option string :=
  match v with
  | VObj fields =>
      match assoc kp fields with
      | Some (VStr k) => Some k
      | _ => None
      end
  | _ => None
  end.

(** Store operations run inside a transaction: a state-and-error monad over
    the working copy of the store. *)
Definition Tx (A : Type) : Type := Store -> DbError + (A * Store).

Definition ret {A} (a : A) : Tx A := fun s => inr (a, s).
Definition throw {A} (e : DbError) : Tx A := fun _ => inl e.
Definition bind {A B} (m : Tx A) (k : A -> Tx B) : Tx B :=
  fun s => match m s with
           | inl e => inl e
           | inr (a, s') => k a s'
           end.

Notation "x <- m ;; k" := (bind m (fun x => k))
  (at level 100, m at next level, right associativity).
Notation "m ;;; k" := (bind m (fun _ => k))
  (at level 100, right associativity).

(** [table.get(key)] *)
Definition get (t : TableName) (k : string) : Tx (option value) :=
  fun s => inr (table t s !! k, s).

(** [table.toArray()] *)
Definition toArray (t : TableName) : Tx (list value) :=
  fun s => inr ((map_to_list (table t s)).*2, s).

(** [table.put(record)]: insert or replace by primary key. *)
Definition put (t : TableName) (v : value) : Tx unit :=
  fun s => match extractKey (keyPath t) v with
           | Some k => inr (tt, setTable t (<[k := v]> (table t s)) s)
           | None => inl DataError
           end.

(** [table.add(record)]: insert, failing when the key is present. *)
Definition add (t : TableName) (v : value) : Tx unit :=
  fun s => match extractKey (keyPath t) v with
           | Some k =>
               match table t s !! k with
               | Some _ => inl ConstraintError
               | None => inr (tt, setTable t (<[k := v]> (table t s)) s)
               end
           | None => inl DataError
           end.

(** [table.bulkAdd(records)]: the records are added in order; the first
    failure rejects the call. *)
Fixpoint bulkAddList (t : TableName) (vs : list value) : Tx unit :=
  match vs with
  | [] => ret tt
  | v :: rest => add t v ;;; bulkAddList t rest
  end.

Definition bulkAdd (t : TableName) (arg : value) : Tx unit :=
  match arg with
  | VArr vs => bulkAddList t vs
  | _ => throw TypeError
  end.

(** [table.delete(key)] *)
Definition delete (t : TableName) (k : string) : Tx unit :=
  fun s => inr (tt, setTable t (base.delete k (table t s)) s).

(** [table.clear()] *)
Definition clear (t : TableName) : Tx unit :=
  fun s => inr (tt, setTable t ∅ s).

(** [Promise.all(tables.map(table => table.clear()))] *)
Fixpoint clearAll (ts : list TableName) : Tx unit :=
  match ts with
  | [] => ret tt
  | t :: rest => clear t ;;; clearAll rest
  end.

(** [db.transaction('rw', tables, body)]: the body runs on a working copy;
    it is committed when the body returns and discarded when it throws. *)
Definition transaction {A} (body : Tx A) (s : Store) : (DbError + A) * Store :=
  match body s with
  | inl e => (inl e, s)
  | inr (a, s') => (inr a, s')
  end.

(** The same operations issued without an enclosing transaction: every
    operation commits on its own, so a failure keeps the earlier writes. *)
Fixpoint unscoped (ops : list (Tx unit)) (s : Store) : (DbError + unit) * Store :=
  match ops with
  | [] => (inr tt, s)
  | op :: rest =>
      match op s with
      | inl e => (inl e, s)
      | inr (_, s') => unscoped rest s'
      end
  end.

(** Every record sits under its own primary key. *)
Definition keyed (t : TableName) (m : gmap string value) : Prop :=
  forall k v, m !! k = Some v -> extractKey (keyPath t) v = Some k.

Definition wellKeyed (s : Store) : Prop :=
  forall t, keyed t (table t s).

(** The set of primary keys of a table. *)
Definition ids (t : TableName) (s : Store) : gset string := dom (table t s).

(** The rows of [table.toArray()] whose primary key is [k]. *)
Definition recordsWithKey (t : TableName) (k : string) (s : Store) : list value :=
  filter (fun v => extractKey (keyPath t) v = Some k) (map_to_list (table t s)).*2.

End Db.

(* ===================================================================== *)
(** * The export routine ([utils/pdfUtils.ts])                            *)
(* ===================================================================== *)

Module Pdf.

(** What [html2canvas] returns for a region: the pixel size of the capture
    and its PNG data URL. *)
Record Canvas : Type := mkCanvas {
  width : Z;
  height : Z;
  dataURL : string
}.

(** The rendered interface: [generateCanvas] finds a region by its element
    id and captures it, or logs a diagnostic and returns [null]. *)
Definition Dom : Type := string -> option Canvas.

Definition generateCanvas (dom : Dom) (elementId : string) : option Canvas :=
  dom elementId.

(** One [addImage] call: the image and its box on the page, in mm. *)
Record Image : Type := mkImage {
  imgData : string;
  x : Q;
  y : Q;
  imgWidth : Q;
  imgHeight : Q
}.

(** A document: its page size and the images of every page, in page order.
    The current page is the last one. *)
Record PdfDoc : Type := mkPdf {
  pdfWidth : Q;
  pdfHeight : Q;
  pages : list (list Image)
}.

(** Modelled from the spec: the page geometry of the PDF library is not
    part of the sources; the page is fixed portrait A4 at 210 x 297 mm. *)
Definition a4Width : Q := 210.
(** Modelled from the spec: the height of the portrait A4 page, in mm. *)
Definition a4Height : Q := 297.

(** [new jsPDF({orientation: 'p', unit: 'mm', format: 'a4'})]: one blank
    page. *)
Definition newPdf : PdfDoc := mkPdf a4Width a4Height [[]].

(** [pdf.addPage()] *)
Definition addPage (pdf : PdfDoc) : PdfDoc :=
  mkPdf (pdfWidth pdf) (pdfHeight pdf) (pages pdf ++ [[]]).

Fixpoint onLastPage (img : Image) (ps : list (list Image)) : list (list Image) :=
  match ps with
  | [] => [[img]]
  | [p] => [p ++ [img]]
  | p :: rest => p :: onLastPage img rest
  end.

(** [pdf.addImage(imgData, 'PNG', x, y, imgWidth, imgHeight)] *)
Definition addImage (img : Image) (pdf : PdfDoc) : PdfDoc :=
  mkPdf (pdfWidth pdf) (pdfHeight pdf) (onLastPage img (pages pdf)).

Definition generatePdfDocument (dom : Dom) (elementId : string) : option PdfDoc :=
  match generateCanvas dom elementId with
  | None => None
  | Some canvas =>
      let imgData := dataURL canvas in
      let pdf := newPdf in
      let pdfWidth := pdfWidth pdf in
      let pdfHeight := pdfHeight pdf in
      let canvasWidth := inject_Z (width canvas) in
      let canvasHeight := inject_Z (height canvas) in
      let ratio := (canvasWidth / canvasHeight)%Q in
      let imgWidth := pdfWidth in
      let imgHeight := (imgWidth / ratio)%Q in
      let '(imgWidth, imgHeight) :=
        if Qlt_le_dec pdfHeight imgHeight
        then ((pdfHeight * ratio)%Q, pdfHeight)
        else (imgWidth, imgHeight) in
      let x := ((pdfWidth - imgWidth) / 2)%Q in
      let y := 0%Q in
      Some (addImage (mkImage imgData x y imgWidth imgHeight) pdf)
  end.

(** The [for] loop of [generateBulkPdfDocument], from index [i]. *)
Fixpoint bulkLoop (dom : Dom) (pdfWidth pdfHeight : Q) (i : nat)
  (elementIds : list string) (pdf : PdfDoc) : PdfDoc :=
  match elementIds with
  | [] => pdf
  | elementId :: rest =>
      let pdf' :=
        match generateCanvas dom elementId with
        | Some canvas =>
            let pdf1 := if (0 <? i)%nat then addPage pdf else pdf in
            let imgData := dataURL canvas in
            let canvasWidth := inject_Z (width canvas) in
            let canvasHeight := inject_Z (height canvas) in
            let ratio := (canvasWidth / canvasHeight)%Q in
            let imgWidth := pdfWidth in
            let imgHeight := (imgWidth / ratio)%Q in
            let '(imgWidth, imgHeight) :=
              if Qlt_le_dec pdfHeight imgHeight
              then ((pdfHeight * ratio)%Q, pdfHeight)
              else (imgWidth, imgHeight) in
            let x := ((pdfWidth - imgWidth) / 2)%Q in
            let y := 0%Q in
            addImage (mkImage imgData x y imgWidth imgHeight) pdf1
        | None => pdf
        end in
      bulkLoop dom pdfWidth pdfHeight (S i) rest pdf'
  end.

Definition generateBulkPdfDocument (dom : Dom) (elementIds : list string)
  : option PdfDoc :=
  match elementIds with
  | [] => None
  | _ =>
      let pdf := newPdf in
      Some (bulkLoop dom (pdfWidth pdf) (pdfHeight pdf) 0 elementIds pdf)
  end.

(** A file handed to the browser by [pdf.save(fileName)]. *)
Record SavedFile : Type := mkSaved {
  fileName : string;
  document : PdfDoc
}.

(** [exportToPdf(elementId, fileName)] *)
Definition exportToPdf (dom : Dom) (elementId fileName : string) : option SavedFile :=
  match generatePdfDocument dom elementId with
  | Some pdf => Some (mkSaved (String.append fileName ".pdf") pdf)
  | None => None
  end.

End Pdf.

(* ===================================================================== *)
(** * The reactive query bridge ([hooks/useLocalStorage.ts])              *)
(* ===================================================================== *)

Module LiveQuery.
Section Hook.
Context {T : Type}.

(** What the observable built by [Dexie.liveQuery(query)] hands to its
    subscriber: a result, or the error the query threw. *)
Inductive Emission : Type :=
| Next (result : T)
| Error (error : string).

(** The state of one [useLiveQuery] call: the [data] cell of [useState],
    what it wrote to the console, and whether a subscription is live. *)
Record Hook : Type := mkHook {
  data : option T;
  console : list string;
  subscribed : bool
}.

(** [useState<T | undefined>(undefined)] *)
Definition initial : Hook := mkHook None [] false.

(** The effect: subscribe, unless Dexie is missing from [window]. *)
Definition mount (dexieAvailable : bool) (h : Hook) : Hook :=
  if dexieAvailable
  then mkHook (data h) (console h) true
  else mkHook (data h)
         (console h ++ ["Dexie is not available on the window object. Make sure it is loaded."])
         false.

(** The cleanup of the effect: [subscription.unsubscribe()]. *)
Definition unmount (h : Hook) : Hook := mkHook (data h) (console h) false.

(** The two callbacks passed to [subscribe]. *)
Definition next (result : T) (h : Hook) : Hook :=
  mkHook (Some result) (console h) (subscribed h).

Definition error (err : string) (h : Hook) : Hook :=
  mkHook (data h) (console h ++ [String.append "useLiveQuery error: " err]) (subscribed h).

Definition deliver (e : Emission) (h : Hook) : Hook :=
  if subscribed h
  then match e with
       | Next result => next result h
       | Error err => error err h
       end
  else h.

Definition deliverAll (es : list Emission) (h : Hook) : Hook :=
  fold_left (fun h e => deliver e h) es h.

(** The value the hook returns to the component. *)
Definition useLiveQuery (dexieAvailable : bool) (es : list Emission) : option T :=
  data (deliverAll es (mount dexieAvailable initial)).

(** The emission for one run of the read function: it either throws or
    returns its result. *)
Definition runQuery {S : Type} (query : S -> string + T) (s : S) : Emission :=
  match query s with
  | inl err => Error err
  | inr result => Next result
  end.

(** The last result among the emissions, if any. *)
Fixpoint lastResult (es : list Emission) (before : option T) : option T :=
  match es with
  | [] => before
  | Next result :: rest => lastResult rest (Some result)
  | Error _ :: rest => lastResult rest before
  end.

End Hook.
Arguments Emission : clear implicits.
Arguments Hook : clear implicits.
End LiveQuery.

(* ===================================================================== *)
(** * The pattern shared by the three report modules                      *)
(* ===================================================================== *)

Module ReportModule.
Import Js.

Inductive View : Type := LIST | FORM | DETAIL.

(** The [useState] cells of a report module. *)
Record State : Type := mkState {
  view : View;
  selectedReportId : option string;
  searchQuery : string;
  sortBy : string;
  filterStartDate : string;
  filterEndDate : string;
  isBulkExporting : bool
}.

Definition initialState : State := mkState LIST None "" "date-desc" "" "" false.

Definition setView (v : View) (st : State) : State :=
  mkState v (selectedReportId st) (searchQuery st) (sortBy st)
    (filterStartDate st) (filterEndDate st) (isBulkExporting st).

Definition setSelectedReportId (sel : option string) (st : State) : State :=
  mkState (view st) sel (searchQuery st) (sortBy st)
    (filterStartDate st) (filterEndDate st) (isBulkExporting st).

Definition setIsBulkExporting (b : bool) (st : State) : State :=
  mkState (view st) (selectedReportId st) (searchQuery st) (sortBy st)
    (filterStartDate st) (filterEndDate st) b.

(** What a handler shows or hands to the browser. *)
Inductive Effect : Type :=
| Alert (msg : string)
| Save (file : Pdf.SavedFile).

(** What the form hands back on submit. *)
Inductive Submit (R : Type) : Type :=
| OnSave (report : R)
| AlertUser (msg : string).
Arguments OnSave {R} report.
Arguments AlertUser {R} msg.

(** The effect on [initialReportIdToShow]. *)
Definition showInitialReport (initialReportIdToShow : option string) (st : State) : State :=
  match initialReportIdToShow with
  | Some rid => if strFalsy rid then st
                else setView DETAIL (setSelectedReportId (Some rid) st)
  | None => st
  end.

(** [handleSave]: [await table.put(report)], then back to the list.  When
    the write is rejected the rest of the handler does not run. *)
Definition handleSave (t : Db.TableName) (report : value) (w : Db.Store * State)
  : Db.Store * State :=
  match Db.transaction (Db.put t report) (fst w) with
  | (inr _, s') => (s', setSelectedReportId None (setView LIST (snd w)))
  | (inl _, s') => (s', snd w)
  end.

(** [handleDelete]: a delete-by-id behind [window.confirm]. *)
Definition handleDelete (t : Db.TableName) (rid : string) (confirmed : bool)
  (w : Db.Store * State) : Db.Store * State :=
  if confirmed
  then (snd (Db.transaction (Db.delete t rid) (fst w)), snd w)
  else w.

Definition handleBackToList (st : State) : State :=
  setSelectedReportId None (setView LIST st).

(** The fields of a report that the list view reads. *)
Class ReportLike (R : Type) : Type := {
  report_id : R -> string;
  report_teacherName : R -> string;
  report_subject : R -> string;
  report_date : R -> string
}.

Section ListView.
Context {rt : Runtime} {R : Type} {RL : ReportLike R}.

(** The comparator of the [switch (sortBy)]. *)
Definition compareReports (sortBy : string) (a b : R) : option Z :=
  if String.eqb sortBy "date-asc"
  then numSub (Date_parse (report_date a)) (Date_parse (report_date b))
  else if String.eqb sortBy "teacher-asc"
  then Some (localeCompare (report_teacherName a) (report_teacherName b))
  else numSub (Date_parse (report_date b)) (Date_parse (report_date a)).

Definition filteredAndSortedReports (reports : list R)
  (searchQuery filterStartDate filterEndDate sortBy : string) : list R :=
  let filtered := reports in
  let filtered :=
    if strFalsy searchQuery then filtered
    else List.filter (fun report =>
           includes (toLowerCase (report_teacherName report)) (toLowerCase searchQuery)
           || includes (toLowerCase (report_subject report)) (toLowerCase searchQuery))
         filtered in
  let filtered :=
    if strFalsy filterStartDate then filtered
    else
      let startDate := Date_parse (String.append filterStartDate "T00:00:00") in
      List.filter (fun report =>
        numGe (Date_parse (String.append (report_date report) "T00:00:00")) startDate)
        filtered in
  let filtered :=
    if strFalsy filterEndDate then filtered
    else
      let endDate := Date_parse (String.append filterEndDate "T00:00:00") in
      List.filter (fun report =>
        numLe (Date_parse (String.append (report_date report) "T00:00:00")) endDate)
        filtered in
  arraySort (compareReports sortBy) filtered.

(** [filtered.sort] sorts in place, and [filtered] is the [reports] array
    itself as long as no filter is set: the array the live query delivered
    is then left in the order of the list just computed. *)
Definition reportsAfterRender (reports : list R)
  (searchQuery filterStartDate filterEndDate sortBy : string) : list R :=
  if strFalsy searchQuery && strFalsy filterStartDate && strFalsy filterEndDate
  then filteredAndSortedReports reports searchQuery filterStartDate filterEndDate sortBy
  else reports.

(** The list a module displays in state [st]. *)
Definition displayed (reports : list R) (st : State) : list R :=
  filteredAndSortedReports reports (searchQuery st) (filterStartDate st)
    (filterEndDate st) (sortBy st).

Definition handleBulkExport (shown : list R) (st : State) : State * list Effect :=
  if (length shown =? 0)%nat
  then (st, [Alert "No reports to export."])
  else (setIsBulkExporting true st, []).

(** The effect on [isBulkExporting]: [performExport], run after the settle
    delay.  [bulkPrefix] is the prefix of the off-screen element ids,
    [fileStem] the stem of the file name and [today] the ISO date. *)
Definition performExport (dom : Pdf.Dom) (bulkPrefix fileStem today : string)
  (shown : list R) (st : State) : State * list Effect :=
  if negb (isBulkExporting st) then (st, [])
  else
    let elementIds := map (fun r => String.append bulkPrefix (report_id r)) shown in
    let effects :=
      match Pdf.generateBulkPdfDocument dom elementIds with
      | Some pdf =>
          [Save (Pdf.mkSaved (String.append (String.append fileStem today) ".pdf") pdf)]
      | None => [Alert "Failed to generate bulk PDF."]
      end in
    (setIsBulkExporting false st, effects).

(** A click on "Export All": the handler, then the effect it triggers. *)
Definition bulkExport (dom : Pdf.Dom) (bulkPrefix fileStem today : string)
  (shown : list R) (st : State) : State * list Effect :=
  let '(st1, shown1) := handleBulkExport shown st in
  let '(st2, shown2) := performExport dom bulkPrefix fileStem today shown st1 in
  (st2, shown1 ++ shown2).

End ListView.
End ReportModule.

(* ===================================================================== *)
(** * The supervision module ([components/SupervisionModule.tsx])         *)
(* ===================================================================== *)

Module Supervision.
Import Js ReportModule.

Record SupervisionReport : Type := mkReport {
  id : string;
  teacherName : string;
  className : string;
  subject : string;
  date : string;
  rating : Z;
  lessonObjectives : string;
  teachingMethods : string;
  learnerEngagement : string;
  classroomManagement : string;
  useOfTeachingAids : string;
  assessmentAndFeedback : string;
  strengths : string;
  weaknesses : string;
  recommendations : string
}.

Definition emptyForm : SupervisionReport :=
  mkReport "" "" "" "" "" 0 "" "" "" "" "" "" "" "" "".

(** [{ ...formData, id: newId }] *)
Definition withId (newId : string) (r : SupervisionReport) : SupervisionReport :=
  mkReport newId (teacherName r) (className r) (subject r) (date r) (rating r)
    (lessonObjectives r) (teachingMethods r) (learnerEngagement r)
    (classroomManagement r) (useOfTeachingAids r) (assessmentAndFeedback r)
    (strengths r) (weaknesses r) (recommendations r).

(** The record as the object the store receives. *)
Definition toValue (r : SupervisionReport) : value :=
  VObj [("id", VStr (id r)); ("teacherName", VStr (teacherName r));
        ("className", VStr (className r)); ("subject", VStr (subject r));
        ("date", VStr (date r)); ("rating", VNum (rating r));
        ("lessonObjectives", VStr (lessonObjectives r));
        ("teachingMethods", VStr (teachingMethods r));
        ("learnerEngagement", VStr (learnerEngagement r));
        ("classroomManagement", VStr (classroomManagement r));
        ("useOfTeachingAids", VStr (useOfTeachingAids r));
        ("assessmentAndFeedback", VStr (assessmentAndFeedback r));
        ("strengths", VStr (strengths r)); ("weaknesses", VStr (weaknesses r));
        ("recommendations", VStr (recommendations r))].

#[global] Instance reportLike : ReportLike SupervisionReport :=
  {| report_id := id; report_teacherName := teacherName;
     report_subject := subject; report_date := date |}.

(** [validateForm]: the new [errors] object and the returned flag. *)
Definition validateForm (formData : SupervisionReport) : list (string * string) * bool :=
  let newErrors :=
    setIf (strFalsy (trim (teacherName formData))) "teacherName" "Teacher name is required."
    ++ setIf (strFalsy (trim (className formData))) "className" "Class is required."
    ++ setIf (strFalsy (trim (subject formData))) "subject" "Subject is required."
    ++ setIf (strFalsy (date formData)) "date" "Date is required."
    ++ setIf (strFalsy (trim (lessonObjectives formData))) "lessonObjectives"
         "Lesson objectives are required."
    ++ setIf (strFalsy (trim (teachingMethods formData))) "teachingMethods"
         "Teaching methods are required."
    ++ setIf (strFalsy (trim (learnerEngagement formData))) "learnerEngagement"
         "Learner engagement is required."
    ++ setIf (strFalsy (trim (classroomManagement formData))) "classroomManagement"
         "Classroom management is required."
    ++ setIf (strFalsy (trim (useOfTeachingAids formData))) "useOfTeachingAids"
         "Use of teaching aids is required."
    ++ setIf (strFalsy (trim (assessmentAndFeedback formData))) "assessmentAndFeedback"
         "Assessment and feedback are required."
    ++ setIf (strFalsy (trim (strengths formData))) "strengths" "Strengths are required."
    ++ setIf (strFalsy (trim (weaknesses formData))) "weaknesses"
         "Areas for improvement are required."
    ++ setIf (strFalsy (trim (recommendations formData))) "recommendations"
         "Recommendations are required." in
  (newErrors, (length newErrors =? 0)%nat).

(** [handleSubmit]: the errors shown in the form and what the form does.
    [now] is [Date.now()]. *)
Definition handleSubmit (formData : SupervisionReport) (now : Z)
  : list (string * string) * Submit SupervisionReport :=
  let '(errors, ok) := validateForm formData in
  if ok
  then (errors, OnSave (withId (strOr (id formData) (numberToString now)) formData))
  else (errors, AlertUser "Please fill out all required fields.").

Definition handleSave (report : SupervisionReport) (w : Db.Store * State)
  : Db.Store * State :=
  ReportModule.handleSave Db.SupervisionReports (toValue report) w.

(** The form mounted by the module: [onSave] is [handleSave]. *)
Definition submitForm (formData : SupervisionReport) (now : Z) (w : Db.Store * State)
  : Db.Store * State * list (string * string) * list Effect :=
  match handleSubmit formData now with
  | (errors, OnSave report) => (handleSave report w, errors, [])
  | (errors, AlertUser msg) => (w, errors, [Alert msg])
  end.

End Supervision.

(* ===================================================================== *)
(** * The book-checking module                                            *)
(* ===================================================================== *)

Module BookChecking.
Import Js ReportModule.

Inductive Coverage : Type := complete | partial | missing.

Definition coverageName (c : Coverage) : string :=
  match c with
  | complete => "complete"
  | partial => "partial"
  | missing => "missing"
  end.

Record BookCheckingReport : Type := mkReport {
  id : string;
  teacherName : string;
  className : string;
  subject : string;
  date : string;
  booksChecked : string;
  workCoverage : Coverage;
  markingRegularity : Z;
  feedbackQuality : Z;
  learnerNeatness : Z;
  exemplaryWorkNoted : string;
  commonStudentErrors : string;
  teacherResponseToFeedback : string;
  comments : string
}.

Definition emptyForm : BookCheckingReport :=
  mkReport "" "" "" "" "" "" complete 0 0 0 "" "" "" "".

Definition withId (newId : string) (r : BookCheckingReport) : BookCheckingReport :=
  mkReport newId (teacherName r) (className r) (subject r) (date r)
    (booksChecked r) (workCoverage r) (markingRegularity r) (feedbackQuality r)
    (learnerNeatness r) (exemplaryWorkNoted r) (commonStudentErrors r)
    (teacherResponseToFeedback r) (comments r).

Definition toValue (r : BookCheckingReport) : value :=
  VObj [("id", VStr (id r)); ("teacherName", VStr (teacherName r));
        ("className", VStr (className r)); ("subject", VStr (subject r));
        ("date", VStr (date r)); ("booksChecked", VStr (booksChecked r));
        ("workCoverage", VStr (coverageName (workCoverage r)));
        ("markingRegularity", VNum (markingRegularity r));
        ("feedbackQuality", VNum (feedbackQuality r));
        ("learnerNeatness", VNum (learnerNeatness r));
        ("exemplaryWorkNoted", VStr (exemplaryWorkNoted r));
        ("commonStudentErrors", VStr (commonStudentErrors r));
        ("teacherResponseToFeedback", VStr (teacherResponseToFeedback r));
        ("comments", VStr (comments r))].

#[global] Instance reportLike : ReportLike BookCheckingReport :=
  {| report_id := id; report_teacherName := teacherName;
     report_subject := subject; report_date := date |}.

Definition validateForm (formData : BookCheckingReport) : list (string * string) * bool :=
  let newErrors :=
    setIf (strFalsy (trim (teacherName formData))) "teacherName" "Teacher name is required."
    ++ setIf (strFalsy (trim (className formData))) "className" "Class is required."
    ++ setIf (strFalsy (trim (subject formData))) "subject" "Subject is required."
    ++ setIf (strFalsy (date formData)) "date" "Date is required."
    ++ setIf (strFalsy (trim (booksChecked formData))
              || numLe (parseInt (booksChecked formData)) (Some 0))
         "booksChecked" "Please enter a valid number of books."
    ++ setIf (markingRegularity formData =? 0) "markingRegularity" "Rating is required."
    ++ setIf (feedbackQuality formData =? 0) "feedbackQuality" "Rating is required."
    ++ setIf (learnerNeatness formData =? 0) "learnerNeatness" "Rating is required." in
  (newErrors, (length newErrors =? 0)%nat).

Definition handleSubmit (formData : BookCheckingReport) (now : Z)
  : list (string * string) * Submit BookCheckingReport :=
  let '(errors, ok) := validateForm formData in
  if ok
  then (errors, OnSave (withId (strOr (id formData) (numberToString now)) formData))
  else (errors, AlertUser "Please fill out all required fields and provide ratings.").

Definition handleSave (report : BookCheckingReport) (w : Db.Store * State)
  : Db.Store * State :=
  ReportModule.handleSave Db.BookCheckingReports (toValue report) w.

Definition submitForm (formData : BookCheckingReport) (now : Z) (w : Db.Store * State)
  : Db.Store * State * list (string * string) * list Effect :=
  match handleSubmit formData now with
  | (errors, OnSave report) => (handleSave report w, errors, [])
  | (errors, AlertUser msg) => (w, errors, [Alert msg])
  end.

End BookChecking.

(* ===================================================================== *)
(** * The work-coverage module                                            *)
(* ===================================================================== *)

Module WorkCoverage.
Import Js ReportModule.

Record WorkCoverageReport : Type := mkReport {
  id : string;
  teacherName : string;
  className : string;
  subject : string;
  date : string;
  plannedTopics : string;
  completedTopics : string;
  pendingTopics : string;
  remarks : string;
  teacherSignature : string;
  supervisorSignature : string
}.

Definition emptyForm : WorkCoverageReport :=
  mkReport "" "" "" "" "" "" "" "" "" "" "".

Definition withId (newId : string) (r : WorkCoverageReport) : WorkCoverageReport :=
  mkReport newId (teacherName r) (className r) (subject r) (date r)
    (plannedTopics r) (completedTopics r) (pendingTopics r) (remarks r)
    (teacherSignature r) (supervisorSignature r).

Definition toValue (r : WorkCoverageReport) : value :=
  VObj [("id", VStr (id r)); ("teacherName", VStr (teacherName r));
        ("className", VStr (className r)); ("subject", VStr (subject r));
        ("date", VStr (date r)); ("plannedTopics", VStr (plannedTopics r));
        ("completedTopics", VStr (completedTopics r));
        ("pendingTopics", VStr (pendingTopics r)); ("remarks", VStr (remarks r));
        ("teacherSignature", VStr (teacherSignature r));
        ("supervisorSignature", VStr (supervisorSignature r))].

#[global] Instance reportLike : ReportLike WorkCoverageReport :=
  {| report_id := id; report_teacherName := teacherName;
     report_subject := subject; report_date := date |}.

Definition validateForm (formData : WorkCoverageReport) : list (string * string) * bool :=
  let newErrors :=
    setIf (strFalsy (trim (teacherName formData))) "teacherName" "Teacher name is required."
    ++ setIf (strFalsy (trim (className formData))) "className" "Class is required."
    ++ setIf (strFalsy (trim (subject formData))) "subject" "Subject is required."
    ++ setIf (strFalsy (date formData)) "date" "Date is required."
    ++ setIf (strFalsy (trim (plannedTopics formData))) "plannedTopics"
         "Planned topics are required."
    ++ setIf (strFalsy (trim (completedTopics formData))) "completedTopics"
         "Completed topics are required."
    ++ setIf (strFalsy (teacherSignature formData)) "teacherSignature"
         "Teacher signature is required."
    ++ setIf (strFalsy (supervisorSignature formData)) "supervisorSignature"
         "Supervisor signature is required." in
  (newErrors, (length newErrors =? 0)%nat).

Definition handleSubmit (formData : WorkCoverageReport) (now : Z)
  : list (string * string) * Submit WorkCoverageReport :=
  let '(errors, ok) := validateForm formData in
  if ok
  then (errors, OnSave (withId (strOr (id formData) (numberToString now)) formData))
  else (errors, AlertUser "Please fill out all required fields, including signatures.").

Definition handleSave (report : WorkCoverageReport) (w : Db.Store * State)
  : Db.Store * State :=
  ReportModule.handleSave Db.WorkCoverageReports (toValue report) w.

Definition submitForm (formData : WorkCoverageReport) (now : Z) (w : Db.Store * State)
  : Db.Store * State * list (string * string) * list Effect :=
  match handleSubmit formData now with
  | (errors, OnSave report) => (handleSave report w, errors, [])
  | (errors, AlertUser msg) => (w, errors, [Alert msg])
  end.

End WorkCoverage.

(* ===================================================================== *)
(** * Backup and restore ([components/SettingsModule.tsx])                 *)
(* ===================================================================== *)

Module Settings.
Import Js Db.

(** The text of a backup file, read up to [JSON.stringify] and [JSON.parse]:
    either the text is not JSON, or it is the JSON text of a value. *)
Inductive FileText : Type :=
| NotJson
| JsonText (v : value).

Definition JSON_stringify (v : value) : FileText := JsonText v.

(** [JSON.parse] throws on a text that is not JSON. *)
Definition JSON_parse (text : FileText) : option value :=
  match text with
  | NotJson => None
  | JsonText v => Some v
  end.

Inductive FeedbackType : Type := success | error.

Record Feedback : Type := mkFeedback {
  message : string;
  type : FeedbackType
}.

(** The [data] object of [handleExportData]. *)
Definition exportData : Tx value :=
  teachers <- toArray Teachers ;;
  supervisionReports <- toArray SupervisionReports ;;
  bookCheckingReports <- toArray BookCheckingReports ;;
  workCoverageReports <- toArray WorkCoverageReports ;;
  settings <- toArray Db.Settings ;;
  ret (VObj [("teachers", VArr teachers);
             ("supervisionReports", VArr supervisionReports);
             ("bookCheckingReports", VArr bookCheckingReports);
             ("workCoverageReports", VArr workCoverageReports);
             ("settings", VArr settings)]).

(** A file offered for download. *)
Record Download : Type := mkDownload {
  download : string;
  content : FileText
}.

(** [handleExportData]; [today] is the date part of
    [new Date().toISOString()]. *)
Definition handleExportData (today : string) (s : Store) : option Download * Feedback :=
  match exportData s with
  | inr (data, _) =>
      (Some (mkDownload
               (String.append (String.append "teacher-monitor-backup-" today) ".json")
               (JSON_stringify data)),
       mkFeedback "Data exported successfully." success)
  | inl _ => (None, mkFeedback "Data export failed." error)
  end.

(** [if (data.name) await table.bulkAdd(data.name)] *)
Definition importTable (data : value) (name : string) (t : TableName) : Tx unit :=
  match getProp data name with
  | ReadThrows => throw TypeError
  | ReadUndefined => ret tt
  | ReadValue v => if truthy v then bulkAdd t v else ret tt
  end.

(** The body of the import transaction. *)
Definition importBody (data : value) : Tx unit :=
  clearAll allTables ;;;
  importTable data "teachers" Teachers ;;;
  importTable data "supervisionReports" SupervisionReports ;;;
  importTable data "bookCheckingReports" BookCheckingReports ;;;
  importTable data "workCoverageReports" WorkCoverageReports ;;;
  importTable data "settings" Db.Settings.

(** [handleImportData]: [file] is the selected file, if any, and
    [confirmed] the answer to [window.confirm]. *)
Definition handleImportData (file : option FileText) (confirmed : bool) (s : Store)
  : Store * option Feedback :=
  match file with
  | None => (s, None)
  | Some text =>
      if negb confirmed then (s, None)
      else
        match JSON_parse text with
        | None =>
            (s, Some (mkFeedback
               "Failed to import data. Please ensure the file is a valid backup." error))
        | Some data =>
            match transaction (importBody data) s with
            | (inr _, s') =>
                (s', Some (mkFeedback
                   "Data imported successfully! The application will now reload." success))
            | (inl _, s') =>
                (s', Some (mkFeedback
                   "Failed to import data. Please ensure the file is a valid backup." error))
            end
        end
  end.

(** An import counts as failed when it reports an error. *)
Definition importFailed (r : Store * option Feedback) : Prop :=
  exists msg, snd r = Some (mkFeedback msg error).

End Settings.

(* ===================================================================== *)
(** * A reference runtime: UTC dates, collation by code points            *)
(* ===================================================================== *)

Module Reference.
Import Js.

Definition digit (c : ascii) : option Z :=
  let n := Z.of_nat (nat_of_ascii c) in
  if (48 <=? n) && (n <=? 57) then Some (n - 48) else None.

(** The value of a string of decimal digits. *)
Fixpoint digits (acc : Z) (s : string) : option Z :=
  match s with
  | EmptyString => Some acc
  | String c rest =>
      match digit c with
      | Some d => digits (acc * 10 + d) rest
      | None => None
      end
  end.

(** Days from 1970-01-01 to the given day of the proleptic Gregorian
    calendar. *)
Definition daysFromCivil (y m d : Z) : Z :=
  let y' := if m <=? 2 then y - 1 else y in
  let era := y' / 400 in
  let yoe := y' - era * 400 in
  let mp := if m <=? 2 then m + 9 else m - 3 in
  let doy := (153 * mp + 2) / 5 + d - 1 in
  let doe := yoe * 365 + yoe / 4 - yoe / 100 + doy in
  era * 146097 + doe - 719468.

(** [YYYY-MM-DD], alone or followed by [T00:00:00], read in UTC. *)
Definition parseDate (s : string) : option Z :=
  let time := substring 10 (String.length s - 10) s in
  if String.eqb time "" || String.eqb time "T00:00:00"
  then
    if String.eqb (substring 4 1 s) "-" && String.eqb (substring 7 1 s) "-"
    then
      match digits 0 (substring 0 4 s), digits 0 (substring 5 2 s),
            digits 0 (substring 8 2 s) with
      | Some y, Some m, Some d =>
          if (1 <=? m) && (m <=? 12) && (1 <=? d) && (d <=? 31)
             && (String.length (substring 8 2 s) =? 2)%nat
          then Some (daysFromCivil y m d * 86400000)
          else None
      | _, _, _ => None
      end
    else None
  else None.

(** Comparison of strings byte by byte, which on UTF-8 text is the order
    of the code points. *)
Definition compareCodeUnits (a b : string) : Z :=
  match String.compare a b with
  | Lt => -1
  | Eq => 0
  | Gt => 1
  end.

(** The second byte of a letter U+00C0 to U+00DE other than the sign
    U+00D7, whose first byte is 195. *)
Definition upperLatin1 (d : ascii) : bool :=
  let n := nat_of_ascii d in
  ((128 <=? n) && (n <=? 158) && negb (n =? 151))%nat.

(** Case conversion of the letters of Basic Latin and of the Latin-1
    Supplement; the rest of the Unicode table is left out. *)
Fixpoint lowerLatin1 (s : string) : string :=
  match s with
  | EmptyString => EmptyString
  | String c rest =>
      match rest with
      | String d rest' =>
          if (nat_of_ascii c =? 195)%nat && upperLatin1 d
          then String c (String (ascii_of_nat (nat_of_ascii d + 32)) (lowerLatin1 rest'))
          else String (lowerAscii c) (lowerLatin1 rest)
      | EmptyString => String (lowerAscii c) EmptyString
      end
  end.

#[export] Instance runtime : Runtime :=
  {| Date_parse := parseDate; localeCompare := compareCodeUnits;
     toLowerCase := lowerLatin1 |}.

End Reference.

(* ===================================================================== *)
(** * The list view: what the specification says it shows                 *)
(* ===================================================================== *)

Module ListSpec.
Import Js ReportModule.
Section Spec.
Context {rt : Runtime} {R : Type} {RL : ReportLike R}.

(** [q] is a substring of [s] when the case of letters is ignored: once
    the engine has converted both to lower case, [q] occurs in [s]. *)
Definition occursIgnoringCase (q s : string) : Prop :=
  exists before after,
    toLowerCase s = String.append before (String.append (toLowerCase q) after).

(** The same notion spelled out for ASCII texts, without a conversion: two
    characters are the same, or one is a letter A to Z and the other the
    small letter 32 places after it. *)
Definition sameLetter (c d : ascii) : Prop :=
  let m := nat_of_ascii c in
  let n := nat_of_ascii d in
  m = n \/ ((65 <= m <= 90)%nat /\ n = (m + 32)%nat)
        \/ ((65 <= n <= 90)%nat /\ m = (n + 32)%nat).

Fixpoint sameLetters (a b : string) : Prop :=
  match a, b with
  | EmptyString, EmptyString => True
  | String c a', String d b' => sameLetter c d /\ sameLetters a' b'
  | _, _ => False
  end.

(** Some part of [s] reads as [q], letter for letter. *)
Definition occursInAnyCase (q s : string) : Prop :=
  exists before found after,
    s = String.append before (String.append found after) /\ sameLetters found q.

(** The search condition on ASCII texts. *)
Definition matchesInAnyCase (q : string) (r : R) : Prop :=
  q = "" \/ occursInAnyCase q (report_teacherName r)
         \/ occursInAnyCase q (report_subject r).

(** No query, or the query matches the teacher name or the subject. *)
Definition matchesSearch (q : string) (r : R) : Prop :=
  q = "" \/ occursIgnoringCase q (report_teacherName r)
         \/ occursIgnoringCase q (report_subject r).

(** The instant a calendar date starts. *)
Definition startOfDay (d : string) : option Z :=
  Date_parse (String.append d "T00:00:00").

(** No start date, or the report is dated on or after it. *)
Definition onOrAfter (startDate : string) (r : R) : Prop :=
  startDate = "" \/
  exists t0 t, startOfDay startDate = Some t0 /\ startOfDay (report_date r) = Some t
               /\ t0 <= t.

(** No end date, or the report is dated on or before it. *)
Definition onOrBefore (endDate : string) (r : R) : Prop :=
  endDate = "" \/
  exists t t1, startOfDay (report_date r) = Some t /\ startOfDay endDate = Some t1
               /\ t <= t1.

(** The reports the list keeps. *)
Definition Kept (q startDate endDate : string) (r : R) : Prop :=
  matchesSearch q r /\ onOrAfter startDate r /\ onOrBefore endDate r.

(** The same condition as a test, for use with [filter]. *)
Definition keeps (q startDate endDate : string) (r : R) : bool :=
  (strFalsy q
   || (includes (toLowerCase (report_teacherName r)) (toLowerCase q)
       || includes (toLowerCase (report_subject r)) (toLowerCase q)))
  && (strFalsy startDate || numLe (startOfDay startDate) (startOfDay (report_date r)))
  && (strFalsy endDate || numLe (startOfDay (report_date r)) (startOfDay endDate)).

(** [a] may stand before [b] under the selected key. *)
Definition InOrder (sortBy : string) (a b : R) : Prop :=
  if String.eqb sortBy "date-asc"
  then exists ta tb, Date_parse (report_date a) = Some ta
                     /\ Date_parse (report_date b) = Some tb /\ ta <= tb
  else if String.eqb sortBy "teacher-asc"
  then localeCompare (report_teacherName a) (report_teacherName b) <= 0
  else exists ta tb, Date_parse (report_date a) = Some ta
                     /\ Date_parse (report_date b) = Some tb /\ tb <= ta.

(** The selected key orders the reports: the collation is a total preorder
    for the teacher name, every date is a valid date for the two date
    orders. *)
Definition Sortable (sortBy : string) (reports : list R) : Prop :=
  if String.eqb sortBy "date-asc" then Forall (fun r => is_Some (Date_parse (report_date r))) reports
  else if String.eqb sortBy "teacher-asc" then Collation rt
  else Forall (fun r => is_Some (Date_parse (report_date r))) reports.

(** The report carries a date the runtime can read. *)
Definition hasDate (r : R) : Prop := is_Some (Date_parse (report_date r)).

End Spec.
End ListSpec.

(* ===================================================================== *)
(** * Notions used to state the properties                                *)
(* ===================================================================== *)

Module SortSpec.
Import Js.
Section Order.
Context {A : Type} (comparefn : A -> A -> option Z).

(** [a] need not move behind [b]: the comparator does not return a
    positive number. *)
Definition notAfter (a b : A) : Prop := sortCompare comparefn a b <= 0.

(** The comparator is consistent on the values that satisfy [P]. *)
Record Consistent (P : A -> Prop) : Prop := {
  consistent_total : forall a b, P a -> P b -> notAfter a b \/ notAfter b a;
  consistent_trans : forall a b c, P a -> P b -> P c ->
    notAfter a b -> notAfter b c -> notAfter a c
}.

End Order.
End SortSpec.

Module PdfSpec.
Import Pdf.

(** The box both export functions compute for a capture on a page of size
    [pw] by [ph]. *)
Definition placed (pw ph : Q) (canvas : Canvas) : Image :=
  let ratio := (inject_Z (width canvas) / inject_Z (height canvas))%Q in
  if Qlt_le_dec ph (pw / ratio)
  then mkImage (dataURL canvas) ((pw - ph * ratio) / 2) 0 (ph * ratio) ph
  else mkImage (dataURL canvas) ((pw - pw) / 2) 0 pw (pw / ratio).

End PdfSpec.

Module BackupSpec.
Import Js Db.

(** The rows of a table, as [toArray] lists them. *)
Definition rows (t : TableName) (s : Store) : list value :=
  (map_to_list (table t s)).*2.

(** The backup document of a store: one top-level array per table. *)
Definition backupDocument (s : Store) : value :=
  VObj [("teachers", VArr (rows Teachers s));
        ("supervisionReports", VArr (rows SupervisionReports s));
        ("bookCheckingReports", VArr (rows BookCheckingReports s));
        ("workCoverageReports", VArr (rows WorkCoverageReports s));
        ("settings", VArr (rows Db.Settings s))].

End BackupSpec.

Module FormSpec.
Import Js Db.




End FormSpec.

(* ===================================================================== *)
(** * Sample data                                                         *)
(* ===================================================================== *)

Module Samples.
Import Js Db Settings.

Definition sampleReport (rid name : string) (stars : Z) : Supervision.SupervisionReport :=
  Supervision.mkReport rid name "Grade 10A" "Mathematics" "2024-03-01" stars
    "Fractions" "Group work" "High" "Calm" "Charts" "Quiz" "Clear" "Pace" "More practice".

Definition sampleTeacher (tid name : string) : value :=
  VObj [("id", VStr tid); ("name", VStr name);
        ("subjects", VArr [VStr "Mathematics"]); ("classes", VArr [VStr "Grade 10A"])].

Definition sampleSetting (key text : string) : value :=
  VObj [("key", VStr key); ("value", VStr text)].

Definition sampleStore : Store :=
  mkStore (<["t1" := sampleTeacher "t1" "Amina Okello"]> ∅)
          (<["1709286000000" :=
               Supervision.toValue (sampleReport "1709286000000" "Amina Okello" 4)]> ∅)
          ∅ ∅
          (<["schoolName" := sampleSetting "schoolName" "Hill School"]> ∅).

(** A backup whose supervision reports repeat an id. *)
Definition clashingBackup : FileText :=
  JsonText (VObj
    [("teachers", VArr [sampleTeacher "t2" "Brian Mwangi"]);
     ("supervisionReports",
      VArr [Supervision.toValue (sampleReport "17" "Brian Mwangi" 2);
            Supervision.toValue (sampleReport "17" "Brian Mwangi" 5)])]).

(** A rendered interface with two off-screen report documents. *)
Definition sampleDom : Pdf.Dom := fun elementId =>
  if String.eqb elementId "bulk-pdf-supervision-17"
  then Some (Pdf.mkCanvas 1588 2246 "data:image/png;base64,AAAA")
  else if String.eqb elementId "bulk-pdf-supervision-18"
  then Some (Pdf.mkCanvas 1588 3000 "data:image/png;base64,BBBB")
  else None.

Definition reportOn (rid name topic day : string) : Supervision.SupervisionReport :=
  Supervision.mkReport rid name "Grade 10A" topic day 4
    "Objectives" "Methods" "Engagement" "Management" "Aids" "Assessment"
    "Strengths" "Weaknesses" "Recommendations".

Definition sampleReports : list Supervision.SupervisionReport :=
  [reportOn "1" "Brian Mwangi" "Physics" "2024-03-05";
   reportOn "2" "Amina Okello" "Mathematics" "2024-03-01";
   reportOn "3" "amina okello" "Chemistry" "2024-02-20";
   reportOn "4" "Carol Njeri" "Human anatomy" "2024-03-10"].

End Samples.

(* ===================================================================== *)
(** * The backup file, table by table                                     *)
(* ===================================================================== *)

Module ImportSpec.
Import Js Db.

(** The name of the array of a table in the backup document. *)
Definition backupKey (t : TableName) : string :=
  match t with
  | Teachers => "teachers"
  | SupervisionReports => "supervisionReports"
  | BookCheckingReports => "bookCheckingReports"
  | WorkCoverageReports => "workCoverageReports"
  | Db.Settings => "settings"
  end.

(** The records a backup document holds for a table: those of its array,
    none when the property is absent or falsy; [None] when the document
    cannot be read that far. *)
Definition fileRows (data : value) (t : TableName) : option (list value) :=
  match getProp data (backupKey t) with
  | ReadThrows => None
  | ReadUndefined => Some []
  | ReadValue (VArr vs) => Some vs
  | ReadValue v => if truthy v then None else Some []
  end.

(** The records the document holds for a table all have a string key:
    [l] lists them in the order of the array, each with its key. *)
Definition keyedRows (data : value) (t : TableName) (l : list (string * value)) : Prop :=
  fileRows data t = Some l.*2
  /\ Forall (fun row => extractKey (keyPath t) row.2 = Some row.1) l.

End ImportSpec.

(* ===================================================================== *)
(** * White space                                                         *)
(* ===================================================================== *)

Module TextSpec.
Import Js.

(** The text consists of white space, or of nothing. *)
Definition blankText (s : string) : Prop :=
  exists spaces, Forall (fun t => In t whiteSpace) spaces /\ chars s = concat spaces.

(** The text neither begins nor ends with white space. *)
Definition unpadded (s : string) : Prop :=
  forall t, In t whiteSpace ->
    (forall r, chars s <> t ++ r) /\ (forall r, chars s <> r ++ t).

End TextSpec.

(* ===================================================================== *)
(** * When a form is complete                                             *)
(* ===================================================================== *)

Module ValidationSpec.
Import Js TextSpec.

(** The field holds more than white space. *)
Definition filled (s : string) : Prop := ~ blankText s.

Definition supervisionComplete (formData : Supervision.SupervisionReport) : Prop :=
  filled (Supervision.teacherName formData) /\ filled (Supervision.className formData)
  /\ filled (Supervision.subject formData) /\ Supervision.date formData <> ""
  /\ filled (Supervision.lessonObjectives formData)
  /\ filled (Supervision.teachingMethods formData)
  /\ filled (Supervision.learnerEngagement formData)
  /\ filled (Supervision.classroomManagement formData)
  /\ filled (Supervision.useOfTeachingAids formData)
  /\ filled (Supervision.assessmentAndFeedback formData)
  /\ filled (Supervision.strengths formData) /\ filled (Supervision.weaknesses formData)
  /\ filled (Supervision.recommendations formData).

(** The number of books is accepted: it is not blank, and the integer it
    starts with, if it starts with one, is positive. *)
Definition countAccepted (booksChecked : string) : Prop :=
  filled booksChecked /\ forall n, parseInt booksChecked = Some n -> 0 < n.


Definition workCoverageComplete (formData : WorkCoverage.WorkCoverageReport) : Prop :=
  filled (WorkCoverage.teacherName formData) /\ filled (WorkCoverage.className formData)
  /\ filled (WorkCoverage.subject formData) /\ WorkCoverage.date formData <> ""
  /\ filled (WorkCoverage.plannedTopics formData)
  /\ filled (WorkCoverage.completedTopics formData)
  /\ WorkCoverage.teacherSignature formData <> ""
  /\ WorkCoverage.supervisorSignature formData <> "".

End ValidationSpec.

(* ===================================================================== *)
(** * The teacher directory ([components/TeacherManagementModule.tsx])    *)
(* ===================================================================== *)

Module Teachers.
Import Js.

Record Teacher : Type := mkTeacher {
  id : string;
  name : string;
  subjects : list string;
  classes : list string
}.

(** The record as the object the store receives. *)
Definition toValue (t : Teacher) : value :=
  VObj [("id", VStr (id t)); ("name", VStr (name t));
        ("subjects", VArr (map VStr (subjects t)));
        ("classes", VArr (map VStr (classes t)))].

(** [s.split(sep)] for a separator of one character. *)
Fixpoint split (sep : ascii) (s : string) : list string :=
  match s with
  | EmptyString => [EmptyString]
  | String c rest =>
      if Ascii.eqb c sep then EmptyString :: split sep rest
      else match split sep rest with
           | piece :: pieces => String c piece :: pieces
           | [] => [String c EmptyString]
           end
  end.

(** [l.join(sep)] *)
Fixpoint join (sep : string) (l : list string) : string :=
  match l with
  | [] => EmptyString
  | [x] => x
  | x :: rest => String.append x (String.append sep (join sep rest))
  end.

(** [text.split(',').map(s => s.trim()).filter(Boolean)] *)
Definition parseList (text : string) : list string :=
  List.filter (fun s => negb (strFalsy s)) (map trim (split ","%char text)).

(** The [useState] cells of [TeacherForm]. *)
Record Form : Type := mkForm {
  formName : string;
  formSubjects : string;
  formClasses : string;
  formError : string
}.

(** The initial state of the form, from [initialData]. *)
Definition initForm (initialData : option Teacher) : Form :=
  match initialData with
  | Some t =>
      mkForm (strOr (name t) "") (strOr (join ", " (subjects t)) "")
             (strOr (join ", " (classes t)) "") ""
  | None => mkForm "" "" "" ""
  end.

(** [initialData?.id || Date.now().toString()] *)
Definition submitId (initialData : option Teacher) (now : Z) : string :=
  match initialData with
  | Some t => strOr (id t) (numberToString now)
  | None => numberToString now
  end.

(** [handleSubmit] of the form: its next state and the teacher passed to
    [onSave], if any. *)
Definition handleSubmit (initialData : option Teacher) (form : Form) (now : Z)
  : Form * option Teacher :=
  if strFalsy (trim (formName form))
  then (mkForm (formName form) (formSubjects form) (formClasses form)
          "Teacher name is required.", None)
  else (mkForm (formName form) (formSubjects form) (formClasses form) "",
        Some (mkTeacher (submitId initialData now) (trim (formName form))
                (parseList (formSubjects form)) (parseList (formClasses form)))).

Inductive View : Type := LIST | FORM.

(** The [useState] cells of [TeacherManagementModule]. *)
Record State : Type := mkState {
  view : View;
  selectedTeacher : option Teacher
}.

Definition initialState : State := mkState LIST None.

(** The effect on [initialTeacherToEditId] and [teachers]. *)
Definition editRequested (initialTeacherToEditId : option string) (teachers : list Teacher)
  (st : State) : State :=
  match initialTeacherToEditId with
  | Some tid =>
      if strFalsy tid then st
      else match List.find (fun t => String.eqb (id t) tid) teachers with
           | Some teacherToEdit => mkState FORM (Some teacherToEdit)
           | None => st
           end
  | None => st
  end.

(** [if (initialTeacherToEditId) onClearTeacherToEdit()]: whether the
    callback is called. *)
Definition clearsRequest (initialTeacherToEditId : option string) : bool :=
  match initialTeacherToEditId with
  | Some tid => negb (strFalsy tid)
  | None => false
  end.

(** [handleSave]: the store, the state, and whether [onClearTeacherToEdit]
    was called. *)
Definition handleSave (initialTeacherToEditId : option string) (teacher : Teacher)
  (w : Db.Store * State) : Db.Store * State * bool :=
  match Db.transaction (Db.put Db.Teachers (toValue teacher)) (fst w) with
  | (inr _, s') => (s', mkState LIST None, clearsRequest initialTeacherToEditId)
  | (inl _, s') => (s', snd w, false)
  end.

Definition handleDelete (tid : string) (confirmed : bool) (w : Db.Store * State)
  : Db.Store * State :=
  if confirmed
  then (snd (Db.transaction (Db.delete Db.Teachers tid) (fst w)), snd w)
  else w.

Definition handleEdit (teacher : Teacher) (st : State) : State :=
  mkState FORM (Some teacher).

Definition handleAddNew (st : State) : State := mkState FORM None.

Definition handleCancelForm (initialTeacherToEditId : option string) (st : State)
  : State * bool :=
  (mkState LIST None, clearsRequest initialTeacherToEditId).

Section List.
Context {rt : Runtime}.

(** The rows of the list: [teachers.sort((a, b) => a.name.localeCompare(b.name))]. *)
Definition listed (teachers : list Teacher) : list Teacher :=
  arraySort (fun a b => Some (localeCompare (name a) (name b))) teachers.

End List.

(** The form the module mounts: [onSave] is [handleSave]. *)
Definition submitForm (initialTeacherToEditId : option string) (form : Form) (now : Z)
  (w : Db.Store * State) : Db.Store * State * Form :=
  match handleSubmit (selectedTeacher (snd w)) form now with
  | (form', Some teacher) =>
      (fst (handleSave initialTeacherToEditId teacher w), form')
  | (form', None) => (w, form')
  end.

End Teachers.

Module TeacherSpec.
Import Js TextSpec Teachers.

(** The character occurs in the string. *)
Fixpoint hasChar (c : ascii) (s : string) : bool :=
  match s with
  | EmptyString => false
  | String d rest => Ascii.eqb d c || hasChar c rest
  end.

(** An entry as the form produces it: not empty, without surrounding white
    space and without a comma. *)
Definition entry (s : string) : Prop :=
  s <> "" /\ unpadded s /\ hasChar ","%char s = false.

(** A teacher as the form produces it. *)
Definition normal (t : Teacher) : Prop :=
  id t <> "" /\ name t <> "" /\ unpadded (name t)
  /\ Forall entry (subjects t) /\ Forall entry (classes t).

End TeacherSpec.

(* ===================================================================== *)
(** * Views of a report module and edits of the supervision form          *)
(* ===================================================================== *)

Module ReportView.
Import Js ReportModule.

(** [onAddNew]: [() => { setSelectedReportId(null); setView('FORM'); }] *)
Definition onAddNew (st : State) : State :=
  setView FORM (setSelectedReportId None st).

(** [onSelect]: [(id) => { setSelectedReportId(id); setView('DETAIL'); }] *)
Definition onSelect (rid : string) (st : State) : State :=
  setView DETAIL (setSelectedReportId (Some rid) st).

Definition setSearchQuery (q : string) (st : State) : State :=
  mkState (view st) (selectedReportId st) q (sortBy st)
    (filterStartDate st) (filterEndDate st) (isBulkExporting st).

Definition setSortBy (k : string) (st : State) : State :=
  mkState (view st) (selectedReportId st) (searchQuery st) k
    (filterStartDate st) (filterEndDate st) (isBulkExporting st).

Definition setFilterStartDate (d : string) (st : State) : State :=
  mkState (view st) (selectedReportId st) (searchQuery st) (sortBy st)
    d (filterEndDate st) (isBulkExporting st).

Definition setFilterEndDate (d : string) (st : State) : State :=
  mkState (view st) (selectedReportId st) (searchQuery st) (sortBy st)
    (filterStartDate st) d (isBulkExporting st).

(** What the user and the surrounding application can do to the state of
    a report module. *)
Inductive Event : Type :=
| AddNew                                   (* the "Add New Report" button *)
| Select (rid : string)                    (* "View" on a list item *)
| Back                                     (* "Back" of the detail view, "Cancel" of the form *)
| SaveDone                                 (* the rest of [handleSave] after the write *)
| InitialReport (rid : option string)      (* the effect on [initialReportIdToShow] *)
| Search (q : string)
| SortBy (k : string)
| StartDate (d : string)
| EndDate (d : string)
| Exporting (b : bool).                    (* [setIsBulkExporting] *)

Definition step (st : State) (e : Event) : State :=
  match e with
  | AddNew => onAddNew st
  | Select rid => onSelect rid st
  | Back => handleBackToList st
  | SaveDone => setSelectedReportId None (setView LIST st)
  | InitialReport rid => showInitialReport rid st
  | Search q => setSearchQuery q st
  | SortBy k => setSortBy k st
  | StartDate d => setFilterStartDate d st
  | EndDate d => setFilterEndDate d st
  | Exporting b => setIsBulkExporting b st
  end.

Definition run (events : list Event) : State := fold_left step events initialState.

Section Render.
Context {R : Type} {RL : ReportLike R}.

(** [reports.find(r => r.id === selectedReportId)] *)
Definition selectedReport (reports : list R) (st : State) : option R :=
  match selectedReportId st with
  | Some rid => List.find (fun r => String.eqb (report_id r) rid) reports
  | None => None
  end.

(** What the module returns: the form with its [initialData], the detail
    view of a report, or the list. *)
Inductive Screen : Type :=
| FormScreen (initialData : option R)
| DetailScreen (report : R)
| ListScreen.

Definition render (reports : list R) (st : State) : Screen :=
  match view st with
  | FORM => FormScreen (selectedReport reports st)
  | DETAIL =>
      match selectedReport reports st with
      | Some report => DetailScreen report
      | None => ListScreen
      end
  | LIST => ListScreen
  end.

End Render.
End ReportView.

Module SupervisionForm.
Import Js Supervision.

(** The inputs the form renders; [name] of an input is its [id]. *)
Inductive Input : Type :=
| teacherNameInput | classNameInput | subjectInput | dateInput
| lessonObjectivesInput | teachingMethodsInput | learnerEngagementInput
| classroomManagementInput | useOfTeachingAidsInput | assessmentAndFeedbackInput
| strengthsInput | weaknessesInput | recommendationsInput.

Definition inputName (i : Input) : string :=
  match i with
  | teacherNameInput => "teacherName"
  | classNameInput => "className"
  | subjectInput => "subject"
  | dateInput => "date"
  | lessonObjectivesInput => "lessonObjectives"
  | teachingMethodsInput => "teachingMethods"
  | learnerEngagementInput => "learnerEngagement"
  | classroomManagementInput => "classroomManagement"
  | useOfTeachingAidsInput => "useOfTeachingAids"
  | assessmentAndFeedbackInput => "assessmentAndFeedback"
  | strengthsInput => "strengths"
  | weaknessesInput => "weaknesses"
  | recommendationsInput => "recommendations"
  end.

(** [{ ...prev, [name]: value }] for the name of an input. *)
Definition setField (i : Input) (v : string) (r : SupervisionReport) : SupervisionReport :=
  match i with
  | teacherNameInput =>
      mkReport (id r) v (className r) (subject r) (date r) (rating r)
        (lessonObjectives r) (teachingMethods r) (learnerEngagement r)
        (classroomManagement r) (useOfTeachingAids r) (assessmentAndFeedback r)
        (strengths r) (weaknesses r) (recommendations r)
  | classNameInput =>
      mkReport (id r) (teacherName r) v (subject r) (date r) (rating r)
        (lessonObjectives r) (teachingMethods r) (learnerEngagement r)
        (classroomManagement r) (useOfTeachingAids r) (assessmentAndFeedback r)
        (strengths r) (weaknesses r) (recommendations r)
  | subjectInput =>
      mkReport (id r) (teacherName r) (className r) v (date r) (rating r)
        (lessonObjectives r) (teachingMethods r) (learnerEngagement r)
        (classroomManagement r) (useOfTeachingAids r) (assessmentAndFeedback r)
        (strengths r) (weaknesses r) (recommendations r)
  | dateInput =>
      mkReport (id r) (teacherName r) (className r) (subject r) v (rating r)
        (lessonObjectives r) (teachingMethods r) (learnerEngagement r)
        (classroomManagement r) (useOfTeachingAids r) (assessmentAndFeedback r)
        (strengths r) (weaknesses r) (recommendations r)
  | lessonObjectivesInput =>
      mkReport (id r) (teacherName r) (className r) (subject r) (date r) (rating r)
        v (teachingMethods r) (learnerEngagement r)
        (classroomManagement r) (useOfTeachingAids r) (assessmentAndFeedback r)
        (strengths r) (weaknesses r) (recommendations r)
  | teachingMethodsInput =>
      mkReport (id r) (teacherName r) (className r) (subject r) (date r) (rating r)
        (lessonObjectives r) v (learnerEngagement r)
        (classroomManagement r) (useOfTeachingAids r) (assessmentAndFeedback r)
        (strengths r) (weaknesses r) (recommendations r)
  | learnerEngagementInput =>
      mkReport (id r) (teacherName r) (className r) (subject r) (date r) (rating r)
        (lessonObjectives r) (teachingMethods r) v
        (classroomManagement r) (useOfTeachingAids r) (assessmentAndFeedback r)
        (strengths r) (weaknesses r) (recommendations r)
  | classroomManagementInput =>
      mkReport (id r) (teacherName r) (className r) (subject r) (date r) (rating r)
        (lessonObjectives r) (teachingMethods r) (learnerEngagement r)
        v (useOfTeachingAids r) (assessmentAndFeedback r)
        (strengths r) (weaknesses r) (recommendations r)
  | useOfTeachingAidsInput =>
      mkReport (id r) (teacherName r) (className r) (subject r) (date r) (rating r)
        (lessonObjectives r) (teachingMethods r) (learnerEngagement r)
        (classroomManagement r) v (assessmentAndFeedback r)
        (strengths r) (weaknesses r) (recommendations r)
  | assessmentAndFeedbackInput =>
      mkReport (id r) (teacherName r) (className r) (subject r) (date r) (rating r)
        (lessonObjectives r) (teachingMethods r) (learnerEngagement r)
        (classroomManagement r) (useOfTeachingAids r) v
        (strengths r) (weaknesses r) (recommendations r)
  | strengthsInput =>
      mkReport (id r) (teacherName r) (className r) (subject r) (date r) (rating r)
        (lessonObjectives r) (teachingMethods r) (learnerEngagement r)
        (classroomManagement r) (useOfTeachingAids r) (assessmentAndFeedback r)
        v (weaknesses r) (recommendations r)
  | weaknessesInput =>
      mkReport (id r) (teacherName r) (className r) (subject r) (date r) (rating r)
        (lessonObjectives r) (teachingMethods r) (learnerEngagement r)
        (classroomManagement r) (useOfTeachingAids r) (assessmentAndFeedback r)
        (strengths r) v (recommendations r)
  | recommendationsInput =>
      mkReport (id r) (teacherName r) (className r) (subject r) (date r) (rating r)
        (lessonObjectives r) (teachingMethods r) (learnerEngagement r)
        (classroomManagement r) (useOfTeachingAids r) (assessmentAndFeedback r)
        (strengths r) (weaknesses r) v
  end.


(** The [useState] cells of the form; an entry of [errors] whose message
    is [None] was reset to [undefined]. *)
Record Form : Type := mkForm {
  formData : SupervisionReport;
  errors : list (string * option string)
}.

(** [useState(initialData || emptyForm)] and [useState({})] *)
Definition initForm (initialData : option SupervisionReport) : Form :=
  mkForm (match initialData with Some r => r | None => emptyForm end) [].

(** [errors[name]], read for its truthiness. *)
Fixpoint errorShown (name : string) (errs : list (string * option string)) : bool :=
  match errs with
  | [] => false
  | (k, m) :: rest =>
      if String.eqb k name
      then match m with Some msg => negb (strFalsy msg) | None => false end
      else errorShown name rest
  end.

(** [{ ...prev, [name]: undefined }] *)
Fixpoint clearError (name : string) (errs : list (string * option string))
  : list (string * option string) :=
  match errs with
  | [] => [(name, None)]
  | (k, m) :: rest =>
      if String.eqb k name then (k, None) :: rest else (k, m) :: clearError name rest
  end.

Definition handleChange (i : Input) (v : string) (f : Form) : Form :=
  mkForm (setField i v (formData f))
    (if errorShown (inputName i) (errors f) then clearError (inputName i) (errors f)
     else errors f).




(** [handleSubmit] of the form in state [f]: [validateForm] replaces the
    errors. *)
Definition submit (f : Form) (now : Z) : Form * ReportModule.Submit SupervisionReport :=
  let '(errs, outcome) := handleSubmit (formData f) now in
  (mkForm (formData f) (map (fun e => (fst e, Some (snd e))) errs), outcome).

End SupervisionForm.

(* ===================================================================== *)
(** * Navigation between the pages (the application shell)                *)
(* ===================================================================== *)

Module App.
Import Js.

Inductive Page : Type :=
| DASHBOARD | TEACHERS | TEACHER_PROFILE | SUPERVISION | BOOK_CHECKING
| WORK_COVERAGE | SETTINGS.

#[export] Instance Page_eq_dec : EqDecision Page.
Proof. solve_decision. Defined.

(** The [useState] cells of [App]. *)
Record State : Type := mkState {
  page : Page;
  activeTeacherId : option string;
  activeReport : option (Page * string);
  teacherToEdit : option string
}.

Definition initialState : State := mkState DASHBOARD None None None.

(** [navigateTo.page] *)
Definition toPage (targetPage : Page) (st : State) : State :=
  mkState targetPage None None None.

(** [navigateTo.teacherProfile] *)
Definition toTeacherProfile (teacherId : string) (st : State) : State :=
  mkState TEACHER_PROFILE (Some teacherId) (activeReport st) (teacherToEdit st).

(** [navigateTo.report] *)
Definition toReport (targetPage : Page) (reportId : string) (st : State) : State :=
  mkState targetPage (activeTeacherId st) (Some (targetPage, reportId)) (teacherToEdit st).

(** [navigateTo.editTeacher] *)
Definition toEditTeacher (teacherId : string) (st : State) : State :=
  mkState TEACHERS (activeTeacherId st) (activeReport st) (Some teacherId).

Definition clearActiveReport (st : State) : State :=
  mkState (page st) (activeTeacherId st) None (teacherToEdit st).

(** [() => setTeacherToEdit(null)] *)
Definition clearTeacherToEdit (st : State) : State :=
  mkState (page st) (activeTeacherId st) (activeReport st) None.

(** The component [renderPage] returns, with the props it receives. *)
Inductive Rendered : Type :=
| TeacherManagementModule (initialTeacherToEditId : option string)
| TeacherProfilePage (teacherId : string)
| SupervisionModule (initialReportIdToShow : option string)
| BookCheckingModule (initialReportIdToShow : option string)
| WorkCoverageModule (initialReportIdToShow : option string)
| SettingsModule
| Dashboard.

(** [activeReport?.page === p ? activeReport.id : undefined] *)
Definition reportFor (p : Page) (st : State) : option string :=
  match activeReport st with
  | Some (q, rid) => if decide (q = p) then Some rid else None
  | None => None
  end.

Definition renderPage (st : State) : Rendered :=
  match page st with
  | TEACHERS => TeacherManagementModule (teacherToEdit st)
  | TEACHER_PROFILE =>
      match activeTeacherId st with
      | Some tid => if strFalsy tid then Dashboard else TeacherProfilePage tid
      | None => Dashboard
      end
  | SUPERVISION => SupervisionModule (reportFor SUPERVISION st)
  | BOOK_CHECKING => BookCheckingModule (reportFor BOOK_CHECKING st)
  | WORK_COVERAGE => WorkCoverageModule (reportFor WORK_COVERAGE st)
  | SETTINGS => SettingsModule
  | DASHBOARD => Dashboard
  end.

(** [handleBackToList] of a report module that was given
    [initialReportIdToShow]: the module state, and the application state
    after [onClearActiveReport] when the prop is set. *)
Definition backToList (initialReportIdToShow : option string)
  (w : State * ReportModule.State) : State * ReportModule.State :=
  (match initialReportIdToShow with
   | Some rid => if strFalsy rid then fst w else clearActiveReport (fst w)
   | None => fst w
   end,
   ReportModule.handleBackToList (snd w)).

(** The id the report module on display was given, if one is on display. *)
Definition shownReportId (st : State) : option string :=
  match renderPage st with
  | SupervisionModule rid => rid
  | BookCheckingModule rid => rid
  | WorkCoverageModule rid => rid
  | _ => None
  end.

(** What the header and the pages can ask of the shell. *)
Inductive Nav : Type :=
| GoPage (p : Page)
| GoTeacherProfile (teacherId : string)
| GoReport (p : Page) (reportId : string)
| GoEditTeacher (teacherId : string)
| ClearActiveReport
| ClearTeacherToEdit.

Definition navigate (st : State) (n : Nav) : State :=
  match n with
  | GoPage p => toPage p st
  | GoTeacherProfile tid => toTeacherProfile tid st
  | GoReport p rid => toReport p rid st
  | GoEditTeacher tid => toEditTeacher tid st
  | ClearActiveReport => clearActiveReport st
  | ClearTeacherToEdit => clearTeacherToEdit st
  end.

End App.

(* ===================================================================== *)
(** * Recent activity (the dashboard and the teacher profile)             *)
(* ===================================================================== *)

Module Activity.
Import Js ReportModule.

(** The union type [Report] of the three kinds of report. *)
Inductive Report : Type :=
| OfSupervision (r : Supervision.SupervisionReport)
| OfBookChecking (r : BookChecking.BookCheckingReport)
| OfWorkCoverage (r : WorkCoverage.WorkCoverageReport).

#[global] Instance reportLike : ReportLike Report :=
  {| report_id := fun r =>
       match r with
       | OfSupervision r => Supervision.id r
       | OfBookChecking r => BookChecking.id r
       | OfWorkCoverage r => WorkCoverage.id r
       end;
     report_teacherName := fun r =>
       match r with
       | OfSupervision r => Supervision.teacherName r
       | OfBookChecking r => BookChecking.teacherName r
       | OfWorkCoverage r => WorkCoverage.teacherName r
       end;
     report_subject := fun r =>
       match r with
       | OfSupervision r => Supervision.subject r
       | OfBookChecking r => BookChecking.subject r
       | OfWorkCoverage r => WorkCoverage.subject r
       end;
     report_date := fun r =>
       match r with
       | OfSupervision r => Supervision.date r
       | OfBookChecking r => BookChecking.date r
       | OfWorkCoverage r => WorkCoverage.date r
       end |}.

(** [{ ...r, type, page }] *)
Record Tagged : Type := mkTagged {
  report : Report;
  type : string;
  page : App.Page
}.

Definition mappedSupervision (l : list Supervision.SupervisionReport) : list Tagged :=
  map (fun r => mkTagged (OfSupervision r) "Supervision" App.SUPERVISION) l.

Definition mappedBookChecking (l : list BookChecking.BookCheckingReport) : list Tagged :=
  map (fun r => mkTagged (OfBookChecking r) "Book Checking" App.BOOK_CHECKING) l.

Definition mappedWorkCoverage (l : list WorkCoverage.WorkCoverageReport) : list Tagged :=
  map (fun r => mkTagged (OfWorkCoverage r) "Work Coverage" App.WORK_COVERAGE) l.

Section Lists.
Context {rt : Runtime}.

(** [(a, b) => new Date(b.date).getTime() - new Date(a.date).getTime()] *)
Definition newestFirst (a b : Tagged) : option Z :=
  numSub (Date_parse (report_date (report b))) (Date_parse (report_date (report a))).

(** [recentReports] of the dashboard: the first five of all reports, newest
    first. *)
Definition recentReports
  (supervisionReports : list Supervision.SupervisionReport)
  (bookCheckingReports : list BookChecking.BookCheckingReport)
  (workCoverageReports : list WorkCoverage.WorkCoverageReport) : list Tagged :=
  firstn 5
    (arraySort newestFirst
       (mappedSupervision supervisionReports ++ mappedBookChecking bookCheckingReports
        ++ mappedWorkCoverage workCoverageReports)).

(** [teachers.find(t => t.id === teacherId)] *)
Definition teacher (teachers : list Teachers.Teacher) (teacherId : string)
  : option Teachers.Teacher :=
  List.find (fun t => String.eqb (Teachers.id t) teacherId) teachers.

(** [allReports] of the teacher profile. *)
Definition allReports (teachers : list Teachers.Teacher) (teacherId : string)
  (supervisionReports : list Supervision.SupervisionReport)
  (bookCheckingReports : list BookChecking.BookCheckingReport)
  (workCoverageReports : list WorkCoverage.WorkCoverageReport) : list Tagged :=
  match teacher teachers teacherId with
  | None => []
  | Some t =>
      arraySort newestFirst
        (mappedSupervision
           (List.filter (fun r => String.eqb (Supervision.teacherName r) (Teachers.name t))
              supervisionReports)
         ++ mappedBookChecking
              (List.filter (fun r => String.eqb (BookChecking.teacherName r) (Teachers.name t))
                 bookCheckingReports)
         ++ mappedWorkCoverage
              (List.filter (fun r => String.eqb (WorkCoverage.teacherName r) (Teachers.name t))
                 workCoverageReports))
  end.

End Lists.

(** The values of the three cards of the profile of teacher [t]. *)
Definition cardValues (t : Teachers.Teacher)
  (supervisionReports : list Supervision.SupervisionReport)
  (bookCheckingReports : list BookChecking.BookCheckingReport)
  (workCoverageReports : list WorkCoverage.WorkCoverageReport) : nat * nat * nat :=
  (length (List.filter (fun r => String.eqb (Supervision.teacherName r) (Teachers.name t))
             supervisionReports),
   length (List.filter (fun r => String.eqb (BookChecking.teacherName r) (Teachers.name t))
             bookCheckingReports),
   length (List.filter (fun r => String.eqb (WorkCoverage.teacherName r) (Teachers.name t))
             workCoverageReports)).

End Activity.

Module ActivitySpec.
Import Js ReportModule Activity.
Section Spec.
Context {rt : Runtime}.

(** The time value of the date of a tagged report. *)
Definition time (a : Tagged) : option Z := Date_parse (report_date (report a)).

(** [a] is dated no earlier than [b]. *)
Definition noOlder (a b : Tagged) : Prop :=
  exists ta tb, time a = Some ta /\ time b = Some tb /\ tb <= ta.

End Spec.

(** The report comes from one of the three tables, with the tag of its
    kind. *)
Definition fromTables
  (supervisionReports : list Supervision.SupervisionReport)
  (bookCheckingReports : list BookChecking.BookCheckingReport)
  (workCoverageReports : list WorkCoverage.WorkCoverageReport) (a : Tagged) : Prop :=
  match report a with
  | OfSupervision r =>
      In r supervisionReports /\ type a = "Supervision" /\ page a = App.SUPERVISION
  | OfBookChecking r =>
      In r bookCheckingReports /\ type a = "Book Checking" /\ page a = App.BOOK_CHECKING
  | OfWorkCoverage r =>
      In r workCoverageReports /\ type a = "Work Coverage" /\ page a = App.WORK_COVERAGE
  end.

End ActivitySpec.

(* ===================================================================== *)
(** * The settings form ([components/SettingsModule.tsx])                 *)
(* ===================================================================== *)

Module SettingsForm.
Import Js Db Settings.

(** [SETTING_KEYS] *)
Definition SCHOOL_NAME : string := "schoolName".
Definition SCHOOL_ADDRESS : string := "schoolAddress".
Definition SCHOOL_LOGO : string := "schoolLogo".
Definition REPORT_FOOTER : string := "reportFooter".

(** The four [useState] cells of the form. *)
Record Fields : Type := mkFields {
  schoolName : value;
  schoolAddress : value;
  schoolLogo : value;
  reportFooter : value
}.

(** [useState('')], four times. *)
Definition initialFields : Fields :=
  mkFields (VStr "") (VStr "") (VStr "") (VStr "").

(** [settings.find(s => s.key === key)]; the outer [None] is the
    [TypeError] of reading [key] from [null]. *)
Fixpoint findSetting (key : string) (settings : list value) : option (option value) :=
  match settings with
  | [] => Some None
  | s :: rest =>
      match getProp s "key" with
      | ReadThrows => None
      | ReadValue (VStr k) => if String.eqb k key then Some (Some s) else findSetting key rest
      | _ => findSetting key rest
      end
  end.

(** [getSetting]: [settings.find(s => s.key === key)?.value || ''] *)
Definition getSetting (settings : list value) (key : string) : option value :=
  match findSetting key settings with
  | None => None
  | Some None => Some (VStr "")
  | Some (Some s) =>
      match getProp s "value" with
      | ReadValue v => Some (if truthy v then v else VStr "")
      | _ => Some (VStr "")
      end
  end.

(** The effect on [settings]: the four cells are set from the rows. *)
Definition loadFields (settings : list value) : option Fields :=
  match getSetting settings SCHOOL_NAME, getSetting settings SCHOOL_ADDRESS,
        getSetting settings SCHOOL_LOGO, getSetting settings REPORT_FOOTER with
  | Some n, Some a, Some l, Some f => Some (mkFields n a l f)
  | _, _, _, _ => None
  end.

(** [{ key, value }] *)
Definition setting (key : string) (v : value) : value :=
  VObj [("key", VStr key); ("value", v)].

(** [table.bulkPut(records)]: the records are put in order. *)
Fixpoint bulkPut (t : TableName) (vs : list value) : Tx unit :=
  match vs with
  | [] => ret tt
  | v :: rest => put t v ;;; bulkPut t rest
  end.

Definition handleSaveSettings (f : Fields) (s : Store) : Store * Feedback :=
  match transaction
          (bulkPut Db.Settings
             [setting SCHOOL_NAME (schoolName f); setting SCHOOL_ADDRESS (schoolAddress f);
              setting SCHOOL_LOGO (schoolLogo f); setting REPORT_FOOTER (reportFooter f)]) s with
  | (inr _, s') => (s', mkFeedback "Settings saved successfully!" success)
  | (inl _, s') => (s', mkFeedback "Failed to save settings." error)
  end.

(** What the form shows for a stored value: the value, or the empty string
    when the value is falsy. *)
Definition shown (v : value) : value := if truthy v then v else VStr "".

End SettingsForm.

(* ===================================================================== *)
(** * Invariants of the view and navigation state                         *)
(* ===================================================================== *)

Module ViewSpec.
Import ReportModule ReportView.

(** A report is selected exactly in the detail view. *)
Definition selectionMatchesView (st : State) : Prop :=
  match view st with
  | DETAIL => is_Some (selectedReportId st)
  | _ => selectedReportId st = None
  end.

End ViewSpec.

Module NavSpec.
Import ReportModule App.

(** The report link, when one is kept, names the page it was made for;
    on a report page it names that very page. *)
Definition linkMatchesPage (st : App.State) : Prop :=
  match page st, activeReport st with
  | SUPERVISION, Some (q, _) => q = SUPERVISION
  | BOOK_CHECKING, Some (q, _) => q = BOOK_CHECKING
  | WORK_COVERAGE, Some (q, _) => q = WORK_COVERAGE
  | _, _ => True
  end.

End NavSpec.

(* ===================================================================== *)
(** * Properties of the store                                             *)
(* ===================================================================== *)

Module DbFacts.
Import Js Db.

Lemma table_setTable_eq t m s : table t (setTable t m s) = m.
Proof. destruct t; reflexivity. Qed.

Lemma table_setTable_ne t t' m s : t <> t' -> table t' (setTable t m s) = table t' s.
Proof. destruct t, t'; intros Hne; try reflexivity; congruence. Qed.

Lemma setTable_setTable t m1 m2 s : setTable t m2 (setTable t m1 s) = setTable t m2 s.
Proof. destruct t; reflexivity. Qed.

Lemma setTable_table t s : setTable t (table t s) s = s.
Proof. destruct t, s; reflexivity. Qed.

Lemma store_ext s1 s2 : (forall t, table t s1 = table t s2) -> s1 = s2.
Proof.
  intros H. destruct s1, s2.
  pose proof (H Teachers) as H1. pose proof (H SupervisionReports) as H2.
  pose proof (H BookCheckingReports) as H3. pose proof (H WorkCoverageReports) as H4.
  pose proof (H Settings) as H5. simpl in *. congruence.
Qed.

Lemma clearAll_allTables s : clearAll allTables s = inr (tt, emptyStore).
Proof. reflexivity. Qed.

(** ** The key invariant is kept by every operation *)

Lemma keyed_empty t : keyed t ∅.
Proof. intros k v H. rewrite lookup_empty in H. discriminate. Qed.

Lemma wellKeyed_empty : wellKeyed emptyStore.
Proof. intros t. destruct t; apply keyed_empty. Qed.

Lemma keyed_insert t k v m :
  extractKey (keyPath t) v = Some k -> keyed t m -> keyed t (<[k := v]> m).
Proof.
  intros Hk Hm k' v' H. destruct (decide (k = k')) as [<-|Hne].
  - rewrite lookup_insert_eq in H. congruence.
  - rewrite lookup_insert_ne in H by done. eauto.
Qed.

Lemma keyed_delete t k m : keyed t m -> keyed t (base.delete k m).
Proof.
  intros Hm k' v' H. destruct (decide (k = k')) as [<-|Hne].
  - rewrite lookup_delete_eq in H. discriminate.
  - rewrite lookup_delete_ne in H by done. eauto.
Qed.

Lemma wellKeyed_setTable t m s : keyed t m -> wellKeyed s -> wellKeyed (setTable t m s).
Proof.
  intros Hm Hs t'. destruct (decide (t = t')) as [<-|Hne].
  - rewrite table_setTable_eq. exact Hm.
  - rewrite table_setTable_ne by done. apply Hs.
Qed.

Lemma put_inv t v s r :
  put t v s = inr (tt, r) ->
  exists k, extractKey (keyPath t) v = Some k /\ r = setTable t (<[k := v]> (table t s)) s.
Proof.
  unfold put. destruct (extractKey (keyPath t) v) as [k|]; [|discriminate].
  intros H. injection H as <-. eauto.
Qed.

Lemma wellKeyed_put t v s r : put t v s = inr (tt, r) -> wellKeyed s -> wellKeyed r.
Proof.
  intros H Hs. destruct (put_inv _ _ _ _ H) as (k & Hk & ->).
  apply wellKeyed_setTable; [|done]. apply keyed_insert; [done | apply Hs].
Qed.

Lemma wellKeyed_add t v s r : add t v s = inr (tt, r) -> wellKeyed s -> wellKeyed r.
Proof.
  unfold add. destruct (extractKey (keyPath t) v) as [k|] eqn:Hk; [|discriminate].
  destruct (table t s !! k); [discriminate|].
  intros H Hs. injection H as <-.
  apply wellKeyed_setTable; [|done]. apply keyed_insert; [done | apply Hs].
Qed.

Lemma wellKeyed_bulkAddList t vs : forall s r,
  bulkAddList t vs s = inr (tt, r) -> wellKeyed s -> wellKeyed r.
Proof.
  induction vs as [|v vs IH]; intros s r H Hs; simpl in H.
  - injection H as <-. done.
  - unfold bind in H. destruct (add t v s) as [e|[[] s1]] eqn:Ha; [discriminate|].
    eapply IH; [exact H|]. eapply wellKeyed_add; eauto.
Qed.

Lemma wellKeyed_delete t k s : wellKeyed s -> wellKeyed (setTable t (base.delete k (table t s)) s).
Proof. intros Hs. apply wellKeyed_setTable; [|done]. apply keyed_delete, Hs. Qed.

Lemma wellKeyed_clear t s : wellKeyed s -> wellKeyed (setTable t ∅ s).
Proof. intros Hs. apply wellKeyed_setTable; [apply keyed_empty | done]. Qed.

(** ** Bulk insertion of the rows of a table *)

Lemma bulkAddList_rows t (l : list (string * value)) : forall s,
  NoDup l.*1 ->
  (forall k v, (k, v) ∈ l -> extractKey (keyPath t) v = Some k) ->
  (forall k, k ∈ l.*1 -> table t s !! k = None) ->
  bulkAddList t l.*2 s = inr (tt, setTable t (list_to_map l ∪ table t s) s).
Proof.
  induction l as [|[k v] l IH]; intros s Hnd Hkey Hfresh.
  - simpl. unfold ret. rewrite (left_id_L ∅ (∪)). by rewrite setTable_table.
  - simpl. unfold bind, add.
    rewrite (Hkey k v) by (left).
    rewrite (Hfresh k) by (simpl; left).
    simpl in Hnd. apply NoDup_cons in Hnd as [Hk Hnd].
    rewrite IH.
    + rewrite setTable_setTable, table_setTable_eq.
      do 2 f_equal. f_equal.
      rewrite <- insert_union_r by (by apply not_elem_of_list_to_map_1).
      by rewrite insert_union_l.
    + done.
    + intros k' v' Hin. apply Hkey. by right.
    + intros k' Hin. rewrite table_setTable_eq.
      rewrite lookup_insert_ne by (intros ->; done).
      apply Hfresh. simpl. by right.
Qed.

Lemma bulkAddList_toArray t m s :
  keyed t m -> table t s = ∅ ->
  bulkAddList t (map_to_list m).*2 s = inr (tt, setTable t m s).
Proof.
  intros Hm He. rewrite bulkAddList_rows.
  - rewrite list_to_map_to_list, He. by rewrite (right_id_L ∅ (∪)).
  - apply NoDup_fst_map_to_list.
  - intros k v Hin. apply Hm. by apply elem_of_map_to_list.
  - intros k _. rewrite He. apply lookup_empty.
Qed.

(** ** Exactly one row per key *)

Lemma recordsWithKey_absent t k (m : gmap string value) :
  keyed t m -> m !! k = None ->
  filter (fun v => extractKey (keyPath t) v = Some k) (map_to_list m).*2 = [].
Proof.
  intros Hm Hk.
  assert (Hall : forall l : list (string * value),
    (forall k' v', (k', v') ∈ l -> m !! k' = Some v') ->
    filter (fun v => extractKey (keyPath t) v = Some k) l.*2 = []).
  { induction l as [|[k' v'] l IH]; intros Hl; [done|].
    simpl. rewrite filter_cons_False.
    - apply IH. intros k2 v2 Hin. apply Hl. by right.
    - intros He. pose proof (Hl k' v' ltac:(left)) as Hin.
      rewrite (Hm _ _ Hin) in He. congruence. }
  apply Hall. intros k' v' Hin. by apply elem_of_map_to_list.
Qed.

Lemma recordsWithKey_present t k v s :
  keyed t (table t s) -> table t s !! k = Some v -> recordsWithKey t k s = [v].
Proof.
  intros Hm Hk. unfold recordsWithKey.
  apply Permutation_singleton_r.
  rewrite <- (insert_id (table t s) k v Hk) at 1.
  rewrite <- insert_delete_eq.
  rewrite map_to_list_insert by apply lookup_delete_eq.
  simpl. rewrite filter_cons_True by (apply Hm, Hk).
  rewrite recordsWithKey_absent; [done | by apply keyed_delete | apply lookup_delete_eq].
Qed.

End DbFacts.

(* ===================================================================== *)
(** * Saving a report                                                     *)
(* ===================================================================== *)

Module SaveFacts.
Import Js Db DbFacts ReportModule Samples.

Lemma handleSave_put t v k w :
  extractKey (keyPath t) v = Some k ->
  ReportModule.handleSave t v w =
    (setTable t (<[k := v]> (table t (fst w))) (fst w),
     setSelectedReportId None (setView LIST (snd w))).
Proof.
  intros Hk. unfold ReportModule.handleSave, transaction, put. by rewrite Hk.
Qed.

Lemma supervision_key r :
  extractKey (keyPath SupervisionReports) (Supervision.toValue r) = Some (Supervision.id r).
Proof. reflexivity. Qed.

Lemma bookChecking_key r :
  extractKey (keyPath BookCheckingReports) (BookChecking.toValue r) = Some (BookChecking.id r).
Proof. reflexivity. Qed.

Lemma workCoverage_key r :
  extractKey (keyPath WorkCoverageReports) (WorkCoverage.toValue r) = Some (WorkCoverage.id r).
Proof. reflexivity. Qed.

Lemma handleSave_wellKeyed t v w :
  wellKeyed (fst w) -> wellKeyed (fst (ReportModule.handleSave t v w)).
Proof.
  intros Hw. unfold ReportModule.handleSave, transaction.
  destruct (put t v (fst w)) as [e|[[] s']] eqn:Hp; simpl; [done|].
  eapply wellKeyed_put; eauto.
Qed.

(** The object handed to the store determines the report. *)
Lemma supervision_toValue_inj r1 r2 :
  Supervision.toValue r1 = Supervision.toValue r2 -> r1 = r2.
Proof. destruct r1, r2. unfold Supervision.toValue. simpl. intros H. by simplify_eq. Qed.

(** C4. Saving two reports with the same id, one after the other, leaves
    exactly one row with that id in the supervision table; the row is the
    second report, and the store is the one a single save of the second
    report would have produced. *)
Theorem save_twice_keeps_one_record
  (r1 r2 : Supervision.SupervisionReport) (w : Store * State) :
  Supervision.id r1 = Supervision.id r2 ->
  wellKeyed (fst w) ->
  let w' := Supervision.handleSave r2 (Supervision.handleSave r1 w) in
  recordsWithKey SupervisionReports (Supervision.id r2) (fst w') = [Supervision.toValue r2]
  /\ table SupervisionReports (fst w') !! Supervision.id r2 = Some (Supervision.toValue r2)
  /\ fst w' = fst (Supervision.handleSave r2 w)
  /\ view (snd w') = LIST.
Proof.
  intros Hid Hw w'.
  assert (Hlook : table SupervisionReports (fst w') !! Supervision.id r2
                  = Some (Supervision.toValue r2)).
  { subst w'. unfold Supervision.handleSave.
    rewrite (handleSave_put _ _ _ _ (supervision_key r2)). simpl.
    apply lookup_insert_eq. }
  split; [|split; [exact Hlook|split]].
  - apply recordsWithKey_present; [|exact Hlook].
    subst w'. unfold Supervision.handleSave.
    apply handleSave_wellKeyed, handleSave_wellKeyed, Hw.
  - subst w'. unfold Supervision.handleSave.
    rewrite (handleSave_put _ _ _ _ (supervision_key r2)).
    rewrite (handleSave_put _ _ _ _ (supervision_key r1)).
    rewrite (handleSave_put _ _ _ _ (supervision_key r2)).
    simpl. rewrite Hid. by rewrite insert_insert_eq.
  - subst w'. unfold Supervision.handleSave.
    by rewrite (handleSave_put _ _ _ _ (supervision_key r2)).
Qed.

Lemma save_twice_keeps_one_record_witness :
  let r1 := sampleReport "1709286000000" "Amina Okello" 3 in
  let r2 := sampleReport "1709286000000" "Amina Okello" 5 in
  let w' := Supervision.handleSave r2 (Supervision.handleSave r1 (emptyStore, initialState)) in
  recordsWithKey SupervisionReports "1709286000000" (fst w') = [Supervision.toValue r2]
  /\ table SupervisionReports (fst w') !! "1709286000000" = Some (Supervision.toValue r2)
  /\ fst w' = fst (Supervision.handleSave r2 (emptyStore, initialState))
  /\ view (snd w') = LIST.
Proof.
  intros r1 r2.
  apply (save_twice_keeps_one_record r1 r2 (emptyStore, initialState)).
  - reflexivity.
  - exact wellKeyed_empty.
Defined.

End SaveFacts.

(* ===================================================================== *)
(** * Backup and restore                                                  *)
(* ===================================================================== *)

Module SettingsFacts.
Import Js Db DbFacts Settings BackupSpec Samples.

Lemma importTable_exported data name t m s :
  getProp data name = ReadValue (VArr (map_to_list m).*2) ->
  keyed t m -> table t s = ∅ ->
  importTable data name t s = inr (tt, setTable t m s).
Proof.
  intros Hp Hm He. unfold importTable. rewrite Hp. simpl.
  by apply bulkAddList_toArray.
Qed.

(** Importing what was exported rebuilds the store, whatever the store
    held before the import. *)
Lemma import_of_export today s target :
  wellKeyed s ->
  exists file,
    fst (handleExportData today s) = Some file
    /\ handleImportData (Some (content file)) true target =
         (s, Some (mkFeedback
                "Data imported successfully! The application will now reload." success)).
Proof.
  intros Hs. eexists. split; [reflexivity|].
  simpl. unfold transaction, importBody.
  unfold bind at 1. rewrite clearAll_allTables.
  unfold bind at 1.
  rewrite (importTable_exported _ _ Teachers (table Teachers s)); [|reflexivity|apply Hs|reflexivity].
  unfold bind at 1.
  rewrite (importTable_exported _ _ SupervisionReports (table SupervisionReports s));
    [|reflexivity|apply Hs|reflexivity].
  unfold bind at 1.
  rewrite (importTable_exported _ _ BookCheckingReports (table BookCheckingReports s));
    [|reflexivity|apply Hs|reflexivity].
  unfold bind at 1.
  rewrite (importTable_exported _ _ WorkCoverageReports (table WorkCoverageReports s));
    [|reflexivity|apply Hs|reflexivity].
  rewrite (importTable_exported _ _ Db.Settings (table Db.Settings s));
    [|reflexivity|apply Hs|reflexivity].
  destruct s; reflexivity.
Qed.

(** C1. Exporting a store to the backup document and importing that
    document into an empty store succeeds, and each of the five tables of
    the result has the same set of ids as the table that was exported. *)
Theorem export_then_import_same_ids (today : string) (s : Store) :
  wellKeyed s ->
  exists file s' msg,
    fst (handleExportData today s) = Some file
    /\ content file = JSON_stringify (backupDocument s)
    /\ handleImportData (Some (content file)) true emptyStore
         = (s', Some (mkFeedback msg success))
    /\ forall t, ids t s' = ids t s.
Proof.
  intros Hs. destruct (import_of_export today s emptyStore Hs) as (file & Hex & Him).
  exists file, s. eexists. split; [exact Hex|]. split; [|split; [exact Him|done]].
  simpl in Hex. by injection Hex as <-.
Qed.

Lemma sampleStore_wellKeyed : wellKeyed sampleStore.
Proof.
  intros t. destruct t; simpl;
    first [apply keyed_empty | apply keyed_insert; [reflexivity | apply keyed_empty]].
Qed.

Lemma export_then_import_same_ids_witness :
  exists file s' msg,
    fst (handleExportData "2024-03-02" sampleStore) = Some file
    /\ content file = JSON_stringify (backupDocument sampleStore)
    /\ handleImportData (Some (content file)) true emptyStore
         = (s', Some (mkFeedback msg success))
    /\ forall t, ids t s' = ids t sampleStore.
Proof.
  apply (export_then_import_same_ids "2024-03-02" sampleStore).
  exact sampleStore_wellKeyed.
Defined.

(** A file that is not JSON is rejected before the store is touched. *)
Lemma import_not_json s :
  handleImportData (Some NotJson) true s =
    (s, Some (mkFeedback
           "Failed to import data. Please ensure the file is a valid backup." error)).
Proof. reflexivity. Qed.

(** A failure inside the transaction body, in whichever table it occurs,
    is reported and leaves the store as it was. *)
Lemma import_body_failure data e s :
  importBody data s = inl e ->
  handleImportData (Some (JsonText data)) true s =
    (s, Some (mkFeedback
           "Failed to import data. Please ensure the file is a valid backup." error)).
Proof. intros H. simpl. unfold transaction. by rewrite H. Qed.

(** A failing bulk insert makes the body fail, after the tables before it
    were already rewritten in the working copy. *)
Lemma import_body_bulkAdd_failure data name t v e s1 :
  getProp data name = ReadValue v -> truthy v = true ->
  bulkAdd t v s1 = inl e ->
  importTable data name t s1 = inl e.
Proof. intros Hp Ht Hb. unfold importTable. by rewrite Hp, Ht. Qed.

(** An import fails for exactly two reasons: the file is not JSON, or an
    operation of the transaction body fails. *)
Lemma import_fails_iff (file : option FileText) (confirmed : bool) (s : Store) :
  importFailed (handleImportData file confirmed s) <->
  confirmed = true /\
  exists text, file = Some text /\
    (JSON_parse text = None
     \/ exists data e, JSON_parse text = Some data /\ importBody data s = inl e).
Proof.
  unfold importFailed, handleImportData.
  destruct file as [text|]; [|split; [intros [? [=]] | intros (_ & ? & [=] & _)]].
  destruct confirmed; simpl; [|split; [intros [? [=]] | intros ([=] & _)]].
  destruct (JSON_parse text) as [data|] eqn:Hp.
  - unfold transaction. destruct (importBody data s) as [e|[[] s']] eqn:Hb; simpl.
    + split; [intros _ | eauto]. split; [done|]. exists text. split; [done|].
      right. eauto.
    + split; [intros [? [=]]|]. intros (_ & text' & [= <-] & [H|(d & e & Hd & He)]).
      * congruence.
      * congruence.
  - split; [intros _ | eauto]. split; [done|]. exists text. eauto.
Qed.

Lemma importTable_wellKeyed data name t s r :
  importTable data name t s = inr (tt, r) -> wellKeyed s -> wellKeyed r.
Proof.
  unfold importTable. destruct (getProp data name) as [| |v]; [done| |].
  - intros [= <-]. done.
  - destruct (truthy v); [|intros [= <-]; done].
    destruct v; try done. simpl. apply wellKeyed_bulkAddList.
Qed.

(** The key invariant holds after every import, failed or not. *)
Lemma handleImportData_wellKeyed file confirmed s :
  wellKeyed s -> wellKeyed (fst (handleImportData file confirmed s)).
Proof.
  intros Hs. unfold handleImportData.
  destruct file as [text|]; [|done]. destruct (negb confirmed); [done|].
  destruct (JSON_parse text) as [data|]; [|done].
  unfold transaction. destruct (importBody data s) as [e|[[] s']] eqn:Hb; simpl; [done|].
  revert Hb. unfold importBody. unfold bind at 1. rewrite clearAll_allTables.
  pose proof wellKeyed_empty as H0.
  unfold bind at 1.
  destruct (importTable data "teachers" Teachers emptyStore) as [|[[] s1]] eqn:H1; [done|].
  unfold bind at 1.
  destruct (importTable data "supervisionReports" SupervisionReports s1)
    as [|[[] s2]] eqn:H2; [done|].
  unfold bind at 1.
  destruct (importTable data "bookCheckingReports" BookCheckingReports s2)
    as [|[[] s3]] eqn:H3; [done|].
  unfold bind at 1.
  destruct (importTable data "workCoverageReports" WorkCoverageReports s3)
    as [|[[] s4]] eqn:H4; [done|].
  intros H5.
  eapply importTable_wellKeyed; [exact H5|].
  eapply importTable_wellKeyed; [exact H4|].
  eapply importTable_wellKeyed; [exact H3|].
  eapply importTable_wellKeyed; [exact H2|].
  eapply importTable_wellKeyed; [exact H1|]. exact H0.
Qed.

(** C2. An import that reports a failure, because the file is not JSON or
    because an operation of the import transaction failed, leaves every
    table exactly as it was before the import. *)
Theorem failed_import_keeps_store (file : option FileText) (confirmed : bool) (s : Store) :
  importFailed (handleImportData file confirmed s) ->
  fst (handleImportData file confirmed s) = s
  /\ forall t, table t (fst (handleImportData file confirmed s)) = table t s.
Proof.
  intros [msg Hfail].
  assert (H : fst (handleImportData file confirmed s) = s).
  { revert Hfail. unfold handleImportData.
    destruct file as [text|]; [|done].
    destruct (negb confirmed); [done|].
    destruct (JSON_parse text) as [data|]; [|done].
    unfold transaction. destruct (importBody data s) as [e|[[] s']]; simpl; [done|].
    intros H. discriminate. }
  split; [exact H|]. intros t. by rewrite H.
Qed.

Example clashingBackup_fails_in_second_table :
  importBody (VObj
    [("teachers", VArr [sampleTeacher "t2" "Brian Mwangi"]);
     ("supervisionReports",
      VArr [Supervision.toValue (Samples.sampleReport "17" "Brian Mwangi" 2);
            Supervision.toValue (Samples.sampleReport "17" "Brian Mwangi" 5)])])
    sampleStore = inl ConstraintError.
Proof. vm_compute. reflexivity. Qed.

Lemma failed_import_keeps_store_witness :
  importFailed (handleImportData (Some clashingBackup) true sampleStore)
  /\ fst (handleImportData (Some clashingBackup) true sampleStore) = sampleStore
  /\ forall t, table t (fst (handleImportData (Some clashingBackup) true sampleStore))
               = table t sampleStore.
Proof.
  assert (Hf : importFailed (handleImportData (Some clashingBackup) true sampleStore)).
  { eexists. vm_compute. reflexivity. }
  split; [exact Hf|].
  exact (failed_import_keeps_store (Some clashingBackup) true sampleStore Hf).
Defined.

(** Without the enclosing transaction the same statements would have lost
    data: the tables are cleared and half filled when the failure occurs. *)
Example import_without_transaction_loses_rows :
  let data := VObj
    [("teachers", VArr [sampleTeacher "t2" "Brian Mwangi"]);
     ("supervisionReports",
      VArr [Supervision.toValue (Samples.sampleReport "17" "Brian Mwangi" 2);
            Supervision.toValue (Samples.sampleReport "17" "Brian Mwangi" 5)])] in
  let r := unscoped [clearAll allTables;
                     importTable data "teachers" Teachers;
                     importTable data "supervisionReports" SupervisionReports;
                     importTable data "bookCheckingReports" BookCheckingReports;
                     importTable data "workCoverageReports" WorkCoverageReports;
                     importTable data "settings" Db.Settings] sampleStore in
  fst r = inl ConstraintError
  /\ table Teachers (snd r) !! "t1" = None
  /\ table Db.Settings (snd r) !! "schoolName" = None.
Proof. vm_compute. repeat split. Qed.

End SettingsFacts.

(* ===================================================================== *)
(** * The export routine                                                  *)
(* ===================================================================== *)

Module PdfFacts.
Import Pdf PdfSpec Samples.

Lemma generatePdfDocument_placed dom elementId canvas :
  dom elementId = Some canvas ->
  generatePdfDocument dom elementId
  = Some (mkPdf a4Width a4Height [[placed a4Width a4Height canvas]]).
Proof.
  intros Hdom. unfold generatePdfDocument, generateCanvas, placed. rewrite Hdom.
  cbv zeta. change (pdfWidth newPdf) with a4Width. change (pdfHeight newPdf) with a4Height.
  destruct (Qlt_le_dec a4Height
              (a4Width / (inject_Z (width canvas) / inject_Z (height canvas))));
    reflexivity.
Qed.

Lemma generatePdfDocument_missing dom elementId :
  dom elementId = None -> generatePdfDocument dom elementId = None.
Proof. intros Hdom. unfold generatePdfDocument, generateCanvas. by rewrite Hdom. Qed.

Lemma onLastPage_snoc img ps p : onLastPage img (ps ++ [p]) = ps ++ [p ++ [img]].
Proof.
  induction ps as [|q ps IH]; [reflexivity|].
  simpl. rewrite IH. destruct ps; reflexivity.
Qed.

(** One iteration of the loop, for a region that is captured. *)
Lemma bulkLoop_step dom pw ph i elementId rest pdf canvas :
  dom elementId = Some canvas ->
  bulkLoop dom pw ph i (elementId :: rest) pdf
  = bulkLoop dom pw ph (S i) rest
      (addImage (placed pw ph canvas) (if (0 <? i)%nat then addPage pdf else pdf)).
Proof.
  intros Hdom. simpl. unfold generateCanvas, placed. rewrite Hdom. cbv zeta.
  destruct (Qlt_le_dec ph (pw / (inject_Z (width canvas) / inject_Z (height canvas))));
    reflexivity.
Qed.

(** After the first page every captured region opens a page of its own. *)
Lemma bulkLoop_tail dom pw ph : forall elementIds canvases i pdf,
  Forall2 (fun elementId canvas => dom elementId = Some canvas) elementIds canvases ->
  bulkLoop dom pw ph (S i) elementIds pdf
  = mkPdf (pdfWidth pdf) (pdfHeight pdf)
      (pages pdf ++ map (fun canvas => [placed pw ph canvas]) canvases).
Proof.
  induction elementIds as [|e es IH]; intros canvases i pdf Hall.
  - apply Forall2_nil_inv_l in Hall as ->. simpl. rewrite app_nil_r. by destruct pdf.
  - apply Forall2_cons_inv_l in Hall as (c & cs & Hc & Hcs & ->).
    rewrite (bulkLoop_step _ _ _ _ _ _ _ c Hc). rewrite (IH cs) by done.
    simpl. rewrite onLastPage_snoc. by rewrite <- app_assoc.
Qed.

Lemma generateBulkPdfDocument_pages dom elementIds canvases :
  elementIds <> [] ->
  Forall2 (fun elementId canvas => dom elementId = Some canvas) elementIds canvases ->
  generateBulkPdfDocument dom elementIds
  = Some (mkPdf a4Width a4Height
            (map (fun canvas => [placed a4Width a4Height canvas]) canvases)).
Proof.
  intros Hne Hall. destruct elementIds as [|e es]; [done|].
  apply Forall2_cons_inv_l in Hall as (c & cs & Hc & Hcs & ->).
  unfold generateBulkPdfDocument.
  rewrite (bulkLoop_step _ _ _ _ _ _ _ c Hc).
  rewrite (bulkLoop_tail _ _ _ es cs) by done. reflexivity.
Qed.

(** C7. For a non-empty list of regions that are all captured, the bulk
    document has one page per region, in the order of the list.  The page
    of a region holds one image, the capture of that very region, in the
    box of the scaling rule; it is the page the single-page composition
    builds for the region. *)
Theorem bulk_document_one_page_per_region dom (elementIds : list string) :
  elementIds <> [] ->
  Forall (fun elementId => is_Some (generateCanvas dom elementId)) elementIds ->
  exists doc,
    generateBulkPdfDocument dom elementIds = Some doc
    /\ pdfWidth doc = a4Width /\ pdfHeight doc = a4Height
    /\ length (pages doc) = length elementIds
    /\ Forall2 (fun elementId page =>
                  exists canvas,
                    generateCanvas dom elementId = Some canvas
                    /\ page = [placed a4Width a4Height canvas]
                    /\ generatePdfDocument dom elementId
                       = Some (mkPdf (pdfWidth doc) (pdfHeight doc) [page]))
               elementIds (pages doc).
Proof.
  intros Hne Hall.
  assert (Hcs : exists canvases,
    Forall2 (fun elementId canvas => dom elementId = Some canvas) elementIds canvases).
  { clear Hne. induction Hall as [|e es [c Hc] _ [cs IH]].
    - exists []. constructor.
    - exists (c :: cs). by constructor. }
  destruct Hcs as [canvases Hcs].
  eexists. split; [by apply generateBulkPdfDocument_pages|]. simpl.
  split; [reflexivity|]. split; [reflexivity|]. split.
  - rewrite length_map. symmetry. by eapply Forall2_length.
  - clear Hne Hall. induction Hcs as [|e c es cs Hc _ IH]; simpl; constructor.
    + exists c. split; [exact Hc|]. split; [reflexivity|].
      by apply generatePdfDocument_placed.
    + exact IH.
Qed.

Lemma bulk_document_one_page_per_region_witness :
  exists doc,
    generateBulkPdfDocument sampleDom ["bulk-pdf-supervision-17"; "bulk-pdf-supervision-18"]
    = Some doc
    /\ pdfWidth doc = a4Width /\ pdfHeight doc = a4Height
    /\ length (pages doc) = 2%nat
    /\ Forall2 (fun elementId page =>
                  exists canvas,
                    generateCanvas sampleDom elementId = Some canvas
                    /\ page = [placed a4Width a4Height canvas]
                    /\ generatePdfDocument sampleDom elementId
                       = Some (mkPdf (pdfWidth doc) (pdfHeight doc) [page]))
               ["bulk-pdf-supervision-17"; "bulk-pdf-supervision-18"] (pages doc).
Proof.
  apply (bulk_document_one_page_per_region sampleDom
           ["bulk-pdf-supervision-17"; "bulk-pdf-supervision-18"]).
  - discriminate.
  - repeat constructor; eexists; reflexivity.
Defined.

(** The two pages of the sample export, image by image. *)
Example bulk_pages_hold_their_captures :
  option_map pages
    (generateBulkPdfDocument sampleDom
       ["bulk-pdf-supervision-17"; "bulk-pdf-supervision-18"])
  = Some [[mkImage "data:image/png;base64,AAAA"
             ((210 - 297 * (1588 / 2246)) / 2) 0 (297 * (1588 / 2246)) 297];
          [mkImage "data:image/png;base64,BBBB"
             ((210 - 297 * (1588 / 3000)) / 2) 0 (297 * (1588 / 3000)) 297]].
Proof. reflexivity. Qed.

Lemma placed_layout (canvas : Canvas) :
  (0 < width canvas)%Z -> (0 < height canvas)%Z ->
  let w := inject_Z (width canvas) in
  let h := inject_Z (height canvas) in
  let img := placed a4Width a4Height canvas in
  (imgData img = dataURL canvas
   /\ (210 * h / w <= 297 -> imgWidth img == 210 /\ imgHeight img == 210 * h / w)
   /\ (297 < 210 * h / w -> imgHeight img == 297 /\ imgWidth img == 297 * w / h)
   /\ x img == (210 - imgWidth img) / 2
   /\ y img == 0
   /\ imgWidth img * h == imgHeight img * w
   /\ 0 <= x img /\ imgWidth img <= 210 /\ imgHeight img <= 297)%Q.
Proof.
  intros Hw Hh w h img.
  rewrite Zlt_Qlt in Hw, Hh. change (inject_Z 0) with 0%Q in Hw, Hh.
  fold w in Hw. fold h in Hh.
  assert (E : (210 / (w / h) == 210 * h / w)%Q) by (field; split; lra).
  assert (Ew : (210 * h / w * w == 210 * h)%Q) by (field; lra).
  assert (Eh : (297 * w / h * h == 297 * w)%Q) by (field; lra).
  assert (Er : (297 * (w / h) == 297 * w / h)%Q) by (field; lra).
  subst img. unfold placed, a4Width, a4Height. fold w h.
  destruct (Qlt_le_dec 297 (210 / (w / h))) as [Hgt|Hle]; simpl;
    rewrite E in *; rewrite ?Er.
  - split; [reflexivity|]. split; [intros; lra|]. split; [intros; split; reflexivity|].
    split; [reflexivity|]. split; [reflexivity|].
    assert (297 * w / h < 210)%Q by (apply Qlt_shift_div_r; [lra|nra]).
    split; [lra|]. split; [|split; lra].
    apply Qle_shift_div_l; lra.
  - split; [reflexivity|]. split; [intros; split; reflexivity|]. split; [intros; lra|].
    split; [reflexivity|]. split; [reflexivity|].
    split; [lra|]. split; [|split; lra].
    apply Qle_shift_div_l; lra.
Qed.

(** C6. A capture of positive width and height is placed on the portrait
    A4 page (210 by 297 mm) as one image: scaled to the page width with a
    proportional height when that height fits, otherwise scaled to the page
    height with a proportional width; centred horizontally and aligned to
    the top.  The box keeps the aspect ratio and lies on the page. *)
Theorem single_page_layout dom (elementId : string) (canvas : Canvas) :
  generateCanvas dom elementId = Some canvas ->
  (0 < width canvas)%Z -> (0 < height canvas)%Z ->
  let w := inject_Z (width canvas) in
  let h := inject_Z (height canvas) in
  exists img,
    generatePdfDocument dom elementId = Some (mkPdf 210 297 [[img]])
    /\ (imgData img = dataURL canvas
        /\ (210 * h / w <= 297 -> imgWidth img == 210 /\ imgHeight img == 210 * h / w)
        /\ (297 < 210 * h / w -> imgHeight img == 297 /\ imgWidth img == 297 * w / h)
        /\ x img == (210 - imgWidth img) / 2
        /\ y img == 0
        /\ imgWidth img * h == imgHeight img * w
        /\ 0 <= x img /\ imgWidth img <= 210 /\ imgHeight img <= 297)%Q.
Proof.
  intros Hdom Hw Hh w h. exists (placed a4Width a4Height canvas). split.
  - by apply generatePdfDocument_placed.
  - by apply placed_layout.
Qed.

Lemma single_page_layout_witness :
  let canvas := mkCanvas 1588 3000 "data:image/png;base64,BBBB" in
  let w := inject_Z (width canvas) in
  let h := inject_Z (height canvas) in
  exists img,
    generatePdfDocument sampleDom "bulk-pdf-supervision-18" = Some (mkPdf 210 297 [[img]])
    /\ (imgData img = dataURL canvas
        /\ (210 * h / w <= 297 -> imgWidth img == 210 /\ imgHeight img == 210 * h / w)
        /\ (297 < 210 * h / w -> imgHeight img == 297 /\ imgWidth img == 297 * w / h)
        /\ x img == (210 - imgWidth img) / 2
        /\ y img == 0
        /\ imgWidth img * h == imgHeight img * w
        /\ 0 <= x img /\ imgWidth img <= 210 /\ imgHeight img <= 297)%Q.
Proof.
  intros canvas.
  apply (single_page_layout sampleDom "bulk-pdf-supervision-18" canvas); reflexivity.
Defined.

(** A tall capture is capped to the page height and centred; a capture of
    the page's own proportions fills the page. *)
Example tall_and_exact_captures :
  generatePdfDocument sampleDom "bulk-pdf-supervision-18"
  = Some (mkPdf 210 297
            [[mkImage "data:image/png;base64,BBBB"
                ((210 - 297 * (1588 / 3000)) / 2) 0 (297 * (1588 / 3000)) 297]])
  /\ (297 * (1588 / 3000) == 157212 / 1000)%Q
  /\ generatePdfDocument (fun _ => Some (mkCanvas 2100 2970 "png")) "page"
     = Some (mkPdf 210 297 [[mkImage "png" ((210 - 210) / 2) 0 210 (210 / (2100 / 2970))]])
  /\ (210 / (2100 / 2970) == 297)%Q.
Proof. repeat split. Qed.

End PdfFacts.

(* ===================================================================== *)
(** * Strings and sorting                                                 *)
(* ===================================================================== *)

Module JsFacts.
Import Js SortSpec TextSpec.

Lemma prefix_iff (q s : string) :
  String.prefix q s = true <-> exists after, s = String.append q after.
Proof.
  revert s. induction q as [|c q IH]; intros s; simpl.
  - destruct s; split; eauto.
  - destruct s as [|d s]; simpl.
    + split; [discriminate | intros [after H]; discriminate].
    + destruct (Ascii.ascii_dec c d) as [->|Hne].
      * rewrite IH. split; intros [after H]; exists after.
        -- simpl. by rewrite H.
        -- simpl in H. by injection H.
      * split; [discriminate | intros [after H]]. simpl in H. by injection H.
Qed.

(** [s.includes(q)] holds exactly when [q] occurs in [s]. *)
Lemma includes_iff (s q : string) :
  includes s q = true <->
  exists before after, s = String.append before (String.append q after).
Proof.
  induction s as [|c s IH]; cbn [includes].
  - destruct (String.prefix q "") eqn:Hp.
    + split; [intros _|reflexivity]. apply prefix_iff in Hp as [after H]. by exists "", after.
    + split; [discriminate|]. intros (before & after & H).
      destruct before; [|discriminate]. simpl in H.
      assert (String.prefix q "" = true) by (apply prefix_iff; eauto). congruence.
  - destruct (String.prefix q (String c s)) eqn:Hp.
    + split; [intros _|reflexivity]. apply prefix_iff in Hp as [after H]. by exists "", after.
    + rewrite IH. split.
      * intros (before & after & H). exists (String c before), after. simpl. by rewrite H.
      * intros (before & after & H). destruct before as [|d before].
        -- simpl in H. assert (String.prefix q (String c s) = true)
             by (apply prefix_iff; eauto). congruence.
        -- simpl in H. injection H as _ H. eauto.
Qed.

(** ** White space at the ends of a text *)

Section Strip.
Variable tokens : list (list ascii).
Hypothesis tokens_nonempty : forall t, In t tokens -> t <> [].

Lemma dropPrefix_Some t s r : dropPrefix t s = Some r <-> s = t ++ r.
Proof.
  revert s. induction t as [|c t IH]; intros s; simpl.
  - split; [by intros [= ->] | by intros ->].
  - destruct s as [|d s]; [split; [done | intros [=]]|].
    destruct (Ascii.eqb_spec c d) as [->|Hne].
    + rewrite IH. split; [by intros -> | by intros [= ->]].
    + split; [done | intros [= -> _]; done].
Qed.

Lemma stripOne_Some s r :
  stripOne tokens s = Some r -> exists t, In t tokens /\ s = t ++ r.
Proof.
  clear tokens_nonempty. induction tokens as [|t ts IH]; simpl; [done|].
  destruct (dropPrefix t s) as [r'|] eqn:Hd.
  - intros [= ->]. exists t. split; [by left | by apply dropPrefix_Some].
  - intros H. destruct (IH H) as (t' & Hin & Hs). exists t'. split; [by right | done].
Qed.

Lemma stripOne_None s :
  stripOne tokens s = None <-> forall t, In t tokens -> forall r, s <> t ++ r.
Proof.
  clear tokens_nonempty. induction tokens as [|t ts IH]; simpl.
  - split; [by intros _ t [] | done].
  - destruct (dropPrefix t s) as [r'|] eqn:Hd.
    + split; [done|]. intros H. exfalso. apply (H t (or_introl eq_refl) r').
      by apply dropPrefix_Some.
    + rewrite IH. split.
      * intros H t' [<-|Hin] r Hs; [|by apply (H t' Hin r)].
        apply dropPrefix_Some in Hs. congruence.
      * intros H t' Hin. apply H. by right.
Qed.

Lemma stripOne_shorter s r : stripOne tokens s = Some r -> (length r < length s)%nat.
Proof.
  intros H. destruct (stripOne_Some s r H) as (t & Hin & ->).
  pose proof (tokens_nonempty t Hin) as Hne.
  rewrite length_app. destruct t; [done|]. simpl. lia.
Qed.

(** With enough fuel the loop stops at a text that begins with no token,
    having removed a sequence of tokens. *)
Lemma stripAll_spec fuel s :
  (length s <= fuel)%nat ->
  exists removed,
    Forall (fun t => In t tokens) removed
    /\ s = concat removed ++ stripAll fuel tokens s
    /\ stripOne tokens (stripAll fuel tokens s) = None.
Proof.
  revert s. induction fuel as [|fuel IH]; intros s Hlen.
  - destruct s; [|simpl in Hlen; lia]. exists []. simpl. split; [constructor|].
    split; [done|]. apply stripOne_None. intros t Hin r Hs.
    apply (tokens_nonempty t Hin).
    by destruct t.
  - simpl. destruct (stripOne tokens s) as [r|] eqn:Hs.
    + pose proof (stripOne_shorter s r Hs) as Hlt.
      destruct (stripOne_Some s r Hs) as (t & Hin & ->).
      destruct (IH r ltac:(lia)) as (removed & Hall & Hr & Hnone).
      exists (t :: removed). split; [by constructor|]. split; [|done].
      simpl. rewrite <- app_assoc. by f_equal.
    + exists []. split; [constructor|]. by split.
Qed.

Lemma stripAll_None fuel s : stripOne tokens s = None -> stripAll fuel tokens s = s.
Proof. intros H. destruct fuel; simpl; [done|]. by rewrite H. Qed.

(** No token begins with another one. *)
Hypothesis tokens_exact : forall t, In t tokens -> forall r, stripOne tokens (t ++ r) = Some r.

Lemma stripAll_exact fuel removed r :
  Forall (fun t => In t tokens) removed ->
  stripOne tokens r = None ->
  (length (concat removed ++ r) <= fuel)%nat ->
  stripAll fuel tokens (concat removed ++ r) = r.
Proof.
  intros Hall Hnone. revert fuel. induction Hall as [|t ts Hin _ IH]; intros fuel Hlen.
  - simpl. destruct fuel; [done|]. simpl. by rewrite Hnone.
  - simpl in *. rewrite <- app_assoc in *.
    pose proof (tokens_nonempty t Hin) as Hne.
    rewrite length_app in Hlen.
    destruct fuel as [|fuel]; [destruct t; [done | simpl in Hlen; lia]|].
    simpl. rewrite (tokens_exact t Hin). apply IH.
    destruct t; [done|]. simpl in Hlen. lia.
Qed.

End Strip.

Lemma whiteSpace_nonempty t : In t whiteSpace -> t <> [].
Proof. intros Hin. repeat (destruct Hin as [<-|Hin]; [discriminate|]). destruct Hin. Qed.

Lemma whiteSpace_exact t : In t whiteSpace -> forall r, stripOne whiteSpace (t ++ r) = Some r.
Proof.
  intros Hin. repeat (destruct Hin as [<-|Hin]; [intros r; reflexivity|]). destruct Hin.
Qed.

Lemma revSpace_nonempty t : In t (map (@rev ascii) whiteSpace) -> t <> [].
Proof. intros Hin. repeat (destruct Hin as [<-|Hin]; [discriminate|]). destruct Hin. Qed.

Lemma revSpace_exact t :
  In t (map (@rev ascii) whiteSpace) ->
  forall r, stripOne (map (@rev ascii) whiteSpace) (t ++ r) = Some r.
Proof.
  intros Hin. repeat (destruct Hin as [<-|Hin]; [intros r; reflexivity|]). destruct Hin.
Qed.

Lemma text_chars s : text (chars s) = s.
Proof. apply string_of_list_ascii_of_string. Qed.

Lemma chars_text l : chars (text l) = l.
Proof. apply list_ascii_of_string_of_list_ascii. Qed.

Lemma chars_inj s1 s2 : chars s1 = chars s2 -> s1 = s2.
Proof. intros H. by rewrite <- (text_chars s1), <- (text_chars s2), H. Qed.

Lemma chars_app s1 s2 : chars (String.append s1 s2) = chars s1 ++ chars s2.
Proof. induction s1 as [|c s1 IH]; [done|]. unfold String.app. simpl. by rewrite <- IH. Qed.

Lemma chars_empty s : chars s = [] <-> s = "".
Proof. split; [|by intros ->]. by destruct s. Qed.

Lemma rev_concat {A} (l : list (list A)) : rev (concat l) = concat (map (@rev A) (rev l)).
Proof.
  induction l as [|x l IH]; [done|]. simpl.
  rewrite rev_app_distr, IH, map_app, concat_app. simpl. by rewrite app_nil_r.
Qed.

Lemma Forall_spaces_rev (l : list (list ascii)) :
  Forall (fun t => In t (map (@rev ascii) whiteSpace)) l ->
  Forall (fun t => In t whiteSpace) (map (@rev ascii) (rev l)).
Proof.
  intros H. apply List.Forall_forall. intros t Ht.
  apply in_map_iff in Ht as (t' & <- & Ht'). apply in_rev in Ht'.
  rewrite List.Forall_forall in H. specialize (H t' Ht').
  apply in_map_iff in H as (t0 & <- & H0). by rewrite rev_involutive.
Qed.

Lemma Forall_spaces_rev' (l : list (list ascii)) :
  Forall (fun t => In t whiteSpace) l ->
  Forall (fun t => In t (map (@rev ascii) whiteSpace)) (map (@rev ascii) (rev l)).
Proof.
  intros H. apply List.Forall_forall. intros t Ht.
  apply in_map_iff in Ht as (t' & <- & Ht'). apply in_rev in Ht'.
  rewrite List.Forall_forall in H. by apply in_map, H.
Qed.

(** What [trimStart] removes and what it leaves. *)
Lemma trimStart_spec (s : string) :
  exists spaces,
    Forall (fun t => In t whiteSpace) spaces
    /\ chars s = concat spaces ++ chars (trimStart s)
    /\ forall t, In t whiteSpace -> forall r, chars (trimStart s) <> t ++ r.
Proof.
  unfold trimStart. cbv zeta. rewrite chars_text.
  destruct (stripAll_spec whiteSpace whiteSpace_nonempty (length (chars s)) (chars s))
    as (spaces & Hall & Hs & Hnone); [lia|].
  exists spaces. split; [done|]. split; [done|]. by apply stripOne_None.
Qed.

Lemma trimEnd_spec (s : string) :
  exists spaces,
    Forall (fun t => In t whiteSpace) spaces
    /\ chars s = chars (trimEnd s) ++ concat spaces
    /\ forall t, In t whiteSpace -> forall r, chars (trimEnd s) <> r ++ t.
Proof.
  unfold trimEnd. cbv zeta. rewrite chars_text.
  set (revSpace := map (@rev ascii) whiteSpace).
  destruct (stripAll_spec revSpace revSpace_nonempty
              (length (rev (chars s))) (rev (chars s)))
    as (spaces & Hall & Hs & Hnone); [lia|].
  set (kept := stripAll (length (rev (chars s))) revSpace (rev (chars s))) in *.
  exists (map (@rev ascii) (rev spaces)). split; [by apply Forall_spaces_rev|]. split.
  - rewrite <- rev_concat. rewrite <- rev_app_distr, <- Hs. by rewrite rev_involutive.
  - intros t Hin r Hk. rewrite stripOne_None in Hnone.
    apply (Hnone (rev t) (in_map _ _ _ Hin) (rev r)).
    rewrite <- rev_app_distr, <- Hk. by rewrite rev_involutive.
Qed.

Lemma trimStart_fixed (s : string) :
  (forall t, In t whiteSpace -> forall r, chars s <> t ++ r) -> trimStart s = s.
Proof.
  intros H. unfold trimStart. cbv zeta. apply stripOne_None in H.
  rewrite stripAll_None by done. apply text_chars.
Qed.

Lemma trimEnd_fixed (s : string) :
  (forall t, In t whiteSpace -> forall r, chars s <> r ++ t) -> trimEnd s = s.
Proof.
  intros H. unfold trimEnd. cbv zeta.
  assert (Hnone : stripOne (map (@rev ascii) whiteSpace) (rev (chars s)) = None).
  { apply stripOne_None. intros t Hin r Hs.
    apply in_map_iff in Hin as (t0 & <- & Hin).
    apply (H t0 Hin (rev r)). rewrite <- (rev_involutive (chars s)), Hs.
    by rewrite rev_app_distr, rev_involutive. }
  rewrite stripAll_None by done. rewrite rev_involutive. apply text_chars.
Qed.

(** A text that begins with no white space keeps this property when white
    space is removed from its end. *)
Lemma trimEnd_keeps_start (s : string) :
  (forall t, In t whiteSpace -> forall r, chars s <> t ++ r) ->
  forall t, In t whiteSpace -> forall r, chars (trimEnd s) <> t ++ r.
Proof.
  intros H t Hin r Hk. destruct (trimEnd_spec s) as (spaces & _ & Hs & _).
  apply (H t Hin (r ++ concat spaces)). by rewrite Hs, Hk, <- app_assoc.
Qed.

Lemma trim_unpadded (s : string) : unpadded (trim s).
Proof.
  intros t Hin. unfold trim. split.
  - apply trimEnd_keeps_start; [|done]. by destruct (trimStart_spec s) as (_ & _ & _ & H).
  - by destruct (trimEnd_spec (trimStart s)) as (_ & _ & _ & H); apply H.
Qed.

Lemma trim_fixed (s : string) : unpadded s -> trim s = s.
Proof.
  intros H. unfold trim. rewrite trimStart_fixed; [apply trimEnd_fixed|].
  - intros t Hin. by apply H.
  - intros t Hin. by apply H.
Qed.

Lemma trim_idem (s : string) : trim (trim s) = trim s.
Proof. apply trim_fixed, trim_unpadded. Qed.

(** [trim] removes white space from both ends and nothing else. *)
Lemma trim_parts (s : string) :
  exists before after,
    blankText before /\ blankText after
    /\ s = String.append before (String.append (trim s) after).
Proof.
  destruct (trimStart_spec s) as (b & Hb & Hs & _).
  destruct (trimEnd_spec (trimStart s)) as (a & Ha & Hk & _).
  exists (text (concat b)), (text (concat a)).
  split; [exists b; by rewrite chars_text|]. split; [exists a; by rewrite chars_text|].
  apply chars_inj. rewrite !chars_app, !chars_text. unfold trim. by rewrite <- Hk.
Qed.

Lemma blankText_stripAll (spaces : list (list ascii)) fuel :
  Forall (fun t => In t whiteSpace) spaces ->
  (length (concat spaces) <= fuel)%nat ->
  stripAll fuel whiteSpace (concat spaces) = [].
Proof.
  intros Hall Hlen.
  rewrite <- (app_nil_r (concat spaces)) at 1.
  apply (stripAll_exact whiteSpace whiteSpace_nonempty whiteSpace_exact); [done|done|].
  by rewrite app_nil_r.
Qed.

Lemma trim_blank_iff (s : string) : trim s = "" <-> blankText s.
Proof.
  split.
  - intros H. destruct (trim_parts s) as (b & a & [bs [Hb Eb]] & [as_ [Ha Ea]] & Hs).
    rewrite H in Hs. exists (bs ++ as_). split; [by apply Forall_app|].
    rewrite Hs, !chars_app, Eb, Ea, concat_app. done.
  - intros (spaces & Hall & Hs). unfold trim.
    assert (E : trimStart s = "").
    { unfold trimStart. cbv zeta. rewrite Hs, blankText_stripAll by done. reflexivity. }
    rewrite E. reflexivity.
Qed.

Lemma trim_empty : trim "" = "".
Proof. reflexivity. Qed.

Lemma trim_after_space (s : string) : trim (String " "%char s) = trim s.
Proof. reflexivity. Qed.

Lemma filled_iff_trim (s : string) : trim s <> "" <-> ~ blankText s.
Proof. by rewrite trim_blank_iff. Qed.

Lemma unpadded_iff (s : string) : trim s = s <-> unpadded s.
Proof.
  split; [|apply trim_fixed]. intros <-. apply trim_unpadded.
Qed.

(** The decimal notation of an integer is never empty. *)
Lemma numberToString_nonempty (n : Z) : numberToString n <> "".
Proof.
  unfold numberToString.
  destruct (Z.to_int n) as [d|d]; simpl; [|discriminate].
  destruct d; discriminate.
Qed.

Lemma strOr_nonempty (s d : string) : d <> "" -> strOr s d <> "".
Proof.
  intros Hd. unfold strOr. destruct (String.eqb s "") eqn:E; [done|].
  by apply String.eqb_neq in E.
Qed.

Lemma strOr_empty (d : string) : strOr "" d = d.
Proof. reflexivity. Qed.

Lemma strOr_keep (s d : string) : s <> "" -> strOr s d = s.
Proof. intros Hs. unfold strOr. apply String.eqb_neq in Hs. by rewrite Hs. Qed.

Lemma strFalsy_iff (s : string) : strFalsy s = true <-> s = "".
Proof. apply String.eqb_eq. Qed.

(** ** The array sort *)

Section Sort.
Context {A : Type} (comparefn : A -> A -> option Z).

Lemma sortInsert_perm a l : Permutation (sortInsert comparefn a l) (a :: l).
Proof.
  induction l as [|b l IH]; simpl; [done|].
  destruct (sortCompare comparefn a b <=? 0); [done|].
  rewrite IH. apply perm_swap.
Qed.

Lemma arraySort_perm l : Permutation (arraySort comparefn l) l.
Proof.
  induction l as [|a l IH]; simpl; [done|].
  rewrite sortInsert_perm. by constructor.
Qed.

Lemma sortInsert_sorted P a l :
  Consistent comparefn P -> P a -> Forall P l ->
  StronglySorted (notAfter comparefn) l -> StronglySorted (notAfter comparefn) (sortInsert comparefn a l).
Proof.
  intros HC Ha Hl Hs. induction Hs as [|b l Hs IH Hb]; simpl.
  - constructor; constructor.
  - apply Forall_cons in Hl as [Pb Hl].
    destruct (Z.leb_spec (sortCompare comparefn a b) 0) as [Hle|Hgt].
    + constructor; [by constructor|]. constructor; [exact Hle|].
      rewrite Forall_forall in Hb, Hl |- *. intros c Hc.
      apply (consistent_trans comparefn P HC a b c); auto.
    + constructor; [by apply IH|].
      assert (Hba : notAfter comparefn b a).
      { destruct (consistent_total comparefn P HC a b Ha Pb) as [H|H]; [|done].
        unfold notAfter in H. lia. }
      rewrite Forall_forall in Hb |- *. intros c Hc.
      rewrite sortInsert_perm in Hc.
      apply elem_of_cons in Hc as [->|Hc]; [done|]. by apply Hb.
Qed.

Lemma arraySort_sorted P l :
  Consistent comparefn P -> Forall P l -> StronglySorted (notAfter comparefn) (arraySort comparefn l).
Proof.
  intros HC Hl. induction l as [|a l IH]; simpl; [constructor|].
  apply Forall_cons in Hl as [Pa Hl].
  apply (sortInsert_sorted P); auto.
  rewrite Forall_forall in Hl |- *. intros c Hc.
  apply Hl. by rewrite arraySort_perm in Hc.
Qed.

End Sort.

(** ** Filters *)

Lemma filter_filter {A} (f g : A -> bool) (l : list A) :
  List.filter g (List.filter f l) = List.filter (fun a => f a && g a) l.
Proof.
  induction l as [|a l IH]; simpl; [done|].
  destruct (f a); simpl; [|done]. destruct (g a); by rewrite IH.
Qed.

Lemma filter_unless {A} (skip : bool) (f : A -> bool) (l : list A) :
  (if skip then l else List.filter f l) = List.filter (fun a => skip || f a) l.
Proof.
  destruct skip; simpl; [|done].
  induction l as [|a l IH]; simpl; [done|]. by rewrite <- IH.
Qed.

End JsFacts.

Module ListFacts.
Import Js JsFacts ReportModule ListSpec SortSpec.
Section Facts.
Context {rt : Runtime} {R : Type} {RL : ReportLike R}.

Lemma numLe_iff (a b : option Z) :
  numLe a b = true <-> exists x y, a = Some x /\ b = Some y /\ x <= y.
Proof.
  destruct a as [x|], b as [y|]; simpl.
  - rewrite Z.leb_le. split; [eauto|]. intros (x' & y' & [= <-] & [= <-] & H). done.
  - split; [done|]. intros (? & ? & _ & [=] & _).
  - split; [done|]. intros (? & ? & [=] & _).
  - split; [done|]. intros (? & ? & [=] & _).
Qed.

Lemma nat_of_lowerAscii (c : ascii) :
  nat_of_ascii (lowerAscii c)
  = if ((65 <=? nat_of_ascii c) && (nat_of_ascii c <=? 90))%nat
    then (nat_of_ascii c + 32)%nat else nat_of_ascii c.
Proof.
  unfold lowerAscii.
  destruct ((65 <=? nat_of_ascii c) && (nat_of_ascii c <=? 90))%nat eqn:E; [|done].
  apply andb_true_iff in E as [E1 E2].
  apply Nat.leb_le in E1, E2. apply nat_ascii_embedding. lia.
Qed.

Lemma lowerAscii_same (c d : ascii) : lowerAscii c = lowerAscii d <-> sameLetter c d.
Proof.
  unfold sameLetter. cbv zeta. split.
  - intros H. apply (f_equal nat_of_ascii) in H. rewrite !nat_of_lowerAscii in H.
    destruct (Nat.leb_spec 65 (nat_of_ascii c)), (Nat.leb_spec (nat_of_ascii c) 90),
      (Nat.leb_spec 65 (nat_of_ascii d)), (Nat.leb_spec (nat_of_ascii d) 90);
      simpl in H; lia.
  - intros H.
    rewrite <- (ascii_nat_embedding (lowerAscii c)), <- (ascii_nat_embedding (lowerAscii d)).
    f_equal. rewrite !nat_of_lowerAscii.
    destruct (Nat.leb_spec 65 (nat_of_ascii c)), (Nat.leb_spec (nat_of_ascii c) 90),
      (Nat.leb_spec 65 (nat_of_ascii d)), (Nat.leb_spec (nat_of_ascii d) 90);
      simpl; lia.
Qed.

Lemma lowerAsciiText_same (a b : string) :
  lowerAsciiText a = lowerAsciiText b <-> sameLetters a b.
Proof.
  revert b. induction a as [|c a IH]; intros [|d b]; simpl; try (split; done).
  rewrite <- IH, <- lowerAscii_same. split; [by intros [= -> ->] | by intros [-> ->]].
Qed.

Lemma lowerAsciiText_app (a b : string) :
  lowerAsciiText (String.append a b)
  = String.append (lowerAsciiText a) (lowerAsciiText b).
Proof.
  induction a as [|c a IH]; [done|].
  change (String.append (String c a) b) with (String c (String.append a b)).
  simpl. rewrite IH. reflexivity.
Qed.

Lemma lowerAsciiText_app_inv (s x y : string) :
  lowerAsciiText s = String.append x y ->
  exists s1 s2, s = String.append s1 s2 /\ lowerAsciiText s1 = x /\ lowerAsciiText s2 = y.
Proof.
  revert s. induction x as [|c x IH]; intros s H.
  - exists "", s. by repeat split.
  - change (String.append (String c x) y) with (String c (String.append x y)) in H.
    destruct s as [|d s]; [done|]. simpl in H. injection H as Hc Hs.
    destruct (IH s Hs) as (s1 & s2 & -> & H1 & H2).
    exists (String d s1), s2. repeat split; [|done]. simpl. by rewrite Hc, H1.
Qed.

(** The lower-cased query occurs in the lower-cased text exactly when some
    part of the text reads as the query, letter for letter. *)
Lemma occursInAnyCase_iff (q s : string) :
  (exists before after,
     lowerAsciiText s
     = String.append before (String.append (lowerAsciiText q) after))
  <-> occursInAnyCase q s.
Proof.
  split.
  - intros (before & after & H).
    apply lowerAsciiText_app_inv in H as (s1 & s' & -> & _ & H).
    apply lowerAsciiText_app_inv in H as (s2 & s3 & -> & H & _).
    exists s1, s2, s3. split; [done|]. by apply lowerAsciiText_same.
  - intros (before & found & after & -> & H). apply lowerAsciiText_same in H.
    exists (lowerAsciiText before), (lowerAsciiText after).
    by rewrite !lowerAsciiText_app, H.
Qed.

Lemma keeps_iff (q startDate endDate : string) (r : R) :
  keeps q startDate endDate r = true <-> Kept q startDate endDate r.
Proof.
  unfold keeps, Kept, matchesSearch, onOrAfter, onOrBefore, occursIgnoringCase.
  rewrite !andb_true_iff, !orb_true_iff, !strFalsy_iff, !includes_iff, !numLe_iff.
  tauto.
Qed.

Lemma filteredAndSortedReports_eq (reports : list R) (q startDate endDate sortBy : string) :
  filteredAndSortedReports reports q startDate endDate sortBy
  = arraySort (compareReports sortBy) (List.filter (keeps q startDate endDate) reports).
Proof.
  unfold filteredAndSortedReports. cbv zeta. f_equal.
  rewrite !filter_unless, !filter_filter.
  apply List.filter_ext. intros r. unfold keeps, numGe, startOfDay.
  by rewrite andb_assoc.
Qed.

Lemma StronglySorted_weaken {A} (P : A -> Prop) (R1 R2 : A -> A -> Prop) (l : list A) :
  (forall a b, P a -> P b -> R1 a b -> R2 a b) ->
  Forall P l -> StronglySorted R1 l -> StronglySorted R2 l.
Proof.
  intros HR HP Hs. induction Hs as [|a l Hs IH Ha]; [constructor|].
  apply Forall_cons in HP as [Pa HP]. constructor; [by apply IH|].
  rewrite Forall_forall in Ha, HP |- *. intros b Hb. apply HR; auto.
Qed.

Lemma Forall_filter {A} (P : A -> Prop) (f : A -> bool) (l : list A) :
  Forall P l -> Forall P (List.filter f l).
Proof.
  induction 1 as [|a l Pa _ IH]; simpl; [constructor|].
  destruct (f a); [by constructor | done].
Qed.

Lemma consistent_date_asc : Consistent (compareReports "date-asc") hasDate.
Proof.
  split; unfold notAfter, sortCompare, compareReports, hasDate; simpl.
  - intros a b [ta ->] [tb ->]. simpl. lia.
  - intros a b c [ta ->] [tb ->] [tc ->]. simpl. lia.
Qed.

Lemma consistent_date_desc sortBy :
  String.eqb sortBy "date-asc" = false -> String.eqb sortBy "teacher-asc" = false ->
  Consistent (compareReports sortBy) hasDate.
Proof.
  intros E1 E2.
  split; unfold notAfter, sortCompare, compareReports, hasDate; rewrite E1, E2.
  - intros a b [ta ->] [tb ->]. simpl. lia.
  - intros a b c [ta ->] [tb ->] [tc ->]. simpl. lia.
Qed.

Lemma consistent_teacher_asc `{!Collation rt} :
  Consistent (compareReports "teacher-asc") (fun _ => True).
Proof.
  split; unfold notAfter, sortCompare, compareReports; simpl.
  - intros a b _ _. apply localeCompare_total.
  - intros a b c _ _ _. apply localeCompare_trans.
Qed.

Lemma arraySort_in_order (sortBy : string) (l : list R) :
  Sortable sortBy l -> StronglySorted (InOrder sortBy) (arraySort (compareReports sortBy) l).
Proof.
  unfold Sortable, InOrder.
  destruct (String.eqb sortBy "date-asc") eqn:E1;
    [|destruct (String.eqb sortBy "teacher-asc") eqn:E2].
  - apply String.eqb_eq in E1 as ->. intros Hd.
    assert (Hd' : Forall hasDate (arraySort (compareReports "date-asc") l)).
    { rewrite Forall_forall in Hd |- *. intros r Hr. apply Hd.
      by rewrite arraySort_perm in Hr. }
    eapply (StronglySorted_weaken hasDate); [|exact Hd'|].
    2: { apply (arraySort_sorted _ hasDate); [apply consistent_date_asc | exact Hd]. }
    intros a b [ta Ha] [tb Hb]. unfold notAfter, sortCompare, compareReports. simpl.
    rewrite Ha, Hb. simpl. intros H. exists ta, tb. repeat split; lia.
  - apply String.eqb_eq in E2 as ->. intros HC.
    eapply (StronglySorted_weaken (fun _ => True)).
    3: { apply (arraySort_sorted _ (fun _ => True)); [apply consistent_teacher_asc|].
         rewrite Forall_forall. done. }
    + intros a b _ _ H. exact H.
    + rewrite Forall_forall. done.
  - intros Hd.
    assert (Hd' : Forall hasDate (arraySort (compareReports sortBy) l)).
    { rewrite Forall_forall in Hd |- *. intros r Hr. apply Hd.
      by rewrite arraySort_perm in Hr. }
    eapply (StronglySorted_weaken hasDate); [|exact Hd'|].
    2: { apply (arraySort_sorted _ hasDate); [by apply consistent_date_desc | exact Hd]. }
    intros a b [ta Ha] [tb Hb]. unfold notAfter, sortCompare, compareReports.
    rewrite E1, E2, Ha, Hb. simpl. intros H. exists ta, tb. repeat split; lia.
Qed.

Lemma Sortable_filter (sortBy : string) (f : R -> bool) (l : list R) :
  Sortable sortBy l -> Sortable sortBy (List.filter f l).
Proof.
  unfold Sortable.
  destruct (String.eqb sortBy "date-asc"); [apply Forall_filter|].
  destruct (String.eqb sortBy "teacher-asc"); [done | apply Forall_filter].
Qed.

Lemma filter_perm {A} (f : A -> bool) (l l' : list A) :
  Permutation l l' -> Permutation (List.filter f l) (List.filter f l').
Proof.
  induction 1 as [|a l l' _ IH|a b l|l1 l2 l3 _ IH1 _ IH2]; simpl.
  - done.
  - destruct (f a); [by constructor | done].
  - destruct (f a), (f b); try done. apply perm_swap.
  - by rewrite IH1.
Qed.

Lemma Sortable_perm (sortBy : string) (l l' : list R) :
  Permutation l l' -> Sortable sortBy l -> Sortable sortBy l'.
Proof.
  intros Hp. unfold Sortable.
  destruct (String.eqb sortBy "date-asc"); [by apply Permutation_Forall|].
  destruct (String.eqb sortBy "teacher-asc"); [done | by apply Permutation_Forall].
Qed.

(** A render reorders the delivered array at most. *)
Lemma reportsAfterRender_perm (reports : list R) (q startDate endDate sortBy : string) :
  Permutation (reportsAfterRender reports q startDate endDate sortBy) reports.
Proof.
  unfold reportsAfterRender.
  destruct (strFalsy q) eqn:Eq, (strFalsy startDate) eqn:Es, (strFalsy endDate) eqn:Ee;
    simpl; try done.
  unfold filteredAndSortedReports. rewrite Eq, Es, Ee. apply arraySort_perm.
Qed.

(** Earlier renders may have sorted the delivered array in place; the list
    displayed next is still the kept reports of the delivered array, in the
    order of the selected key. *)
Lemma displayed_after_earlier_renders
  (delivered reports : list R) (q startDate endDate sortBy : string) :
  Permutation reports delivered ->
  Permutation (filteredAndSortedReports reports q startDate endDate sortBy)
              (List.filter (keeps q startDate endDate) delivered)
  /\ (Sortable sortBy delivered ->
      StronglySorted (InOrder sortBy)
        (filteredAndSortedReports reports q startDate endDate sortBy)).
Proof.
  intros Hp. rewrite filteredAndSortedReports_eq. split.
  - rewrite arraySort_perm. by apply filter_perm.
  - intros Hs. apply arraySort_in_order, Sortable_filter.
    eapply Sortable_perm; [symmetry; exact Hp | exact Hs].
Qed.

(** On ASCII texts the search condition reads letter for letter. *)
Lemma Kept_ascii `{!CaseMapping rt} (q startDate endDate : string) (r : R) :
  asciiOnly q = true -> asciiOnly (report_teacherName r) = true ->
  asciiOnly (report_subject r) = true ->
  Kept q startDate endDate r
  <-> matchesInAnyCase q r /\ onOrAfter startDate r /\ onOrBefore endDate r.
Proof.
  intros Hq Hn Hs. unfold Kept, matchesSearch, matchesInAnyCase, occursIgnoringCase.
  rewrite !(toLowerCase_ascii _ Hq), (toLowerCase_ascii _ Hn), (toLowerCase_ascii _ Hs).
  by rewrite !occursInAnyCase_iff.
Qed.

(** C3. The list a report module displays is the sort of the filter of the
    reports.  A report is kept exactly when the query (if any) occurs, case
    ignored, in its teacher name or its subject and its date lies between
    the start and the end date (where set), both included; on ASCII texts
    "case ignored" is spelled out letter by letter.  The list holds the
    kept reports, each as often as [reports] holds it, and is in the order
    of the selected key whenever the key orders the reports; for the two
    date keys it is then the stable sort of the kept reports. *)
Theorem displayed_is_sort_of_filter
  (reports : list R) (q startDate endDate sortBy : string) :
  let shown := filteredAndSortedReports reports q startDate endDate sortBy in
  let kept := List.filter (keeps q startDate endDate) reports in
  (forall r, keeps q startDate endDate r = true <-> Kept q startDate endDate r)
  /\ (CaseMapping rt ->
      forall r, asciiOnly q = true -> asciiOnly (report_teacherName r) = true ->
                asciiOnly (report_subject r) = true ->
                (Kept q startDate endDate r
                 <-> matchesInAnyCase q r /\ onOrAfter startDate r
                     /\ onOrBefore endDate r))
  /\ Permutation shown kept
  /\ (forall r, In r shown <-> In r reports /\ Kept q startDate endDate r)
  /\ (Sortable sortBy reports -> StronglySorted (InOrder sortBy) shown)
  /\ (Forall hasDate reports -> sortBy <> "teacher-asc" ->
      shown = arraySort (compareReports sortBy) kept).
Proof.
  intros shown kept. subst shown kept.
  rewrite filteredAndSortedReports_eq.
  split; [apply keeps_iff|]. split; [intros HC r; by apply Kept_ascii|].
  split; [apply arraySort_perm|]. split; [|split].
  - intros r. rewrite <- keeps_iff, <- filter_In. split; apply Permutation_in.
    + apply arraySort_perm.
    + symmetry. apply arraySort_perm.
  - intros Hs. apply arraySort_in_order. by apply Sortable_filter.
  - reflexivity.
Qed.

End Facts.
End ListFacts.

(* ===================================================================== *)
(** * The reference runtime is a runtime                                  *)
(* ===================================================================== *)

Module ReferenceFacts.
Import Js Reference.

Lemma compare_not_Gt_trans (a b c : string) :
  String.compare a b <> Gt -> String.compare b c <> Gt -> String.compare a c <> Gt.
Proof.
  revert b c. induction a as [|x a IH]; intros [|y b] [|z c]; simpl; try done.
  unfold Ascii.compare.
  destruct (N.compare_spec (N_of_ascii x) (N_of_ascii y)) as [Exy|Lxy|Gxy];
    destruct (N.compare_spec (N_of_ascii y) (N_of_ascii z)) as [Eyz|Lyz|Gyz];
    destruct (N.compare_spec (N_of_ascii x) (N_of_ascii z)) as [Exz|Lxz|Gxz];
    try done; try lia; try (intros; apply (IH b c); assumption).
Qed.

#[export] Instance collation : Collation runtime.
Proof.
  split; simpl; unfold compareCodeUnits.
  - intros a b. rewrite (String.compare_antisym a b).
    destruct (String.compare b a); simpl; lia.
  - intros a b c Hab Hbc.
    pose proof (compare_not_Gt_trans a b c) as H.
    destruct (String.compare a b), (String.compare b c), (String.compare a c);
      try lia; exfalso; apply H; done.
Qed.

Lemma lowerLatin1_ascii (s : string) :
  asciiOnly s = true -> lowerLatin1 s = lowerAsciiText s.
Proof.
  induction s as [|c s IH]; [done|]. intros H.
  cbn [asciiOnly] in H. apply andb_true_iff in H as [Hc Hs].
  apply Nat.ltb_lt in Hc. specialize (IH Hs).
  cbn [lowerLatin1 lowerAsciiText]. destruct s as [|d s]; [done|].
  assert (E : (nat_of_ascii c =? 195)%nat = false) by (apply Nat.eqb_neq; lia).
  rewrite E. cbn [andb]. by rewrite IH.
Qed.

#[export] Instance caseMapping : CaseMapping runtime.
Proof. split. apply lowerLatin1_ascii. Qed.

End ReferenceFacts.

(* ===================================================================== *)
(** * The list view on sample data                                        *)
(* ===================================================================== *)

Module ListExamples.
Import Js ReportModule ListSpec ListFacts Reference Samples.

(** The query matches a teacher name or a subject, whatever the case; both
    boundary dates belong to the range. *)
Example search_and_range :
  map Supervision.id
    (filteredAndSortedReports sampleReports "AMINA" "2024-03-01" "2024-03-10" "date-asc")
  = ["2"]
  /\ map Supervision.id
       (filteredAndSortedReports sampleReports "an" "" "" "teacher-asc")
     = ["1"; "4"]
  /\ map Supervision.id
       (filteredAndSortedReports sampleReports "" "2024-03-01" "2024-03-10" "date-desc")
     = ["4"; "1"; "2"].
Proof. vm_compute. repeat split. Qed.

Lemma sampleReports_sortable sortBy : Sortable sortBy sampleReports.
Proof.
  unfold Sortable.
  assert (H : Forall (fun r => is_Some (Date_parse (report_date r))) sampleReports).
  { repeat constructor; eexists; vm_compute; reflexivity. }
  destruct (String.eqb sortBy "date-asc"); [exact H|].
  destruct (String.eqb sortBy "teacher-asc"); [apply ReferenceFacts.collation | exact H].
Qed.

(** The reference runtime finds an accented name under a query of the
    other case; an unreadable date puts a report outside every range. *)
Example search_beyond_ascii :
  let reports :=
    [reportOn "5" "ÉMILE ZOLA" "Français" "2024-03-02";
     reportOn "6" "Émile Durkheim" "Sociology" "soon"] in
  map Supervision.id (filteredAndSortedReports reports "émile" "" "" "teacher-asc")
  = ["5"; "6"]
  /\ map Supervision.id (filteredAndSortedReports reports "FRANÇ" "" "" "date-desc")
     = ["5"]
  /\ map Supervision.id
       (filteredAndSortedReports reports "" "2024-01-01" "" "teacher-asc")
     = ["5"].
Proof. vm_compute. repeat split. Qed.

Lemma displayed_is_sort_of_filter_witness :
  let shown := filteredAndSortedReports sampleReports "an" "2024-02-20" "2024-03-10" "date-asc" in
  let kept := List.filter (keeps "an" "2024-02-20" "2024-03-10") sampleReports in
  (forall r : Supervision.SupervisionReport,
      keeps "an" "2024-02-20" "2024-03-10" r = true
      <-> Kept "an" "2024-02-20" "2024-03-10" r)
  /\ (CaseMapping runtime ->
      forall r : Supervision.SupervisionReport,
        asciiOnly "an" = true -> asciiOnly (report_teacherName r) = true ->
        asciiOnly (report_subject r) = true ->
        (Kept "an" "2024-02-20" "2024-03-10" r
         <-> matchesInAnyCase "an" r /\ onOrAfter "2024-02-20" r
             /\ onOrBefore "2024-03-10" r))
  /\ Permutation shown kept
  /\ (forall r, In r shown <-> In r sampleReports /\ Kept "an" "2024-02-20" "2024-03-10" r)
  /\ (Sortable "date-asc" sampleReports -> StronglySorted (InOrder "date-asc") shown)
  /\ (Forall hasDate sampleReports -> "date-asc" <> "teacher-asc" ->
      shown = arraySort (compareReports "date-asc") kept).
Proof.
  exact (displayed_is_sort_of_filter sampleReports "an" "2024-02-20" "2024-03-10" "date-asc").
Defined.

End ListExamples.

(* ===================================================================== *)
(** * Bulk export                                                         *)
(* ===================================================================== *)

Module BulkFacts.
Import Js ReportModule.
Section Facts.
Context {rt : Runtime} {R : Type} {RL : ReportLike R}.

Lemma generateBulkPdfDocument_nil dom : Pdf.generateBulkPdfDocument dom [] = None.
Proof. reflexivity. Qed.

(** C8. When the displayed list is empty, a bulk export is answered by the
    alert "No reports to export." and nothing else happens: the module
    state is unchanged, no document is composed and no file is saved.
    Composing a document from the empty list of regions yields no
    document. *)
Theorem empty_list_bulk_export_rejected
  (dom : Pdf.Dom) (bulkPrefix fileStem today : string) (reports : list R) (st : State) :
  displayed reports st = [] ->
  handleBulkExport (displayed reports st) st = (st, [Alert "No reports to export."])
  /\ Pdf.generateBulkPdfDocument dom
       (map (fun r => String.append bulkPrefix (report_id r)) (displayed reports st)) = None
  /\ (forall file,
        ~ In (Save file)
             (snd (bulkExport dom bulkPrefix fileStem today (displayed reports st) st)))
  /\ (isBulkExporting st = false ->
      bulkExport dom bulkPrefix fileStem today (displayed reports st) st
      = (st, [Alert "No reports to export."])).
Proof.
  intros ->. split; [reflexivity|]. split; [reflexivity|]. split.
  - intros file. unfold bulkExport, handleBulkExport, performExport. simpl.
    destruct (isBulkExporting st); simpl; intros H;
      repeat (destruct H as [H|H]; [discriminate|]); exact H.
  - intros Hb. unfold bulkExport, handleBulkExport, performExport. simpl.
    by rewrite Hb.
Qed.

End Facts.

Lemma empty_list_bulk_export_rejected_witness :
  let rt := Reference.runtime in
  let st := mkState LIST None "zebra" "date-desc" "" "" false in
  let reports := Samples.sampleReports in
  displayed reports st = []
  /\ handleBulkExport (displayed reports st) st = (st, [Alert "No reports to export."])
  /\ Pdf.generateBulkPdfDocument Samples.sampleDom
       (map (fun r => String.append "bulk-pdf-supervision-" (report_id r))
            (displayed reports st)) = None
  /\ (forall file,
        ~ In (Save file)
             (snd (bulkExport Samples.sampleDom "bulk-pdf-supervision-"
                     "Supervision_Reports_Bulk_Export_" "2024-03-02"
                     (displayed reports st) st)))
  /\ (isBulkExporting st = false ->
      bulkExport Samples.sampleDom "bulk-pdf-supervision-"
        "Supervision_Reports_Bulk_Export_" "2024-03-02" (displayed reports st) st
      = (st, [Alert "No reports to export."])).
Proof.
  intros rt st reports.
  assert (He : displayed reports st = []) by (vm_compute; reflexivity).
  split; [exact He|].
  exact (empty_list_bulk_export_rejected Samples.sampleDom "bulk-pdf-supervision-"
           "Supervision_Reports_Bulk_Export_" "2024-03-02" reports st He).
Defined.

(** With a report on display the same click produces the file. *)
Example bulk_export_of_two_reports :
  let rt := Reference.runtime in
  let st := mkState LIST None "" "date-asc" "" "" false in
  let shown := [Samples.reportOn "17" "Amina Okello" "Mathematics" "2024-03-01";
                Samples.reportOn "18" "Brian Mwangi" "Physics" "2024-03-05"] in
  exists doc,
    bulkExport Samples.sampleDom "bulk-pdf-supervision-"
      "Supervision_Reports_Bulk_Export_" "2024-03-02" (displayed shown st) st
    = (st, [Save (Pdf.mkSaved "Supervision_Reports_Bulk_Export_2024-03-02.pdf" doc)])
    /\ length (Pdf.pages doc) = 2%nat.
Proof. eexists. split; reflexivity. Qed.

End BulkFacts.

(* ===================================================================== *)
(** * The report forms                                                    *)
(* ===================================================================== *)

Module FormFacts.
Import Js JsFacts Db ReportModule FormSpec.






(** A new report receives the time stamp; an edited report keeps its id. *)
Example submit_new_and_edited :
  let fresh := Samples.sampleReport "" "Amina Okello" 4 in
  let edited := Samples.sampleReport "1700000000000" "Amina Okello" 5 in
  snd (Supervision.handleSubmit fresh 1709286000000)
  = OnSave (Samples.sampleReport "1709286000000" "Amina Okello" 4)
  /\ snd (Supervision.handleSubmit edited 1709286000000) = OnSave edited.
Proof. split; reflexivity. Qed.

End FormFacts.

(* ===================================================================== *)
(** * The reactive query bridge                                           *)
(* ===================================================================== *)

Module LiveQueryFacts.
Import LiveQuery.
Section Facts.
Context {T : Type}.

Lemma deliver_error_data (err : string) (h : Hook T) :
  data (deliver (Error err) h) = data h.
Proof. unfold deliver. destruct (subscribed h); reflexivity. Qed.

Lemma deliver_subscribed (e : Emission T) (h : Hook T) :
  subscribed (deliver e h) = subscribed h.
Proof. unfold deliver. destruct (subscribed h) eqn:E, e; simpl; congruence. Qed.

Lemma deliverAll_unsubscribed (es : list (Emission T)) (h : Hook T) :
  subscribed h = false -> deliverAll es h = h.
Proof.
  revert h. induction es as [|e es IH]; intros h Hs; [reflexivity|].
  unfold deliverAll in *. simpl. unfold deliver at 2. rewrite Hs. by apply IH.
Qed.

Lemma deliverAll_data (es : list (Emission T)) (h : Hook T) :
  subscribed h = true -> data (deliverAll es h) = lastResult es (data h).
Proof.
  revert h. induction es as [|e es IH]; intros h Hs; [reflexivity|].
  unfold deliverAll in *. simpl.
  rewrite IH by (by rewrite deliver_subscribed).
  unfold deliver. rewrite Hs. by destruct e.
Qed.

Lemma lastResult_only_errors (es : list (Emission T)) (before : option T) :
  (forall result, ~ In (Next result) es) -> lastResult es before = before.
Proof.
  induction es as [|e es IH]; intros Hn; [reflexivity|].
  destruct e as [result|err]; simpl.
  - exfalso. apply (Hn result). by left.
  - apply IH. intros result Hin. apply (Hn result). by right.
Qed.

(** C9. The value of a live query is "not yet available" until a first
    result is delivered; a read that throws is logged, and it leaves the
    value that was delivered last in place.  The value observed is always
    the last result delivered, whatever errors occurred in between. *)
Theorem live_query_keeps_last_result
  (dexieAvailable : bool) (es : list (Emission T)) (err : string) :
  data (mount dexieAvailable (@initial T)) = None
  /\ ((forall result, ~ In (Next result) es) -> useLiveQuery dexieAvailable es = None)
  /\ (let h := deliverAll es (mount true initial) in
      deliver (Error err) h
      = mkHook (data h) (console h ++ [String.append "useLiveQuery error: " err]) true)
  /\ useLiveQuery true (es ++ [Error err]) = useLiveQuery true es
  /\ useLiveQuery true es = lastResult es None.
Proof.
  assert (Hsub : forall l : list (Emission T),
            subscribed (deliverAll l (mount true initial)) = true).
  { intros l. unfold deliverAll. induction l as [|e l IH] using rev_ind; [reflexivity|].
    rewrite fold_left_app. simpl. by rewrite deliver_subscribed. }
  split; [by destruct dexieAvailable|]. split; [|split; [|split]].
  - intros Hn. unfold useLiveQuery. destruct dexieAvailable.
    + rewrite deliverAll_data by reflexivity. by apply lastResult_only_errors.
    + by rewrite deliverAll_unsubscribed.
  - intros h. unfold deliver, error. subst h. by rewrite Hsub.
  - unfold useLiveQuery, deliverAll. rewrite fold_left_app. simpl.
    apply deliver_error_data.
  - unfold useLiveQuery. by rewrite deliverAll_data.
Qed.

(** A read function that throws on one store state and answers on the
    others: the throw does not disturb what the component sees. *)
Lemma throwing_read_keeps_value {S : Type} (query : S -> string + T)
  (s : S) (err : string) (h : Hook T) :
  query s = inl err -> data (deliver (runQuery query s) h) = data h.
Proof. intros Hq. unfold runQuery. rewrite Hq. apply deliver_error_data. Qed.

End Facts.

Example live_query_trace :
  useLiveQuery true [Next [1; 2]; Error "boom"; Next [1; 2; 3]; Error "again"]
  = Some [1; 2; 3]
  /\ useLiveQuery true [Error "boom"] = (None : option (list Z))
  /\ console (deliverAll [Next 7; Error "boom"] (mount true initial))
     = ["useLiveQuery error: boom"].
Proof. repeat split. Qed.

End LiveQueryFacts.

(* ===================================================================== *)
(** * More on backup and restore                                          *)
(* ===================================================================== *)

Module ImportFacts.
Import Js Db DbFacts Settings ImportSpec.

Lemma importBody_from_empty data s : importBody data s = importBody data emptyStore.
Proof. unfold importBody. unfold bind at 1. unfold bind at 6. reflexivity. Qed.

(** What a successful bulk insert did: the records had distinct fresh keys
    and were added to the table; no other table changed. *)
Lemma bulkAddList_inv t vs : forall s r,
  bulkAddList t vs s = inr (tt, r) ->
  exists l : list (string * value),
    l.*2 = vs /\ NoDup l.*1
    /\ (forall k, k ∈ l.*1 -> table t s !! k = None)
    /\ r = setTable t (list_to_map l ∪ table t s) s.
Proof.
  induction vs as [|v vs IH]; intros s r H; simpl in H.
  - injection H as <-. exists []. simpl. split; [done|]. split; [constructor|].
    split; [intros k Hk; by apply elem_of_nil in Hk|].
    rewrite (left_id_L ∅ (∪)). by rewrite setTable_table.
  - unfold bind, add in H.
    destruct (extractKey (keyPath t) v) as [k|] eqn:Hk; [|discriminate].
    destruct (table t s !! k) eqn:Hfresh; [discriminate|].
    apply IH in H as (l & Hl & Hnd & Hf & ->).
    rewrite table_setTable_eq in Hf |- *. rewrite setTable_setTable.
    assert (Hkl : k ∉ l.*1).
    { intros Hin. specialize (Hf k Hin). rewrite lookup_insert_eq in Hf. discriminate. }
    exists ((k, v) :: l). simpl. split; [by f_equal|]. split; [by constructor|].
    split.
    + intros k' Hin. apply elem_of_cons in Hin as [->|Hin]; [done|].
      specialize (Hf k' Hin). destruct (decide (k = k')) as [->|Hne]; [done|].
      by rewrite lookup_insert_ne in Hf.
    + f_equal. rewrite <- insert_union_r by (by apply not_elem_of_list_to_map_1).
      by rewrite insert_union_l.
Qed.

Lemma importTable_inv data t s r :
  importTable data (backupKey t) t s = inr (tt, r) -> table t s = ∅ ->
  exists vs, fileRows data t = Some vs
             /\ (map_to_list (table t r)).*2 ≡ₚ vs
             /\ forall t', t' <> t -> table t' r = table t' s.
Proof.
  unfold importTable, fileRows. intros H He.
  destruct (getProp data (backupKey t)) as [| |v]; [done| |].
  - injection H as <-. exists []. rewrite He, map_to_list_empty. done.
  - assert (Hnone : forall r', ret tt s = inr (tt, r') ->
              exists vs, Some (@nil value) = Some vs
                /\ (map_to_list (table t r')).*2 ≡ₚ vs
                /\ forall t', t' <> t -> table t' r' = table t' s).
    { intros r' [= <-]. exists []. by rewrite He, map_to_list_empty. }
    destruct v as [|b|n|str|vs|fs]; simpl in *.
    + by apply Hnone.
    + destruct b; [discriminate | by apply Hnone].
    + destruct (n =? 0); simpl in *; [by apply Hnone | discriminate].
    + destruct (String.eqb str ""); simpl in *; [by apply Hnone | discriminate].
    + clear Hnone.
      apply bulkAddList_inv in H as (l & Hl & Hnd & _ & ->).
      exists vs. split; [done|]. split.
      * rewrite table_setTable_eq, He, (right_id_L ∅ (∪)).
        rewrite map_to_list_to_map by done. by rewrite Hl.
      * intros t' Hne. by rewrite table_setTable_ne.
    + discriminate.
Qed.

Lemma import_success_inv text s s' msg :
  handleImportData (Some text) true s = (s', Some (mkFeedback msg success)) ->
  exists data, JSON_parse text = Some data /\ importBody data emptyStore = inr (tt, s').
Proof.
  unfold handleImportData. simpl. destruct (JSON_parse text) as [data|]; [|discriminate].
  unfold transaction. rewrite importBody_from_empty.
  destruct (importBody data emptyStore) as [e|[[] r]] eqn:Hb; [discriminate|].
  intros H. injection H as <- _. exists data. by split.
Qed.

(** A bulk insert fails as soon as a key of the records is in the table. *)
Lemma bulkAddList_clash t (l : list (string * value)) : forall s k,
  Forall (fun row => extractKey (keyPath t) row.2 = Some row.1) l ->
  k ∈ l.*1 -> is_Some (table t s !! k) ->
  exists e, bulkAddList t l.*2 s = inl e.
Proof.
  induction l as [|[k0 v0] l IH]; intros s k Hkey Hin Hk.
  - by apply elem_of_nil in Hin.
  - apply Forall_cons in Hkey as [Hk0 Hkey]. simpl in Hk0.
    cbn [fmap list_fmap snd bulkAddList]. unfold bind, add. rewrite Hk0.
    destruct (table t s !! k0) eqn:H0; [eauto|].
    apply elem_of_cons in Hin as [->|Hin].
    + simpl in Hk. rewrite H0 in Hk. by destruct Hk.
    + apply (IH _ k); [done | done |].
      rewrite table_setTable_eq. destruct (decide (k0 = k)) as [->|Hne].
      * rewrite lookup_insert_eq. eauto.
      * by rewrite lookup_insert_ne.
Qed.

(** A bulk insert fails when the records repeat a key. *)
Lemma bulkAddList_dup t (l : list (string * value)) : forall s,
  Forall (fun row => extractKey (keyPath t) row.2 = Some row.1) l ->
  ~ NoDup l.*1 ->
  exists e, bulkAddList t l.*2 s = inl e.
Proof.
  induction l as [|[k0 v0] l IH]; intros s Hkey Hdup.
  - exfalso. apply Hdup. constructor.
  - pose proof Hkey as Hkey'. apply Forall_cons in Hkey' as [Hk0 Htail]. simpl in Hk0.
    destruct (decide (k0 ∈ l.*1)) as [Hin|Hnot].
    + cbn [fmap list_fmap snd bulkAddList]. unfold bind, add. rewrite Hk0.
      destruct (table t s !! k0) eqn:H0; [eauto|].
      apply (bulkAddList_clash t l _ k0); [done | done |].
      rewrite table_setTable_eq, lookup_insert_eq. eauto.
    + assert (Hd : ~ NoDup l.*1).
      { intros Hnd. apply Hdup. simpl. by constructor. }
      cbn [fmap list_fmap snd bulkAddList]. unfold bind, add. rewrite Hk0.
      destruct (table t s !! k0) eqn:H0; [eauto|]. by apply IH.
Qed.

(** One table of the import, for records with string keys. *)
Lemma importTable_keyed data t (l : list (string * value)) s :
  keyedRows data t l -> table t s = ∅ ->
  (NoDup l.*1 ->
   importTable data (backupKey t) t s = inr (tt, setTable t (list_to_map l) s))
  /\ (~ NoDup l.*1 -> exists e, importTable data (backupKey t) t s = inl e).
Proof.
  intros [Hrows Hkey] He. unfold importTable. unfold fileRows in Hrows.
  assert (Hnil : l.*2 = [] ->
            (NoDup l.*1 -> ret tt s = inr (tt, setTable t (list_to_map l) s))
            /\ (~ NoDup l.*1 -> exists e, @ret unit tt s = inl e)).
  { intros Hl. destruct l; [|discriminate]. split.
    - intros _. unfold ret. simpl. by rewrite <- He, setTable_table.
    - intros Hd. exfalso. apply Hd. constructor. }
  destruct (getProp data (backupKey t)) as [| |v]; [done| |].
  - injection Hrows as Hl. by apply Hnil.
  - destruct v as [|b|n|str|vs|fs]; simpl in *.
    + injection Hrows as Hl. by apply Hnil.
    + destruct b; [discriminate|]. injection Hrows as Hl. by apply Hnil.
    + destruct (n =? 0); simpl in *; [|discriminate]. injection Hrows as Hl. by apply Hnil.
    + destruct (String.eqb str ""); simpl in *; [|discriminate].
      injection Hrows as Hl. by apply Hnil.
    + injection Hrows as ->. split.
      * intros Hnd. rewrite bulkAddList_rows; [| done | | ].
        -- by rewrite He, (right_id_L ∅ (∪)).
        -- intros k v Hin. rewrite Forall_forall in Hkey. apply (Hkey (k, v) Hin).
        -- intros k _. rewrite He. apply lookup_empty.
      * intros Hd. by apply bulkAddList_dup.
    + discriminate.
Qed.

(** The body of the import, for records with string keys. *)
Lemma importBody_keyed (data : value) (rows : TableName -> list (string * value)) :
  (forall t, keyedRows data t (rows t)) ->
  match importBody data emptyStore with
  | inr (_, r) =>
      (forall t, NoDup (rows t).*1)
      /\ r = mkStore (list_to_map (rows Teachers))
                (list_to_map (rows SupervisionReports))
                (list_to_map (rows BookCheckingReports))
                (list_to_map (rows WorkCoverageReports))
                (list_to_map (rows Db.Settings))
  | inl _ => exists t, ~ NoDup (rows t).*1
  end.
Proof.
  intros Hrows.
  unfold importBody. unfold bind at 1. rewrite clearAll_allTables.
  destruct (importTable_keyed data Teachers (rows Teachers) emptyStore (Hrows _) eq_refl)
    as [Y1 N1].
  destruct (decide (NoDup (rows Teachers).*1)) as [D1|D1].
  2: { destruct (N1 D1) as [e E]. cbn [backupKey] in E. unfold bind at 1. rewrite E. eauto. }
  specialize (Y1 D1). cbn [backupKey] in Y1. unfold bind at 1. rewrite Y1.
  set (s1 := setTable Teachers _ emptyStore).
  destruct (importTable_keyed data SupervisionReports (rows SupervisionReports) s1
              (Hrows _) eq_refl) as [Y2 N2].
  destruct (decide (NoDup (rows SupervisionReports).*1)) as [D2|D2].
  2: { destruct (N2 D2) as [e E]. cbn [backupKey] in E. unfold bind at 1. rewrite E. eauto. }
  specialize (Y2 D2). cbn [backupKey] in Y2. unfold bind at 1. rewrite Y2.
  set (s2 := setTable SupervisionReports _ s1).
  destruct (importTable_keyed data BookCheckingReports (rows BookCheckingReports) s2
              (Hrows _) eq_refl) as [Y3 N3].
  destruct (decide (NoDup (rows BookCheckingReports).*1)) as [D3|D3].
  2: { destruct (N3 D3) as [e E]. cbn [backupKey] in E. unfold bind at 1. rewrite E. eauto. }
  specialize (Y3 D3). cbn [backupKey] in Y3. unfold bind at 1. rewrite Y3.
  set (s3 := setTable BookCheckingReports _ s2).
  destruct (importTable_keyed data WorkCoverageReports (rows WorkCoverageReports) s3
              (Hrows _) eq_refl) as [Y4 N4].
  destruct (decide (NoDup (rows WorkCoverageReports).*1)) as [D4|D4].
  2: { destruct (N4 D4) as [e E]. cbn [backupKey] in E. unfold bind at 1. rewrite E. eauto. }
  specialize (Y4 D4). cbn [backupKey] in Y4. unfold bind at 1. rewrite Y4.
  set (s4 := setTable WorkCoverageReports _ s3).
  destruct (importTable_keyed data Db.Settings (rows Db.Settings) s4 (Hrows _) eq_refl)
    as [Y5 N5].
  destruct (decide (NoDup (rows Db.Settings).*1)) as [D5|D5].
  2: { destruct (N5 D5) as [e E]. cbn [backupKey] in E. rewrite E. eauto. }
  specialize (Y5 D5). cbn [backupKey] in Y5. rewrite Y5. split; [by intros []|reflexivity].
Qed.

(** X1. For a backup document in which every table is absent, falsy or
    an array of records with string keys: the import succeeds exactly when
    no array repeats a key.  After a success every table holds exactly the
    records of its array, and no record when the document has none for it:
    nothing of the previous contents survives and nothing else is added.
    When an array repeats a key the import reports the failure and the
    store is the one before the import. *)
Theorem import_loads_exactly_the_file
  (data : value) (rows : TableName -> list (string * value)) (s : Store) :
  (forall t, keyedRows data t (rows t)) ->
  let r := handleImportData (Some (JsonText data)) true s in
  ((forall t, NoDup (rows t).*1) ->
   snd r = Some (mkFeedback
                   "Data imported successfully! The application will now reload." success)
   /\ forall t, BackupSpec.rows t (fst r) ≡ₚ (rows t).*2)
  /\ ((exists t, ~ NoDup (rows t).*1) ->
      r = (s, Some (mkFeedback
                      "Failed to import data. Please ensure the file is a valid backup."
                      error))).
Proof.
  intros Hrows r. subst r. unfold handleImportData. cbn [negb JSON_parse].
  unfold transaction. rewrite importBody_from_empty.
  pose proof (importBody_keyed data rows Hrows) as Hbody.
  destruct (importBody data emptyStore) as [e|[[] r]]; cbn [fst snd].
  - destruct Hbody as [t Hdup]. split; [intros Hnd; by destruct (Hdup (Hnd t)) | done].
  - destruct Hbody as [Hnd ->]. split.
    + intros _. split; [reflexivity|]. unfold BackupSpec.rows.
      intros t. specialize (Hnd t).
      destruct t; cbn [table teachers supervisionReports bookCheckingReports
                         workCoverageReports settings];
        by rewrite map_to_list_to_map.
    + intros [t Hdup]. by destruct (Hdup (Hnd t)).
Qed.

Lemma import_loads_exactly_the_file_witness :
  let data :=
    VObj [("teachers", VArr [Samples.sampleTeacher "t1" "Amina Okello";
                             Samples.sampleTeacher "t2" "Brian Mwangi"]);
          ("settings", VBool false)] in
  let rows := fun t =>
    match t with
    | Teachers => [("t1", Samples.sampleTeacher "t1" "Amina Okello");
                   ("t2", Samples.sampleTeacher "t2" "Brian Mwangi")]
    | _ => []
    end in
  let r := handleImportData (Some (JsonText data)) true Samples.sampleStore in
  ((forall t, NoDup (rows t).*1) ->
   snd r = Some (mkFeedback
                   "Data imported successfully! The application will now reload." success)
   /\ forall t, BackupSpec.rows t (fst r) ≡ₚ (rows t).*2)
  /\ ((exists t, ~ NoDup (rows t).*1) ->
      r = (Samples.sampleStore,
           Some (mkFeedback
                   "Failed to import data. Please ensure the file is a valid backup."
                   error))).
Proof.
  intros data rows.
  apply (import_loads_exactly_the_file data rows Samples.sampleStore).
  intros []; (split; [reflexivity | repeat constructor]).
Defined.

(** A backup that repeats the id of a teacher is refused as a whole. *)
Example import_of_repeated_key :
  handleImportData
    (Some (JsonText
       (VObj [("settings", VArr [Samples.sampleSetting "reportFooter" "Internal"]);
              ("teachers", VArr [Samples.sampleTeacher "t7" "Amina Okello";
                                 Samples.sampleTeacher "t7" "Brian Mwangi"])])))
    true Samples.sampleStore
  = (Samples.sampleStore,
     Some (mkFeedback
             "Failed to import data. Please ensure the file is a valid backup." error)).
Proof. reflexivity. Qed.

(** X2. The outcome of an import does not depend on what the store held:
    the message is the same for any two stores, and after a success the
    two stores are equal. *)
Theorem import_ignores_previous_contents (text : FileText) (s1 s2 : Store) :
  snd (handleImportData (Some text) true s1) = snd (handleImportData (Some text) true s2)
  /\ (forall msg,
        snd (handleImportData (Some text) true s1) = Some (mkFeedback msg success) ->
        fst (handleImportData (Some text) true s1)
        = fst (handleImportData (Some text) true s2)).
Proof.
  unfold handleImportData. simpl. destruct (JSON_parse text) as [data|]; [|split; [done|]].
  - unfold transaction. rewrite (importBody_from_empty data s1), (importBody_from_empty data s2).
    destruct (importBody data emptyStore) as [e|[[] r]]; simpl; [|done].
    split; [done|]. intros msg [=].
  - intros msg [=].
Qed.

(** X3. A file that is valid JSON but has none of the five arrays (a
    number, a string, an array, an empty object) is imported "successfully":
    every table is emptied.  The JSON text [null] is rejected and changes
    nothing. *)
Theorem import_without_arrays_erases_everything (data : value) (s : Store) :
  (forall t, getProp data (backupKey t) = ReadUndefined) ->
  handleImportData (Some (JsonText data)) true s
  = (emptyStore,
     Some (mkFeedback "Data imported successfully! The application will now reload." success))
  /\ handleImportData (Some (JsonText VNull)) true s
     = (s, Some (mkFeedback
              "Failed to import data. Please ensure the file is a valid backup." error)).
Proof.
  intros H. split; [|reflexivity].
  unfold handleImportData. simpl. unfold transaction, importBody.
  unfold bind at 1. rewrite clearAll_allTables.
  unfold importTable.
  pose proof (H Teachers) as H1. pose proof (H SupervisionReports) as H2.
  pose proof (H BookCheckingReports) as H3. pose proof (H WorkCoverageReports) as H4.
  pose proof (H Db.Settings) as H5. simpl in H1, H2, H3, H4, H5.
  rewrite H1, H2, H3, H4, H5. reflexivity.
Qed.

Lemma import_without_arrays_erases_everything_witness :
  handleImportData (Some (JsonText (VNum 42))) true Samples.sampleStore
  = (emptyStore,
     Some (mkFeedback "Data imported successfully! The application will now reload." success))
  /\ handleImportData (Some (JsonText VNull)) true Samples.sampleStore
     = (Samples.sampleStore,
        Some (mkFeedback
                "Failed to import data. Please ensure the file is a valid backup." error)).
Proof.
  apply (import_without_arrays_erases_everything (VNum 42) Samples.sampleStore).
  intros []; reflexivity.
Defined.

End ImportFacts.

(* ===================================================================== *)
(** * Saving and deleting rows                                            *)
(* ===================================================================== *)

Module RowFacts.
Import Js Db DbFacts ReportModule.

(** X4. A save of a record with a string id writes the record under
    that id and nothing else: the other rows of the table and the other
    tables are untouched, the table grows by one row exactly when the id is
    new, and the module returns to the list with no selection. *)
Theorem handleSave_writes_one_row
  (t : TableName) (v : value) (k : string) (w : Store * State) :
  extractKey (keyPath t) v = Some k ->
  let w' := ReportModule.handleSave t v w in
  table t (fst w') !! k = Some v
  /\ (forall k', k' <> k -> table t (fst w') !! k' = table t (fst w) !! k')
  /\ (forall t', t' <> t -> table t' (fst w') = table t' (fst w))
  /\ size (table t (fst w'))
     = match table t (fst w) !! k with
       | Some _ => size (table t (fst w))
       | None => S (size (table t (fst w)))
       end
  /\ view (snd w') = LIST /\ selectedReportId (snd w') = None.
Proof.
  intros Hk w'. subst w'. rewrite (SaveFacts.handleSave_put _ _ _ _ Hk). simpl.
  rewrite table_setTable_eq.
  split; [apply lookup_insert_eq|].
  split; [intros k' Hne; by rewrite lookup_insert_ne|].
  split; [intros t' Hne; by rewrite table_setTable_ne|].
  split; [|done].
  destruct (table t (fst w) !! k) eqn:Hl.
  - assert (Hs : size (table t (fst w)) = S (size (base.delete k (table t (fst w))))).
    { rewrite <- (insert_id (table t (fst w)) k v0 Hl) at 1.
      rewrite <- insert_delete_eq. apply map_size_insert_None, lookup_delete_eq. }
    rewrite Hs, <- insert_delete_eq. apply map_size_insert_None, lookup_delete_eq.
  - by apply map_size_insert_None.
Qed.

Lemma handleSave_writes_one_row_witness :
  let v := Supervision.toValue (Samples.sampleReport "1709286000000" "Amina Okello" 5) in
  let w := (Samples.sampleStore, ReportView.onAddNew initialState) in
  let w' := ReportModule.handleSave SupervisionReports v w in
  table SupervisionReports (fst w') !! "1709286000000" = Some v
  /\ (forall k', k' <> "1709286000000" ->
        table SupervisionReports (fst w') !! k' = table SupervisionReports (fst w) !! k')
  /\ (forall t', t' <> SupervisionReports -> table t' (fst w') = table t' (fst w))
  /\ size (table SupervisionReports (fst w'))
     = match table SupervisionReports (fst w) !! "1709286000000" with
       | Some _ => size (table SupervisionReports (fst w))
       | None => S (size (table SupervisionReports (fst w)))
       end
  /\ view (snd w') = LIST /\ selectedReportId (snd w') = None.
Proof.
  intros v w.
  apply (handleSave_writes_one_row SupervisionReports v "1709286000000" w).
  reflexivity.
Defined.

(** X5. A confirmed delete removes the row with the given id and nothing
    else; without the confirmation, or when no row has that id, the store
    is left as it was.  The module state is never changed. *)
Theorem handleDelete_removes_one_row
  (t : TableName) (rid : string) (confirmed : bool) (w : Store * State) :
  let w' := handleDelete t rid confirmed w in
  snd w' = snd w
  /\ (confirmed = false -> w' = w)
  /\ (table t (fst w) !! rid = None -> w' = w)
  /\ (confirmed = true ->
      table t (fst w') !! rid = None
      /\ (forall k, k <> rid -> table t (fst w') !! k = table t (fst w) !! k)
      /\ (forall t', t' <> t -> table t' (fst w') = table t' (fst w))).
Proof.
  intros w'. subst w'. unfold handleDelete. destruct confirmed; simpl.
  - split; [done|]. split; [done|]. split.
    + intros Hn. rewrite delete_id by done. rewrite setTable_table. by destruct w.
    + intros _. rewrite table_setTable_eq.
      split; [apply lookup_delete_eq|].
      split; [intros k Hne; by rewrite lookup_delete_ne|].
      intros t' Hne. by rewrite table_setTable_ne.
  - split; [done|]. split; [done|]. split; [done|]. done.
Qed.

(** X6. Saving a record under a new id and then deleting that id gives
    back the store as it was before the save. *)
Theorem save_then_delete_restores_store
  (t : TableName) (v : value) (k : string) (w : Store * State) :
  extractKey (keyPath t) v = Some k ->
  table t (fst w) !! k = None ->
  fst (handleDelete t k true (ReportModule.handleSave t v w)) = fst w.
Proof.
  intros Hk Hfresh. rewrite (SaveFacts.handleSave_put _ _ _ _ Hk).
  unfold handleDelete. simpl.
  rewrite table_setTable_eq, setTable_setTable.
  rewrite delete_insert_eq, delete_id by done. apply setTable_table.
Qed.

Lemma save_then_delete_restores_store_witness :
  fst (handleDelete SupervisionReports "1700000000001" true
         (ReportModule.handleSave SupervisionReports
            (Supervision.toValue (Samples.sampleReport "1700000000001" "Brian Mwangi" 3))
            (Samples.sampleStore, initialState)))
  = fst (Samples.sampleStore, initialState).
Proof.
  apply (save_then_delete_restores_store SupervisionReports
           (Supervision.toValue (Samples.sampleReport "1700000000001" "Brian Mwangi" 3))
           "1700000000001" (Samples.sampleStore, initialState)).
  - reflexivity.
  - vm_compute. reflexivity.
Defined.

End RowFacts.

(* ===================================================================== *)
(** * What the forms accept                                               *)
(* ===================================================================== *)

Module ValidationFacts.
Import Js JsFacts ReportModule ValidationSpec.

Lemma setIf_app_empty (c : bool) (field msg : string) (l : list (string * string)) :
  (length (setIf c field msg ++ l) =? 0)%nat = negb c && (length l =? 0)%nat.
Proof. by destruct c. Qed.

Lemma setIf_empty (c : bool) (field msg : string) :
  (length (setIf c field msg) =? 0)%nat = negb c.
Proof. by destruct c. Qed.

Lemma filled_iff (s : string) : negb (strFalsy (trim s)) = true <-> filled s.
Proof.
  unfold filled, strFalsy. rewrite negb_true_iff, String.eqb_neq. apply filled_iff_trim.
Qed.

Lemma present_iff (s : string) : negb (strFalsy s) = true <-> s <> "".
Proof. unfold strFalsy. rewrite negb_true_iff. apply String.eqb_neq. Qed.


Lemma countAccepted_iff (s : string) :
  negb (strFalsy (trim s) || numLe (parseInt s) (Some 0)) = true <-> countAccepted s.
Proof.
  unfold countAccepted. rewrite negb_orb, andb_true_iff, filled_iff.
  destruct (parseInt s) as [n|]; simpl.
  - rewrite negb_true_iff, Z.leb_gt. split.
    + intros [Hf Hn]. split; [done|]. by intros n' [= <-].
    + intros [Hf Hn]. split; [done|]. by apply Hn.
  - split; intros [Hf _]; (split; [done|]); done.
Qed.

Lemma supervision_valid_iff formData :
  snd (Supervision.validateForm formData) = true <-> supervisionComplete formData.
Proof.
  unfold Supervision.validateForm, supervisionComplete. cbv zeta. simpl snd.
  rewrite !setIf_app_empty, setIf_empty, !andb_true_iff, !filled_iff, present_iff.
  tauto.
Qed.


Lemma workCoverage_valid_iff formData :
  snd (WorkCoverage.validateForm formData) = true <-> workCoverageComplete formData.
Proof.
  unfold WorkCoverage.validateForm, workCoverageComplete. cbv zeta. simpl snd.
  rewrite !setIf_app_empty, setIf_empty, !andb_true_iff, !filled_iff, !present_iff.
  tauto.
Qed.

Lemma flag_iff_no_errors (errors : list (string * string)) :
  (length errors =? 0)%nat = true <-> errors = [].
Proof. destruct errors; simpl; split; done. Qed.

Lemma supervision_complete_saves (formData : Supervision.SupervisionReport) (now : Z) :
  supervisionComplete formData ->
  Supervision.handleSubmit formData now
  = ([], OnSave (Supervision.withId
                   (strOr (Supervision.id formData) (numberToString now)) formData)).
Proof.
  intros Hc. apply (supervision_valid_iff formData) in Hc.
  unfold Supervision.handleSubmit.
  destruct (Supervision.validateForm formData) as [errors ok] eqn:Hv.
  assert (Hok : ok = (length errors =? 0)%nat).
  { unfold Supervision.validateForm in Hv. by injection Hv as <- <-. }
  simpl in Hc. rewrite Hok in Hc. rewrite Hok, Hc.
  apply flag_iff_no_errors in Hc. by subst errors.
Qed.

(** X7. The supervision form saves exactly when its thirteen text
    fields are filled (more than white space; the date merely non-empty):
    then no error is shown and the report is handed to the module.
    Otherwise at least one error is shown with the alert, and nothing is
    saved.  The rating plays no part: a report rated 0 is accepted. *)
Theorem supervision_form_saves_iff_complete (formData : Supervision.SupervisionReport) (now : Z) :
  (supervisionComplete formData ->
   Supervision.handleSubmit formData now
   = ([], OnSave (Supervision.withId (strOr (Supervision.id formData) (numberToString now)) formData)))
  /\ (~ supervisionComplete formData ->
      exists errors,
        errors <> []
        /\ Supervision.handleSubmit formData now
           = (errors, AlertUser "Please fill out all required fields.")).
Proof.
  pose proof (supervision_valid_iff formData) as Hiff.
  unfold Supervision.handleSubmit.
  destruct (Supervision.validateForm formData) as [errors ok] eqn:Hv.
  assert (Hok : ok = (length errors =? 0)%nat).
  { unfold Supervision.validateForm in Hv. by injection Hv as <- <-. }
  simpl in Hiff. split.
  - intros Hc. apply Hiff in Hc. subst ok. rewrite Hc.
    apply flag_iff_no_errors in Hc as ->. reflexivity.
  - intros Hn. destruct ok.
    + exfalso. by apply Hn, Hiff.
    + exists errors. split; [|reflexivity]. intros ->. simpl in Hok. discriminate.
Qed.


(** X9. The work-coverage form saves exactly when teacher, class,
    subject, planned topics and completed topics are filled, the date is
    set and both signatures are present; pending topics and remarks are
    optional. *)
Theorem workCoverage_form_saves_iff_complete (formData : WorkCoverage.WorkCoverageReport) (now : Z) :
  (workCoverageComplete formData ->
   WorkCoverage.handleSubmit formData now
   = ([], OnSave (WorkCoverage.withId (strOr (WorkCoverage.id formData) (numberToString now)) formData)))
  /\ (~ workCoverageComplete formData ->
      exists errors,
        errors <> []
        /\ WorkCoverage.handleSubmit formData now
           = (errors, AlertUser "Please fill out all required fields, including signatures.")).
Proof.
  pose proof (workCoverage_valid_iff formData) as Hiff.
  unfold WorkCoverage.handleSubmit.
  destruct (WorkCoverage.validateForm formData) as [errors ok] eqn:Hv.
  assert (Hok : ok = (length errors =? 0)%nat).
  { unfold WorkCoverage.validateForm in Hv. by injection Hv as <- <-. }
  simpl in Hiff. split.
  - intros Hc. apply Hiff in Hc. subst ok. rewrite Hc.
    apply flag_iff_no_errors in Hc as ->. reflexivity.
  - intros Hn. destruct ok.
    + exfalso. by apply Hn, Hiff.
    + exists errors. split; [|reflexivity]. intros ->. simpl in Hok. discriminate.
Qed.

(** A count that is not a number passes; zero does not, and neither does
    white space, be it a no-break space (U+00A0) or an ideographic space
    (U+3000). *)
Example books_checked_edge_cases :
  countAccepted "abc" /\ countAccepted "12 books" /\ ~ countAccepted "0"
  /\ ~ countAccepted "-3" /\ ~ countAccepted "   "
  /\ ~ countAccepted (String "194" (String "160" " "))
  /\ ~ filled (String "227" (String "128" (String "128" "")))
  /\ filled (String "194" (String "160" "x")).
Proof.
  rewrite <- !countAccepted_iff, <- !filled_iff. repeat split; vm_compute; congruence.
Qed.

(** A class name that is a no-break space (U+00A0) is as good as none. *)
Example no_break_space_is_blank :
  Supervision.handleSubmit
    (Supervision.mkReport "" "Amina Okello" (String "194" (String "160" ""))
       "Mathematics" "2024-03-01" 0 "Fractions" "Group work" "High" "Calm" "Charts"
       "Quiz" "Clear" "Pace" "More practice")
    1709286000000
  = ([("className", "Class is required.")],
     AlertUser "Please fill out all required fields.").
Proof. reflexivity. Qed.

End ValidationFacts.

(* ===================================================================== *)
(** * Bulk export when regions are missing                                *)
(* ===================================================================== *)

Module BulkMoreFacts.
Import Js Pdf PdfSpec PdfFacts ReportModule.

Lemma bulkLoop_skip dom pw ph i elementId rest pdf :
  dom elementId = None ->
  bulkLoop dom pw ph i (elementId :: rest) pdf = bulkLoop dom pw ph (S i) rest pdf.
Proof. intros Hdom. simpl. unfold generateCanvas. by rewrite Hdom. Qed.

Lemma bulkLoop_later dom pw ph : forall elementIds i pdf,
  bulkLoop dom pw ph (S i) elementIds pdf
  = mkPdf (pdfWidth pdf) (pdfHeight pdf)
      (pages pdf ++ map (fun canvas => [placed pw ph canvas])
                        (omap (generateCanvas dom) elementIds)).
Proof.
  induction elementIds as [|e es IH]; intros i pdf.
  - simpl. rewrite app_nil_r. by destruct pdf.
  - cbn [omap list_omap].
    destruct (generateCanvas dom e) as [c|] eqn:Hc; unfold generateCanvas in Hc.
    + rewrite (bulkLoop_step _ _ _ _ _ _ _ c Hc), IH.
      simpl. rewrite onLastPage_snoc, <- app_assoc. reflexivity.
    + rewrite (bulkLoop_skip _ _ _ _ _ _ _ Hc), IH. reflexivity.
Qed.

(** The document of a non-empty list, written out: the first page holds
    the first region when it is captured, every later captured region has a
    page of its own. *)
Lemma generateBulk_cons (dom : Dom) (e : string) (es : list string) :
  generateBulkPdfDocument dom (e :: es)
  = Some (mkPdf a4Width a4Height
            (match generateCanvas dom e with
             | Some canvas => [placed a4Width a4Height canvas]
             | None => []
             end
             :: map (fun canvas => [placed a4Width a4Height canvas])
                  (omap (generateCanvas dom) es))).
Proof.
  unfold generateBulkPdfDocument.
  destruct (generateCanvas dom e) as [c|] eqn:Hc; unfold generateCanvas in Hc.
  - by rewrite (bulkLoop_step _ _ _ _ _ _ _ c Hc), bulkLoop_later.
  - by rewrite (bulkLoop_skip _ _ _ _ _ _ _ Hc), bulkLoop_later.
Qed.

Lemma omap_all_None (dom : Dom) (es : list string) :
  Forall (fun elementId => generateCanvas dom elementId = None) es ->
  omap (generateCanvas dom) es = [].
Proof.
  induction 1 as [|x l Hx _ IH]; [done|]. cbn [omap list_omap]. by rewrite Hx, IH.
Qed.

Lemma concat_singletons (pw ph : Q) (cs : list Canvas) :
  concat (map (fun canvas => [placed pw ph canvas]) cs) = map (placed pw ph) cs.
Proof. induction cs as [|c cs IH]; simpl; [done | by rewrite IH]. Qed.

(** X10. For a non-empty list of regions the bulk composition always
    returns a document.  Its images are the captured regions, each once and
    in the order of the list; a region that cannot be captured is skipped.
    The document has one page more than there are captured regions after
    the first position, so it starts with a blank page when the first
    region is missing, and it is a single blank page when none is
    captured. *)
Theorem bulk_document_skips_missing_regions (dom : Dom) (elementIds : list string) :
  elementIds <> [] ->
  exists doc,
    generateBulkPdfDocument dom elementIds = Some doc
    /\ concat (pages doc)
       = map (placed a4Width a4Height) (omap (generateCanvas dom) elementIds)
    /\ length (pages doc) = S (length (omap (generateCanvas dom) (tail elementIds)))
    /\ (Forall (fun elementId => generateCanvas dom elementId = None) elementIds ->
        doc = newPdf).
Proof.
  intros Hne. destruct elementIds as [|e es]; [done|]. clear Hne.
  rewrite generateBulk_cons. eexists. split; [reflexivity|].
  cbn [omap list_omap tail pages concat length]. rewrite concat_singletons, length_map.
  split; [|split; [reflexivity|]].
  - by destruct (generateCanvas dom e).
  - intros Hall. apply Forall_cons in Hall as [Hd Hall].
    by rewrite Hd, (omap_all_None _ _ Hall).
Qed.

Lemma bulk_document_skips_missing_regions_witness :
  exists doc,
    generateBulkPdfDocument Samples.sampleDom
      ["bulk-pdf-supervision-1"; "bulk-pdf-supervision-17"; "bulk-pdf-supervision-18"]
    = Some doc
    /\ concat (pages doc)
       = map (placed a4Width a4Height)
           (omap (generateCanvas Samples.sampleDom)
              ["bulk-pdf-supervision-1"; "bulk-pdf-supervision-17"; "bulk-pdf-supervision-18"])
    /\ length (pages doc)
       = S (length (omap (generateCanvas Samples.sampleDom)
                      (tail ["bulk-pdf-supervision-1"; "bulk-pdf-supervision-17";
                             "bulk-pdf-supervision-18"])))
    /\ (Forall (fun elementId => generateCanvas Samples.sampleDom elementId = None)
          ["bulk-pdf-supervision-1"; "bulk-pdf-supervision-17"; "bulk-pdf-supervision-18"] ->
        doc = newPdf).
Proof.
  apply (bulk_document_skips_missing_regions Samples.sampleDom
           ["bulk-pdf-supervision-1"; "bulk-pdf-supervision-17"; "bulk-pdf-supervision-18"]).
  discriminate.
Defined.

Section ExportEffect.
Context {R : Type} {RL : ReportLike R}.

(** X11. The export effect does nothing unless the export is flagged.
    Its alert "Failed to generate bulk PDF." is shown for an empty list
    only: whenever the effect of a non-empty list ends with an alert or a
    file, it ends with exactly one file and no alert.  The file is named
    by the stem and the date, its document is the bulk composition of the
    listed reports, a single blank page when none of the off-screen
    regions exists, and the flag is reset. *)
Theorem performExport_alert_needs_empty_list
  (dom : Dom) (bulkPrefix fileStem today : string) (shown : list R) (st : State) :
  let result := performExport dom bulkPrefix fileStem today shown st in
  (isBulkExporting st = false -> result = (st, []))
  /\ (forall msg, In (Alert msg) (snd result) ->
        shown = [] /\ msg = "Failed to generate bulk PDF.")
  /\ (forall file, In (Save file) (snd result) ->
        isBulkExporting st = true /\ shown <> []
        /\ result = (setIsBulkExporting false st, [Save file])
        /\ fileName file = String.append (String.append fileStem today) ".pdf"
        /\ generateBulkPdfDocument dom
             (map (fun r => String.append bulkPrefix (report_id r)) shown)
           = Some (document file)
        /\ ((forall r, In r shown -> dom (String.append bulkPrefix (report_id r)) = None) ->
            document file = newPdf)).
Proof.
  intros result. subst result. unfold performExport.
  destruct (isBulkExporting st) eqn:Hflag; cbn [negb].
  2: { split; [done|]. split; [intros msg []|intros file []]. }
  split; [done|]. destruct shown as [|r rs].
  - cbn [map generateBulkPdfDocument snd]. split.
    + intros msg [[= <-]|[]]. done.
    + intros file [[=]|[]].
  - cbn [map]. rewrite generateBulk_cons. cbn [snd]. split.
    + intros msg [[=]|[]].
    + intros file [[= <-]|[]]. cbn [fileName document].
      split; [done|]. split; [done|]. split; [done|]. split; [done|]. split; [done|].
      intros Hnone.
      assert (Hall : Forall (fun elementId => generateCanvas dom elementId = None)
                       (map (fun r => String.append bulkPrefix (report_id r)) (r :: rs))).
      { rewrite Forall_forall. intros e He.
        apply list_elem_of_In, in_map_iff in He as (r' & <- & Hr).
        unfold generateCanvas. apply Hnone, Hr. }
      cbn [map] in Hall. apply Forall_cons in Hall as [Hd Hall].
      by rewrite Hd, (omap_all_None _ _ Hall).
Qed.

End ExportEffect.

(** An export of the sample reports while no off-screen region has been
    rendered saves one blank page. *)
Example export_without_regions :
  performExport (fun _ => None) "bulk-pdf-supervision-"
    "Supervision_Reports_Bulk_Export_" "2024-03-02" Samples.sampleReports
    (mkState LIST None "" "date-desc" "" "" true)
  = (mkState LIST None "" "date-desc" "" "" false,
     [Save (mkSaved "Supervision_Reports_Bulk_Export_2024-03-02.pdf" newPdf)]).
Proof. reflexivity. Qed.

End BulkMoreFacts.

(* ===================================================================== *)
(** * A live query without a subscription                                 *)
(* ===================================================================== *)

Module LiveQueryMoreFacts.
Import LiveQuery LiveQueryFacts.
Section Facts.
Context {T : Type}.

(** X12. Only a live subscription changes what the hook returns.  When
    Dexie is missing the hook logs one diagnostic and returns "not yet
    available" whatever is emitted; after the cleanup of the effect the
    value at that moment is kept and later emissions, results and errors
    alike, are ignored and log nothing. *)
Theorem live_query_needs_subscription (es : list (Emission T)) (h : Hook T) :
  useLiveQuery false es = None
  /\ console (deliverAll es (mount false (@initial T)))
     = ["Dexie is not available on the window object. Make sure it is loaded."]
  /\ deliverAll es (unmount h) = unmount h
  /\ data (deliverAll es (unmount h)) = data h
  /\ console (deliverAll es (unmount h)) = console h.
Proof.
  split; [unfold useLiveQuery; by rewrite deliverAll_unsubscribed|].
  split; [by rewrite deliverAll_unsubscribed|].
  rewrite deliverAll_unsubscribed by reflexivity. done.
Qed.

End Facts.
End LiveQueryMoreFacts.

(* ===================================================================== *)
(** * The teacher form                                                    *)
(* ===================================================================== *)

Module TeacherFacts.
Import Js JsFacts TextSpec Teachers TeacherSpec.

Lemma hasChar_app (c : ascii) (a b : string) :
  hasChar c (String.append a b) = hasChar c a || hasChar c b.
Proof.
  induction a as [|d a IH]; [done|].
  change (String.append (String d a) b) with (String d (String.append a b)).
  simpl. by rewrite IH, orb_assoc.
Qed.

Lemma hasChar_trim (c : ascii) (s : string) :
  hasChar c s = false -> hasChar c (trim s) = false.
Proof.
  intros H. destruct (trim_parts s) as (before & after & _ & _ & Hs).
  rewrite Hs, !hasChar_app in H.
  apply orb_false_iff in H as [_ H]. by apply orb_false_iff in H as [H _].
Qed.

Lemma split_pieces (sep : ascii) (s : string) :
  split sep s <> [] /\ Forall (fun p => hasChar sep p = false) (split sep s).
Proof.
  induction s as [|c s [Hne IH]]; simpl.
  - split; [done|]. by constructor.
  - destruct (Ascii.eqb c sep) eqn:Hc.
    + split; [done|]. by constructor.
    + destruct (split sep s) as [|p ps]; [done|].
      split; [done|]. apply Forall_cons in IH as [Hp Hps].
      constructor; [|done]. simpl. by rewrite Hc, Hp.
Qed.

Lemma split_whole (sep : ascii) (x : string) :
  hasChar sep x = false -> split sep x = [x].
Proof.
  induction x as [|c x IH]; [done|]. simpl. intros H.
  apply orb_false_iff in H as [Hc Hx]. rewrite Hc, (IH Hx). reflexivity.
Qed.

Lemma split_app (sep : ascii) (x r : string) :
  hasChar sep x = false ->
  split sep (String.append x (String sep r)) = x :: split sep r.
Proof.
  induction x as [|c x IH]; simpl.
  - intros _. by rewrite Ascii.eqb_refl.
  - intros H. apply orb_false_iff in H as [Hc Hx]. by rewrite Hc, (IH Hx).
Qed.

Lemma split_join (x : string) (rest : list string) :
  Forall (fun p => hasChar ","%char p = false) (x :: rest) ->
  split ","%char (join ", " (x :: rest)) = x :: map (String " "%char) rest.
Proof.
  revert x. induction rest as [|y rest IH]; intros x Hall.
  - apply Forall_cons in Hall as [Hx _]. simpl. by apply split_whole.
  - apply Forall_cons in Hall as [Hx Hrest].
    change (join ", " (x :: y :: rest))
      with (String.append x (String ","%char (String " "%char (join ", " (y :: rest))))).
    rewrite split_app by done.
    change (split ","%char (String " "%char (join ", " (y :: rest))))
      with (match split ","%char (join ", " (y :: rest)) with
            | piece :: pieces => String " "%char piece :: pieces
            | [] => [String " "%char EmptyString]
            end).
    by rewrite (IH y Hrest).
Qed.

(** Reading back a list the form wrote gives the list. *)
Lemma parseList_join (l : list string) :
  Forall entry l -> parseList (join ", " l) = l.
Proof.
  intros Hall. destruct l as [|x rest]; [reflexivity|].
  unfold parseList. rewrite split_join.
  2: { eapply Forall_impl; [exact Hall|]. by intros p (_ & _ & Hp). }
  apply Forall_cons in Hall as [(Hx & Htx & _) Hrest]. cbn [map List.filter].
  rewrite (trim_fixed x Htx). apply String.eqb_neq in Hx. unfold strFalsy at 1.
  rewrite Hx. cbn [negb].
  f_equal. induction Hrest as [|y rest (Hy & Hty & _) _ IH]; [done|].
  cbn [map List.filter]. rewrite trim_after_space, (trim_fixed y Hty).
  apply String.eqb_neq in Hy. unfold strFalsy at 1. rewrite Hy. cbn [negb]. by f_equal.
Qed.

(** Every entry of a parsed list is an entry. *)
Lemma parseList_entries (text : string) : Forall entry (parseList text).
Proof.
  unfold parseList. destruct (split_pieces ","%char text) as [_ Hp].
  induction Hp as [|p ps Hc _ IH]; simpl; [constructor|].
  destruct (strFalsy (trim p)) eqn:Hf; simpl; [exact IH|].
  constructor; [|exact IH]. split; [by apply String.eqb_neq in Hf|].
  split; [apply trim_unpadded | by apply hasChar_trim].
Qed.

Lemma submitId_nonempty initialData now : submitId initialData now <> "".
Proof.
  destruct initialData as [t|]; simpl.
  - apply strOr_nonempty, numberToString_nonempty.
  - apply numberToString_nonempty.
Qed.

(** X13. The teacher form rejects a name that is blank (empty, or white
    space only, be it ASCII or any other white space of the language) with
    its error message and saves nothing.  Otherwise the teacher it saves
    has a non-empty id (the id of the teacher being edited, else the time
    stamp), the name of the form without the white space around it, and
    lists of subjects and classes whose entries are non-empty, carry no
    surrounding white space and contain no comma. *)
Theorem teacher_form_saves_normal_teachers
  (initialData : option Teacher) (form : Form) (now : Z) :
  (blankText (formName form) ->
   handleSubmit initialData form now
   = (mkForm (formName form) (formSubjects form) (formClasses form)
        "Teacher name is required.", None))
  /\ (~ blankText (formName form) ->
      exists t,
        handleSubmit initialData form now
        = (mkForm (formName form) (formSubjects form) (formClasses form) "", Some t)
        /\ normal t
        /\ (exists before after,
              blankText before /\ blankText after
              /\ formName form = String.append before (String.append (name t) after))
        /\ id t = submitId initialData now
        /\ (forall old, initialData = Some old -> id old <> "" -> id t = id old)).
Proof.
  unfold handleSubmit, strFalsy. split.
  - intros Hb. apply trim_blank_iff in Hb as ->. reflexivity.
  - intros Hn. apply filled_iff_trim in Hn. pose proof Hn as Hn'.
    apply String.eqb_neq in Hn' as ->.
    eexists. split; [reflexivity|]. split.
    + split; [apply submitId_nonempty|]. split; [done|]. split; [apply trim_unpadded|].
      split; apply parseList_entries.
    + split; [apply trim_parts|]. split; [done|].
      intros old -> Hid. simpl. by apply strOr_keep.
Qed.

(** X14. Opening a teacher the form produced and saving it without a
    change saves the same teacher: the lists written into the text fields
    with ", " are read back entry by entry. *)
Theorem teacher_edit_without_change (t : Teacher) (now : Z) :
  normal t ->
  snd (handleSubmit (Some t) (initForm (Some t)) now) = Some t.
Proof.
  intros (Hid & Hname & Htrim & Hs & Hc). apply trim_fixed in Htrim.
  unfold handleSubmit, initForm. cbn [formName formSubjects formClasses].
  assert (Hor : forall s, strOr s "" = s).
  { intros s. unfold strOr. destruct (String.eqb_spec s ""); congruence. }
  rewrite !Hor, Htrim. unfold strFalsy.
  apply String.eqb_neq in Hname as ->. simpl.
  rewrite !parseList_join by done. rewrite strOr_keep by done. by destruct t.
Qed.

Lemma teacher_edit_without_change_witness :
  snd (handleSubmit
         (Some (mkTeacher "1709286000000" "Amina Okello" ["Mathematics"; "Physics"]
                  ["Grade 10A"]))
         (initForm
            (Some (mkTeacher "1709286000000" "Amina Okello" ["Mathematics"; "Physics"]
                     ["Grade 10A"])))
         1709290000000)
  = Some (mkTeacher "1709286000000" "Amina Okello" ["Mathematics"; "Physics"] ["Grade 10A"]).
Proof.
  apply (teacher_edit_without_change
           (mkTeacher "1709286000000" "Amina Okello" ["Mathematics"; "Physics"] ["Grade 10A"])
           1709290000000).
  assert (Hentry : forall s, s <> "" -> trim s = s -> hasChar ","%char s = false -> entry s).
  { intros s H1 H2 H3. split; [done|]. split; [by apply unpadded_iff | done]. }
  split; [discriminate|]. split; [discriminate|]. split; [by apply unpadded_iff|].
  split;
    repeat (apply List.Forall_cons; [apply Hentry; (discriminate || reflexivity)|]);
    apply List.Forall_nil.
Defined.

(** What the text fields of the form turn into; a name that is a no-break
    space (U+00A0) is refused. *)
Example teacher_form_lists :
  parseList " Math ,, Science,History ,  " = ["Math"; "Science"; "History"]
  /\ parseList "" = []
  /\ join ", " ["Math"; "Science"] = "Math, Science"
  /\ handleSubmit None (mkForm (String "194" (String "160" "")) "Math" "" "") 1709286000000
     = (mkForm (String "194" (String "160" "")) "Math" "" "Teacher name is required.", None).
Proof. repeat split. Qed.

End TeacherFacts.

(* ===================================================================== *)
(** * Views of a report module                                            *)
(* ===================================================================== *)

Module ViewFacts.
Import Js JsFacts ReportModule ReportView ViewSpec.

Lemma step_keeps_selection (st : State) (e : Event) :
  selectionMatchesView st -> selectionMatchesView (step st e).
Proof.
  unfold selectionMatchesView. destruct e as [|rid| | |[rid|]| | | | |]; simpl; eauto.
  destruct (strFalsy rid); simpl; eauto.
Qed.

Lemma run_keeps_selection (events : list Event) : selectionMatchesView (run events).
Proof.
  unfold run. induction events as [|e events IH] using rev_ind; [reflexivity|].
  rewrite fold_left_app. simpl. by apply step_keeps_selection.
Qed.

Section Render.
Context {R : Type} {RL : ReportLike R}.

(** X15. Whatever the user does in a report module, a report is selected
    exactly while the detail view is open.  The form is therefore always
    opened without initial data: the report modules create reports and
    never edit one.  A detail view whose report is no longer among the
    reports falls back to the list. *)
Theorem report_form_is_always_blank (events : list Event) (reports : list R) :
  let st := run events in
  (view st = FORM -> render reports st = FormScreen None)
  /\ (view st = LIST -> selectedReportId st = None /\ render reports st = ListScreen)
  /\ (view st = DETAIL ->
      exists rid,
        selectedReportId st = Some rid
        /\ render reports st
           = match List.find (fun r => String.eqb (report_id r) rid) reports with
             | Some report => DetailScreen report
             | None => ListScreen
             end).
Proof.
  intros st. pose proof (run_keeps_selection events) as Hinv. fold st in Hinv.
  unfold selectionMatchesView, render, selectedReport in *.
  destruct (view st); (split; [|split]); try discriminate; intros _.
  - by rewrite Hinv.
  - by rewrite Hinv.
  - destruct Hinv as [rid Hrid]. exists rid. by rewrite Hrid.
Qed.

End Render.
End ViewFacts.

(* ===================================================================== *)
(** * Edits of the supervision form                                       *)
(* ===================================================================== *)

Module FormEditFacts.
Import Js JsFacts ReportModule Supervision SupervisionForm.

Lemma inputName_inj (i j : Input) : inputName i = inputName j -> i = j.
Proof. destruct i, j; simpl; intros H; try reflexivity; discriminate. Qed.





Lemma clearError_hides (name : string) (errs : list (string * option string)) :
  errorShown name (clearError name errs) = false.
Proof.
  induction errs as [|[k m] errs IH]; simpl.
  - by rewrite String.eqb_refl.
  - destruct (String.eqb k name) eqn:Hk; simpl; by rewrite Hk.
Qed.

Lemma clearError_others (name other : string) (errs : list (string * option string)) :
  other <> name -> errorShown other (clearError name errs) = errorShown other errs.
Proof.
  intros Hne. induction errs as [|[k m] errs IH]; simpl.
  - apply String.eqb_neq in Hne. rewrite String.eqb_sym in Hne. by rewrite Hne.
  - destruct (String.eqb k name) eqn:Hk; simpl.
    + apply String.eqb_eq in Hk as ->.
      apply String.eqb_neq in Hne. rewrite String.eqb_sym in Hne. by rewrite Hne.
    + destruct (String.eqb k other); [done | exact IH].
Qed.

(** X17. Typing into an input of the supervision form hides the error
    shown for that input and leaves the errors of all other inputs as they
    were. *)
Theorem typing_clears_only_its_error (i j : Input) (v : string) (f : Form) :
  errorShown (inputName i) (errors (handleChange i v f)) = false
  /\ (j <> i ->
      errorShown (inputName j) (errors (handleChange i v f))
      = errorShown (inputName j) (errors f)).
Proof.
  unfold handleChange. simpl.
  destruct (errorShown (inputName i) (errors f)) eqn:Hi.
  - split; [apply clearError_hides|]. intros Hne. apply clearError_others.
    intros H. by apply Hne, inputName_inj.
  - split; [exact Hi | done].
Qed.

(** After a submit of the blank form every input shows its error; typing a
    teacher name hides that one. *)
Example errors_after_blank_submit :
  let f := fst (submit (initForm None) 1709286000000) in
  errorShown "teacherName" (errors f) = true
  /\ errorShown "recommendations" (errors f) = true
  /\ errorShown "teacherName" (errors (handleChange teacherNameInput "Amina" f)) = false
  /\ errorShown "recommendations" (errors (handleChange teacherNameInput "Amina" f)) = true.
Proof. repeat split. Qed.

End FormEditFacts.

(* ===================================================================== *)
(** * Navigation                                                          *)
(* ===================================================================== *)

Module AppFacts.
Import Js ReportModule App NavSpec.

Lemma navigate_keeps_link (st : App.State) (n : Nav) :
  linkMatchesPage st -> linkMatchesPage (navigate st n).
Proof.
  unfold linkMatchesPage.
  destruct n as [p|tid|p rid|tid| |]; simpl; try done; try (by destruct p);
    destruct (page st), (activeReport st) as [[q r]|]; done.
Qed.

(** X18. Through any sequence of navigations: a report module on display
    receives a report id exactly when a report link is pending, and then
    it is the id of that link; a navigation to a page by the header drops
    every pending link, teacher and edit request, so that the page opens
    on its list. *)
Theorem pending_link_reaches_its_module (navs : list Nav) (p : Page) :
  let st := fold_left navigate navs App.initialState in
  (page st = SUPERVISION \/ page st = BOOK_CHECKING \/ page st = WORK_COVERAGE ->
   shownReportId st = option_map snd (activeReport st))
  /\ shownReportId (toPage p st) = None
  /\ renderPage (toPage p st)
     = match p with
       | TEACHERS => TeacherManagementModule None
       | SUPERVISION => SupervisionModule None
       | BOOK_CHECKING => BookCheckingModule None
       | WORK_COVERAGE => WorkCoverageModule None
       | SETTINGS => SettingsModule
       | TEACHER_PROFILE | DASHBOARD => Dashboard
       end.
Proof.
  intros st.
  assert (Hinv : linkMatchesPage st).
  { subst st. induction navs as [|n navs IH] using rev_ind; [done|].
    rewrite fold_left_app. simpl. by apply navigate_keeps_link. }
  split; [|split; by destruct p].
  unfold linkMatchesPage, shownReportId, renderPage, reportFor in *.
  intros [Hp|[Hp|Hp]]; rewrite Hp in *;
    destruct (activeReport st) as [[q rid]|]; simpl; try done;
    subst q; by rewrite decide_True.
Qed.

(** X19. Following a link to a report opens the module of that page in
    its detail view with the report selected; going back returns the
    module to its list, clears the selection and consumes the link, so the
    module is then displayed without a report id. *)
Theorem report_link_round_trip (st : App.State) (rid : string) :
  rid <> "" ->
  let st1 := toReport SUPERVISION rid st in
  let m1 := showInitialReport (shownReportId st1) ReportModule.initialState in
  let w2 := backToList (shownReportId st1) (st1, m1) in
  renderPage st1 = SupervisionModule (Some rid)
  /\ view m1 = DETAIL /\ selectedReportId m1 = Some rid
  /\ renderPage (fst w2) = SupervisionModule None
  /\ activeReport (fst w2) = None
  /\ view (snd w2) = LIST /\ selectedReportId (snd w2) = None
  /\ showInitialReport (shownReportId (fst w2)) (snd w2) = snd w2.
Proof.
  intros Hne st1 m1 w2. apply String.eqb_neq in Hne.
  subst w2 m1 st1. unfold toReport, shownReportId, renderPage, reportFor, backToList,
    showInitialReport, strFalsy. simpl. rewrite Hne. simpl. repeat split.
Qed.

Lemma report_link_round_trip_witness :
  let st1 := toReport SUPERVISION "1709286000000" App.initialState in
  let m1 := showInitialReport (shownReportId st1) ReportModule.initialState in
  let w2 := backToList (shownReportId st1) (st1, m1) in
  renderPage st1 = SupervisionModule (Some "1709286000000")
  /\ view m1 = DETAIL /\ selectedReportId m1 = Some "1709286000000"
  /\ renderPage (fst w2) = SupervisionModule None
  /\ activeReport (fst w2) = None
  /\ view (snd w2) = LIST /\ selectedReportId (snd w2) = None
  /\ showInitialReport (shownReportId (fst w2)) (snd w2) = snd w2.
Proof.
  apply (report_link_round_trip App.initialState "1709286000000"). discriminate.
Defined.

End AppFacts.

(* ===================================================================== *)
(** * Recent activity                                                     *)
(* ===================================================================== *)

Module ActivityFacts.
Import Js JsFacts ReportModule Activity ActivitySpec SortSpec.

Lemma StronglySorted_app_parts {A} (R : A -> A -> Prop) (l1 l2 : list A) :
  StronglySorted R (l1 ++ l2) ->
  StronglySorted R l1 /\ Forall (fun a => Forall (R a) l2) l1.
Proof.
  induction l1 as [|a l1 IH]; simpl; intros H.
  - split; constructor.
  - apply StronglySorted_inv in H as [Hs Ha]. destruct (IH Hs) as [H1 H2].
    apply Forall_app in Ha as [Ha1 Ha2].
    split; constructor; done.
Qed.

Lemma mapped_fromTables sup book work :
  Forall (fromTables sup book work)
    (mappedSupervision sup ++ mappedBookChecking book ++ mappedWorkCoverage work).
Proof.
  rewrite !Forall_app. unfold mappedSupervision, mappedBookChecking, mappedWorkCoverage.
  repeat split; rewrite Forall_forall; intros a Ha;
    apply list_elem_of_In, in_map_iff in Ha as (r & <- & Hr); by repeat split.
Qed.

Section Facts.
Context {rt : Runtime}.

Lemma consistent_newestFirst :
  Consistent newestFirst (fun a => is_Some (time a)).
Proof.
  split; unfold notAfter, sortCompare, newestFirst, time.
  - intros a b [ta ->] [tb ->]. simpl. lia.
  - intros a b c [ta ->] [tb ->] [tc ->]. simpl. lia.
Qed.

Lemma arraySort_newestFirst (l : list Tagged) :
  Forall (fun a => is_Some (time a)) l ->
  StronglySorted noOlder (arraySort newestFirst l).
Proof.
  intros Hd.
  assert (Hd' : Forall (fun a => is_Some (time a)) (arraySort newestFirst l)).
  { rewrite Forall_forall in Hd |- *. intros a Ha. apply Hd.
    by rewrite arraySort_perm in Ha. }
  eapply (ListFacts.StronglySorted_weaken (fun a => is_Some (time a))); [|exact Hd'|].
  2: { apply (arraySort_sorted _ (fun a => is_Some (time a)));
         [apply consistent_newestFirst | exact Hd]. }
  intros a b [ta Ha] [tb Hb]. unfold notAfter, sortCompare, newestFirst, noOlder.
  unfold time in *. rewrite Ha, Hb. simpl. intros H. exists ta, tb. repeat split; lia.
Qed.

(** X20. The recent activity of the dashboard shows five reports, or all
    of them when there are fewer; each comes from one of the three tables
    and carries the tag and the page of its kind.  When all dates are
    valid the reports shown are in order, newest first, and no report left
    out is newer than a report shown. *)
Theorem recent_reports_are_the_newest
  (sup : list Supervision.SupervisionReport) (book : list BookChecking.BookCheckingReport)
  (work : list WorkCoverage.WorkCoverageReport) :
  let all := mappedSupervision sup ++ mappedBookChecking book ++ mappedWorkCoverage work in
  let recent := recentReports sup book work in
  length recent = Nat.min 5 (length sup + length book + length work)
  /\ Forall (fromTables sup book work) recent
  /\ exists leftOut,
       Permutation (recent ++ leftOut) all
       /\ (Forall (fun a => is_Some (time a)) all ->
           StronglySorted noOlder recent
           /\ Forall (fun a => Forall (noOlder a) leftOut) recent).
Proof.
  intros all recent. subst recent. unfold recentReports. fold all.
  pose proof (arraySort_perm newestFirst all) as Hperm.
  split; [|split].
  - rewrite length_take, (Permutation_length Hperm). subst all.
    rewrite !length_app. unfold mappedSupervision, mappedBookChecking, mappedWorkCoverage.
    rewrite !length_map. lia.
  - pose proof (mapped_fromTables sup book work) as Hall. fold all in Hall.
    rewrite Forall_forall in Hall |- *. intros a Ha. apply Hall.
    rewrite <- Hperm, <- (firstn_skipn 5 (arraySort newestFirst all)).
    apply elem_of_app. by left.
  - exists (skipn 5 (arraySort newestFirst all)). split.
    + by rewrite firstn_skipn.
    + intros Hd. apply StronglySorted_app_parts. rewrite firstn_skipn.
      by apply arraySort_newestFirst.
Qed.

(** X21. The profile of a teacher lists exactly the reports of the three
    tables that bear the teacher's name, each once and with the tag of its
    kind: as many as the three cards add up to, newest first when all
    dates are valid.  Reports are matched by name, so no report is listed
    when none bears the current name of the teacher; for an unknown
    teacher id the list is empty. *)
Theorem profile_lists_reports_by_name
  (teachers : list Teachers.Teacher) (teacherId : string)
  (sup : list Supervision.SupervisionReport) (book : list BookChecking.BookCheckingReport)
  (work : list WorkCoverage.WorkCoverageReport) :
  let listed := allReports teachers teacherId sup book work in
  match teacher teachers teacherId with
  | None => listed = []
  | Some t =>
      Teachers.id t = teacherId
      /\ (forall a, In a listed <->
            fromTables sup book work a /\ report_teacherName (report a) = Teachers.name t)
      /\ (let '(c1, c2, c3) := cardValues t sup book work in
          length listed = (c1 + c2 + c3)%nat)
      /\ ((forall a, fromTables sup book work a ->
             report_teacherName (report a) <> Teachers.name t) -> listed = [])
      /\ (Forall (fun a => is_Some (time a)) listed -> StronglySorted noOlder listed)
  end.
Proof.
  intros listed. subst listed. unfold allReports.
  destruct (teacher teachers teacherId) as [t|] eqn:Ht; [|reflexivity].
  set (all := mappedSupervision _ ++ mappedBookChecking _ ++ mappedWorkCoverage _).
  pose proof (arraySort_perm newestFirst all) as Hperm.
  assert (Hin : forall a, In a all <->
            fromTables sup book work a /\ report_teacherName (report a) = Teachers.name t).
  { intros a. subst all. unfold mappedSupervision, mappedBookChecking, mappedWorkCoverage.
    rewrite !in_app_iff, !in_map_iff. split.
    - intros [(r & <- & Hr)|[(r & <- & Hr)|(r & <- & Hr)]];
        apply filter_In in Hr as [Hr Hn]; apply String.eqb_eq in Hn;
        (split; [by repeat split | exact Hn]).
    - intros [Hf Hn]. unfold fromTables in Hf. destruct a as [[r|r|r] ty pg]; simpl in *;
        destruct Hf as (Hr & -> & ->); [left | right; left | right; right];
        exists r; (split; [reflexivity|]); apply filter_In;
        (split; [exact Hr | by apply String.eqb_eq]). }
  split; [|split; [|split; [|split]]].
  - apply find_some in Ht as [_ Hid]. by apply String.eqb_eq in Hid.
  - intros a. rewrite <- Hin. split; intros Ha.
    + by apply (Permutation_in _ Hperm).
    + by apply (Permutation_in _ (Permutation_sym Hperm)).
  - unfold cardValues. rewrite (Permutation_length Hperm). subst all.
    rewrite !length_app. unfold mappedSupervision, mappedBookChecking, mappedWorkCoverage.
    rewrite !length_map. lia.
  - intros Hnone. destruct all as [|a rest] eqn:Hall; [reflexivity|]. exfalso.
    destruct (proj1 (Hin a) ltac:(by left)) as [Hf Hn]. by apply (Hnone a).
  - intros Hd. apply arraySort_newestFirst.
    rewrite Forall_forall in Hd |- *. intros a Ha. apply Hd. by rewrite Hperm.
Qed.

End Facts.
End ActivityFacts.

(* ===================================================================== *)
(** * The settings form                                                   *)
(* ===================================================================== *)

Module SettingsFormFacts.
Import Js Db DbFacts Settings SettingsForm.

Lemma findSetting_rows (key : string) (v : value) (l : list (string * value)) :
  NoDup l.*1 ->
  (forall k' v', (k', v') ∈ l -> extractKey "key" v' = Some k') ->
  (key, v) ∈ l ->
  findSetting key l.*2 = Some (Some v).
Proof.
  induction l as [|[k' v'] l IH]; intros Hnd Hkey Hin.
  - by apply elem_of_nil in Hin.
  - simpl in Hnd. apply NoDup_cons in Hnd as [Hk' Hnd].
    pose proof (Hkey k' v' ltac:(left)) as He.
    simpl. unfold extractKey in He.
    destruct v' as [| | | | |fields]; try discriminate.
    simpl. destruct (assoc "key" fields) as [[| | |k| |]|]; try discriminate.
    injection He as ->.
    apply elem_of_cons in Hin as [[= <- <-]|Hin].
    + by rewrite String.eqb_refl.
    + destruct (String.eqb_spec k' key) as [->|Hne].
      * exfalso. apply Hk'. apply list_elem_of_fmap. by exists (key, v).
      * apply IH; [done | | done]. intros k2 v2 H2. apply Hkey. by right.
Qed.

Lemma getSetting_stored (m : gmap string value) (key : string) (v : value) :
  keyed Db.Settings m -> m !! key = Some (setting key v) ->
  getSetting (map_to_list m).*2 key = Some (shown v).
Proof.
  intros Hm Hl. unfold getSetting.
  rewrite (findSetting_rows key (setting key v)).
  - reflexivity.
  - apply NoDup_fst_map_to_list.
  - intros k' v' Hin. apply elem_of_map_to_list in Hin. by apply Hm in Hin.
  - by apply elem_of_map_to_list.
Qed.

(** A setting no row holds reads as the empty string. *)
Lemma findSetting_absent (key : string) (l : list (string * value)) :
  (forall k' v', (k', v') ∈ l -> extractKey "key" v' = Some k') ->
  key ∉ l.*1 ->
  findSetting key l.*2 = Some None.
Proof.
  induction l as [|[k' v'] l IH]; intros Hkey Hnot; [reflexivity|].
  pose proof (Hkey k' v' ltac:(left)) as He.
  simpl. unfold extractKey in He.
  destruct v' as [| | | | |fields]; try discriminate.
  simpl. destruct (assoc "key" fields) as [[| | |k| |]|]; try discriminate.
  injection He as ->.
  destruct (String.eqb_spec k' key) as [->|Hne].
  - exfalso. apply Hnot. simpl. left.
  - apply IH.
    + intros k2 v2 H2. apply Hkey. by right.
    + intros Hin. apply Hnot. simpl. by right.
Qed.

Lemma handleSaveSettings_store (f : Fields) (s : Store) :
  handleSaveSettings f s
  = (setTable Db.Settings
       (<[REPORT_FOOTER := setting REPORT_FOOTER (reportFooter f)]>
        (<[SCHOOL_LOGO := setting SCHOOL_LOGO (schoolLogo f)]>
         (<[SCHOOL_ADDRESS := setting SCHOOL_ADDRESS (schoolAddress f)]>
          (<[SCHOOL_NAME := setting SCHOOL_NAME (schoolName f)]> (Db.settings s))))) s,
     mkFeedback "Settings saved successfully!" success).
Proof. reflexivity. Qed.

(** X22. When saving the settings reports success, the four rows of the
    form are written and every other row and table is left alone.  When
    the rows are loaded again the form shows what was saved: each field as
    it was written, except that a falsy value is shown as the empty
    string. *)
Theorem saved_settings_are_shown_again (f : Fields) (s s' : Store) :
  wellKeyed s ->
  handleSaveSettings f s = (s', mkFeedback "Settings saved successfully!" success) ->
  loadFields (BackupSpec.rows Db.Settings s')
  = Some (mkFields (shown (schoolName f)) (shown (schoolAddress f))
            (shown (schoolLogo f)) (shown (reportFooter f)))
  /\ (forall key v,
        In (key, v) [(SCHOOL_NAME, schoolName f); (SCHOOL_ADDRESS, schoolAddress f);
                     (SCHOOL_LOGO, schoolLogo f); (REPORT_FOOTER, reportFooter f)] ->
        table Db.Settings s' !! key = Some (setting key v))
  /\ (forall t, t <> Db.Settings -> table t s' = table t s)
  /\ (forall k, k <> SCHOOL_NAME -> k <> SCHOOL_ADDRESS -> k <> SCHOOL_LOGO ->
                k <> REPORT_FOOTER ->
                table Db.Settings s' !! k = table Db.Settings s !! k)
  /\ wellKeyed s'.
Proof.
  intros Hs Hsave. rewrite handleSaveSettings_store in Hsave. injection Hsave as <-.
  set (m := <[REPORT_FOOTER := _]> _).
  assert (Hm : keyed Db.Settings m).
  { subst m. repeat (apply keyed_insert; [reflexivity|]). apply (Hs Db.Settings). }
  split; [|split; [|split; [|split]]].
  - unfold loadFields, BackupSpec.rows. simpl (table _ _).
    rewrite (getSetting_stored m SCHOOL_NAME (schoolName f) Hm) by (subst m; by simplify_map_eq).
    rewrite (getSetting_stored m SCHOOL_ADDRESS (schoolAddress f) Hm)
      by (subst m; by simplify_map_eq).
    rewrite (getSetting_stored m SCHOOL_LOGO (schoolLogo f) Hm) by (subst m; by simplify_map_eq).
    rewrite (getSetting_stored m REPORT_FOOTER (reportFooter f) Hm)
      by (subst m; by simplify_map_eq).
    reflexivity.
  - intros key v Hin. simpl (table _ _). subst m.
    repeat (destruct Hin as [[= <- <-]|Hin]; [by simplify_map_eq|]). destruct Hin.
  - intros t Hne. by destruct t.
  - intros k H1 H2 H3 H4. simpl (table _ _). subst m.
    by rewrite !lookup_insert_ne.
  - change (wellKeyed (setTable Db.Settings m s)). by apply wellKeyed_setTable.
Qed.

Lemma saved_settings_are_shown_again_witness :
  let f := mkFields (VStr "Hill School") (VStr "12 Ridge Road") (VStr "") (VStr "Internal") in
  let s' := fst (handleSaveSettings f Samples.sampleStore) in
  loadFields (BackupSpec.rows Db.Settings s')
  = Some (mkFields (shown (schoolName f)) (shown (schoolAddress f))
            (shown (schoolLogo f)) (shown (reportFooter f)))
  /\ (forall key v,
        In (key, v) [(SCHOOL_NAME, schoolName f); (SCHOOL_ADDRESS, schoolAddress f);
                     (SCHOOL_LOGO, schoolLogo f); (REPORT_FOOTER, reportFooter f)] ->
        table Db.Settings s' !! key = Some (setting key v))
  /\ (forall t, t <> Db.Settings -> table t s' = table t Samples.sampleStore)
  /\ (forall k, k <> SCHOOL_NAME -> k <> SCHOOL_ADDRESS -> k <> SCHOOL_LOGO ->
                k <> REPORT_FOOTER ->
                table Db.Settings s' !! k = table Db.Settings Samples.sampleStore !! k)
  /\ wellKeyed s'.
Proof.
  intros f s'.
  apply (saved_settings_are_shown_again f Samples.sampleStore s').
  - exact SettingsFacts.sampleStore_wellKeyed.
  - reflexivity.
Defined.

(** X23. On a store without settings the form loads four empty strings:
    a setting that no row holds reads as the empty string, never as
    "undefined". *)
Theorem missing_settings_load_empty (s : Store) :
  wellKeyed s ->
  SCHOOL_NAME ∉ ids Db.Settings s -> SCHOOL_ADDRESS ∉ ids Db.Settings s ->
  SCHOOL_LOGO ∉ ids Db.Settings s -> REPORT_FOOTER ∉ ids Db.Settings s ->
  loadFields (BackupSpec.rows Db.Settings s) = Some initialFields.
Proof.
  intros Hs H1 H2 H3 H4. unfold loadFields, BackupSpec.rows, getSetting.
  assert (Habs : forall key, key ∉ ids Db.Settings s ->
            findSetting key (map_to_list (table Db.Settings s)).*2 = Some None).
  { intros key Hk. apply findSetting_absent.
    - intros k' v' Hin. apply elem_of_map_to_list in Hin. by apply (Hs Db.Settings) in Hin.
    - intros Hin. apply Hk. unfold ids. apply list_elem_of_fmap in Hin as ([k' v'] & -> & Hin).
      apply elem_of_map_to_list in Hin. apply elem_of_dom. eauto. }
  by rewrite !Habs.
Qed.

Lemma missing_settings_load_empty_witness :
  loadFields (BackupSpec.rows Db.Settings emptyStore) = Some initialFields.
Proof.
  apply (missing_settings_load_empty emptyStore).
  - exact wellKeyed_empty.
  - unfold ids. simpl. rewrite dom_empty_L. apply not_elem_of_empty.
  - unfold ids. simpl. rewrite dom_empty_L. apply not_elem_of_empty.
  - unfold ids. simpl. rewrite dom_empty_L. apply not_elem_of_empty.
  - unfold ids. simpl. rewrite dom_empty_L. apply not_elem_of_empty.
Defined.

End SettingsFormFacts.

(* ===================================================================== *)
(** * The list of teachers                                                *)
(* ===================================================================== *)

Module TeacherListFacts.
Import Js JsFacts Teachers SortSpec.
Section Facts.
Context {rt : Runtime}.

(** X24. The directory lists every teacher once, in the order of the
    collation of the names. *)
Theorem teachers_are_listed_by_name (teachers : list Teacher) :
  Collation rt ->
  Permutation (listed teachers) teachers
  /\ StronglySorted (fun a b => localeCompare (name a) (name b) <= 0) (listed teachers).
Proof.
  intros HC. unfold listed. split; [apply arraySort_perm|].
  eapply (ListFacts.StronglySorted_weaken (fun _ => True)).
  3: { apply (arraySort_sorted _ (fun _ => True)).
       - split; unfold notAfter, sortCompare.
         + intros a b _ _. apply localeCompare_total.
         + intros a b c _ _ _. apply localeCompare_trans.
       - rewrite Forall_forall. done. }
  - intros a b _ _ H. exact H.
  - rewrite Forall_forall. done.
Qed.

End Facts.

Lemma teachers_are_listed_by_name_witness :
  let teachers := [mkTeacher "3" "Carol Njeri" [] []; mkTeacher "1" "Amina Okello" [] [];
                   mkTeacher "2" "Brian Mwangi" ["Physics"] []] in
  Permutation (listed (rt := Reference.runtime) teachers) teachers
  /\ StronglySorted
       (fun a b => localeCompare (Runtime := Reference.runtime) (name a) (name b) <= 0)
       (listed (rt := Reference.runtime) teachers).
Proof.
  intros teachers.
  apply (teachers_are_listed_by_name (rt := Reference.runtime) teachers).
  exact ReferenceFacts.collation.
Defined.

End TeacherListFacts.

(* ===================================================================== *)
(** * Ids given by the clock, ids kept by an edit                         *)
(* ===================================================================== *)

Module IdFacts.
Import Js JsFacts TextSpec Db DbFacts ReportModule ValidationSpec.

(** X25. The id of a new report is the time stamp of its submit and
    nothing else: when two new supervision reports are submitted at the
    same time stamp, the second takes the place of the first, and the
    store is the one the second submit alone would have produced. *)
Theorem same_time_stamp_overwrites
  (first second : Supervision.SupervisionReport) (now : Z) (w : Store * State) :
  supervisionComplete first -> supervisionComplete second ->
  Supervision.id first = "" -> Supervision.id second = "" ->
  let w1 := fst (fst (Supervision.submitForm first now w)) in
  let w2 := fst (fst (Supervision.submitForm second now w1)) in
  table SupervisionReports (fst w1) !! numberToString now
  = Some (Supervision.toValue (Supervision.withId (numberToString now) first))
  /\ table SupervisionReports (fst w2) !! numberToString now
     = Some (Supervision.toValue (Supervision.withId (numberToString now) second))
  /\ fst w2 = fst (fst (fst (Supervision.submitForm second now w)))
  /\ size (table SupervisionReports (fst w2)) = size (table SupervisionReports (fst w1)).
Proof.
  intros Hc1 Hc2 Hi1 Hi2 w1 w2. subst w2 w1. unfold Supervision.submitForm.
  rewrite (ValidationFacts.supervision_complete_saves first now Hc1).
  rewrite !(ValidationFacts.supervision_complete_saves second now Hc2).
  rewrite Hi1, Hi2, !strOr_empty. cbn [fst snd]. unfold Supervision.handleSave.
  rewrite !(SaveFacts.handleSave_put _ _ (numberToString now)) by reflexivity.
  cbn [fst snd]. rewrite !table_setTable_eq, !setTable_setTable.
  split; [apply lookup_insert_eq|]. split; [apply lookup_insert_eq|].
  split; [by rewrite insert_insert_eq|].
  rewrite insert_insert_eq.
  set (m := table SupervisionReports (fst w)).
  destruct (m !! numberToString now) as [v|] eqn:Hm.
  - rewrite <- !(insert_delete_eq m).
    by rewrite !map_size_insert_None by apply lookup_delete_eq.
  - by rewrite !map_size_insert_None.
Qed.

Lemma same_time_stamp_overwrites_witness :
  let first := Samples.sampleReport "" "Amina Okello" 3 in
  let second := Samples.sampleReport "" "Brian Mwangi" 5 in
  let w := (emptyStore, ReportView.onAddNew initialState) in
  let w1 := fst (fst (Supervision.submitForm first 1709286000000 w)) in
  let w2 := fst (fst (Supervision.submitForm second 1709286000000 w1)) in
  table SupervisionReports (fst w1) !! numberToString 1709286000000
  = Some (Supervision.toValue (Supervision.withId (numberToString 1709286000000) first))
  /\ table SupervisionReports (fst w2) !! numberToString 1709286000000
     = Some (Supervision.toValue (Supervision.withId (numberToString 1709286000000) second))
  /\ fst w2 = fst (fst (fst (Supervision.submitForm second 1709286000000 w)))
  /\ size (table SupervisionReports (fst w2)) = size (table SupervisionReports (fst w1)).
Proof.
  intros first second w.
  apply (same_time_stamp_overwrites first second 1709286000000 w);
    first [reflexivity | apply ValidationFacts.supervision_valid_iff; reflexivity].
Defined.

(** X26. Saving the teacher form, with a name that is not blank, while a
    stored teacher with an id is selected replaces the row of that teacher
    and adds none: the ids of the table are the same as before, the row
    holds the new name without the white space around it, the other tables
    are untouched and the module returns to its list. *)
Theorem teacher_edit_replaces_its_row
  (request : option string) (old : Teachers.Teacher) (form : Teachers.Form) (now : Z)
  (w : Store * Teachers.State) :
  Teachers.selectedTeacher (snd w) = Some old ->
  Teachers.id old <> "" ->
  Teachers.id old ∈ ids Db.Teachers (fst w) ->
  ~ blankText (Teachers.formName form) ->
  let w' := fst (Teachers.submitForm request form now w) in
  ids Db.Teachers (fst w') = ids Db.Teachers (fst w)
  /\ (exists t,
        table Db.Teachers (fst w') !! Teachers.id old = Some (Teachers.toValue t)
        /\ Teachers.id t = Teachers.id old
        /\ Teachers.name t = trim (Teachers.formName form))
  /\ (forall t, t <> Db.Teachers -> table t (fst w') = table t (fst w))
  /\ snd w' = Teachers.mkState Teachers.LIST None.
Proof.
  intros Hsel Hid Hin Hname w'. subst w'. unfold Teachers.submitForm. rewrite Hsel.
  unfold Teachers.handleSubmit, strFalsy.
  apply filled_iff_trim in Hname. pose proof Hname as Hn.
  apply String.eqb_neq in Hn as ->.
  set (t := Teachers.mkTeacher _ _ _ _).
  assert (Hkeep : Teachers.id t = Teachers.id old).
  { subst t. simpl. by apply strOr_keep. }
  cbn [fst snd]. unfold Teachers.handleSave, transaction, put.
  assert (Hk : extractKey (keyPath Db.Teachers) (Teachers.toValue t) = Some (Teachers.id old)).
  { by rewrite <- Hkeep. }
  rewrite Hk. cbn [fst snd]. unfold ids. rewrite table_setTable_eq.
  split; [|split; [|split]].
  - rewrite dom_insert_L. unfold ids in Hin.
    apply subseteq_union_1_L. by apply singleton_subseteq_l.
  - exists t. split; [apply lookup_insert_eq | done].
  - intros t' Hne. by rewrite table_setTable_ne.
  - reflexivity.
Qed.

Lemma teacher_edit_replaces_its_row_witness :
  let old := Teachers.mkTeacher "t1" "Amina Okello" ["Mathematics"] ["Grade 10A"] in
  let form := Teachers.mkForm " Amina O. Okello " "Mathematics, Physics" "Grade 10A" "" in
  let w := (Samples.sampleStore, Teachers.handleEdit old Teachers.initialState) in
  let w' := fst (Teachers.submitForm None form 1709290000000 w) in
  ids Db.Teachers (fst w') = ids Db.Teachers (fst w)
  /\ (exists t,
        table Db.Teachers (fst w') !! Teachers.id old = Some (Teachers.toValue t)
        /\ Teachers.id t = Teachers.id old
        /\ Teachers.name t = trim (Teachers.formName form))
  /\ (forall t, t <> Db.Teachers -> table t (fst w') = table t (fst w))
  /\ snd w' = Teachers.mkState Teachers.LIST None.
Proof.
  intros old form w.
  apply (teacher_edit_replaces_its_row None old form 1709290000000 w).
  - reflexivity.
  - discriminate.
  - unfold ids. apply elem_of_dom. eexists. vm_compute. reflexivity.
  - apply filled_iff_trim. vm_compute. discriminate.
Defined.

End IdFacts.
